(** * PolyTool: a shallow embedding of the tool registry, the schema
    synthesizer, the restricted sandbox, the execute_code tool and the agent
    loop, with the properties checked against them.

    Source files embedded here:
      polytool/core/types.py, polytool/core/exceptions.py,
      polytool/tools/registry.py, polytool/tools/decorator.py,
      polytool/tools/universal.py (_normalize_callable),
      polytool/sandbox/base.py, polytool/sandbox/restricted.py,
      polytool/sandbox/e2b.py (the constructor),
      polytool/codegen/executor.py, polytool/codegen/prompts.py,
      polytool/providers/litellm.py, polytool/agent/agent.py.

    Conventions.
    - Coroutines run on one logical thread, so [await] is sequencing: a
      coroutine is a computation in the monad [M] below (a world in, a world
      and an outcome out).
    - A collaborator that is not part of the repository (the JSON decoder, the
      Python parser, the interpreter running sandboxed code, the model
      backend, litellm, the built-in [repr]) is a parameter; collaborators
      are total, i.e. a call that never answers is outside the model.
    - A method call binds its arguments before its body runs: a keyword
      that names a parameter already bound raises TypeError.
    - The tool calls of a Message are records of an identifier, a tool name
      and an argument text, which is what LiteLLMProvider builds; tool calls
      of any other shape are outside the model.
    - A character of a text is one code point below 256.
    - Wall-clock measurements (execution_time_ms) and cost estimates are
      floating-point bookkeeping and are left out of the records. *)

From Stdlib Require Import String Ascii List ZArith Bool Lia DecimalString.
Import ListNotations.
Local Open Scope string_scope.
Local Open Scope Z_scope.

(* ===================================================================== *)
(** * Python exceptions *)
(* ===================================================================== *)

(** The exception classes the program names or meets, with the classes of
    core/exceptions.py.  [UserException n] is any other class that derives
    from [Exception]; [n] is its [__name__].  Intermediate built-in classes
    the program never names (ArithmeticError, OSError, LookupError) are
    skipped in the parent chain. *)
Inductive ExcClass : Type :=
| BaseException
| Exception
| SystemExit
| KeyboardInterrupt
| CancelledError
| TypeError
| ValueError
| AttributeError
| KeyError
| ImportError
| RuntimeError
| NotImplementedError
| ZeroDivisionError
| SyntaxError
| TimeoutError
| JSONDecodeError
| PolyToolError
| ToolError
| SandboxError
| ProviderError
| MCPError
| ValidationError
| UserException (n : string).

Definition ExcClass_eq_dec (c d : ExcClass) : {c = d} + {c <> d}.
Proof. decide equality. apply string_dec. Defined.

Definition ExcClass_eqb (c d : ExcClass) : bool :=
  if ExcClass_eq_dec c d then true else false.

(** The direct base class. *)
Definition parent (c : ExcClass) : option ExcClass :=
  match c with
  | BaseException => None
  | Exception | SystemExit | KeyboardInterrupt | CancelledError =>
      Some BaseException
  | JSONDecodeError => Some ValueError
  | NotImplementedError => Some RuntimeError
  | ToolError | SandboxError | ProviderError | MCPError | ValidationError =>
      Some PolyToolError
  | _ => Some Exception
  end.

(** The class and its bases, nearest first (the chains have at most five
    members). *)
Fixpoint mro (fuel : nat) (c : ExcClass) : list ExcClass :=
  match fuel with
  | O => [c]
  | S fuel' =>
      c :: match parent c with
           | Some p => mro fuel' p
           | None => []
           end
  end.

Definition issubclass (c d : ExcClass) : bool :=
  existsb (ExcClass_eqb d) (mro 5 c).

(** [type(e).__name__]. *)
Definition class_name (c : ExcClass) : string :=
  match c with
  | BaseException => "BaseException"
  | Exception => "Exception"
  | SystemExit => "SystemExit"
  | KeyboardInterrupt => "KeyboardInterrupt"
  | CancelledError => "CancelledError"
  | TypeError => "TypeError"
  | ValueError => "ValueError"
  | AttributeError => "AttributeError"
  | KeyError => "KeyError"
  | ImportError => "ImportError"
  | RuntimeError => "RuntimeError"
  | NotImplementedError => "NotImplementedError"
  | ZeroDivisionError => "ZeroDivisionError"
  | SyntaxError => "SyntaxError"
  | TimeoutError => "TimeoutError"
  | JSONDecodeError => "JSONDecodeError"
  | PolyToolError => "PolyToolError"
  | ToolError => "ToolError"
  | SandboxError => "SandboxError"
  | ProviderError => "ProviderError"
  | MCPError => "MCPError"
  | ValidationError => "ValidationError"
  | UserException n => n
  end.

(** A raised exception: its class and [str(e)]. *)
Record Exn : Type := mkExn { exc_class : ExcClass; exc_msg : string }.

(** [isinstance(e, cls)]. *)
Definition isinstance (e : Exn) (cls : ExcClass) : bool :=
  issubclass (exc_class e) cls.

(** The outcome of a call: a value, or a raised exception. *)
Inductive Res (A : Type) : Type :=
| Ok (a : A)
| Raise (e : Exn).
Arguments Ok {A} a.
Arguments Raise {A} e.

(* ===================================================================== *)
(** * Python values and text *)
(* ===================================================================== *)

(** What a tool or a sandboxed program returns.  [VObj t] is any object
    other than None, a bool, an int or a str; [t] is the text [str()] gives
    for it. *)
Inductive PyVal : Type :=
| VNone
| VBool (b : bool)
| VInt (z : Z)
| VStr (s : string)
| VObj (t : string).

(** [str(n)] for an int. *)
Definition str_of_int (z : Z) : string := NilZero.string_of_int (Z.to_int z).

(** [str(v)]. *)
Definition py_str (v : PyVal) : string :=
  match v with
  | VNone => "None"
  | VBool true => "True"
  | VBool false => "False"
  | VInt z => str_of_int z
  | VStr s => s
  | VObj t => t
  end.

(** [v is not None]. *)
Definition is_not_None (v : PyVal) : bool :=
  match v with VNone => false | _ => true end.

#[local] Set Warnings "-register-all".

(** JSON-shaped data: what [json.loads] returns, and what a parameter schema
    is made of.  A dict keeps its items in insertion order. *)
Inductive JVal : Type :=
| JNull
| JBool (b : bool)
| JInt (z : Z)
| JFloat (literal : string)
| JStr (s : string)
| JArr (items : list JVal)
| JObj (items : list (string * JVal)).

(** The keyword arguments of a call. *)
Definition Kwargs : Type := list (string * JVal).

(** [type(x).__name__] of decoded JSON. *)
Definition json_type_name (v : JVal) : string :=
  match v with
  | JNull => "NoneType"
  | JBool _ => "bool"
  | JInt _ => "int"
  | JFloat _ => "float"
  | JStr _ => "str"
  | JArr _ => "list"
  | JObj _ => "dict"
  end.

(** [str.isspace] on one character: the code points 9-13, 28-32, 133 and
    160. *)
Definition isspace (a : ascii) : bool :=
  let n := nat_of_ascii a in
  ((9 <=? n) && (n <=? 13) || (28 <=? n) && (n <=? 32)
   || (n =? 133) || (n =? 160))%nat.

(** [s.lstrip()]. *)
Fixpoint lstrip (s : string) : string :=
  match s with
  | EmptyString => EmptyString
  | String a s' => if isspace a then lstrip s' else s
  end.

(** [s.rstrip()]. *)
Fixpoint rstrip (s : string) : string :=
  match s with
  | EmptyString => EmptyString
  | String a s' =>
      match rstrip s' with
      | EmptyString => if isspace a then EmptyString else String a EmptyString
      | r => String a r
      end
  end.

(** [s.strip()]. *)
Definition strip (s : string) : string := rstrip (lstrip s).

Definition newline : ascii := "010"%char.
Definition nl : string := String newline EmptyString.

(** [s.split("\n")]: never empty. *)
Fixpoint split_lines (s : string) : list string :=
  match s with
  | EmptyString => [EmptyString]
  | String a s' =>
      if Ascii.eqb a newline then EmptyString :: split_lines s'
      else match split_lines s' with
           | l :: ls => String a l :: ls
           | [] => [String a EmptyString]
           end
  end.

(** [sep.join(parts)]. *)
Definition join (sep : string) (parts : list string) : string :=
  String.concat sep parts.

(** [" " * n]: empty when [n] is not positive. *)
Definition spaces (n : Z) : string :=
  String.concat EmptyString (repeat " " (Z.to_nat n)).

(** Truthiness of a str: [not s] is [true] on the empty text only. *)
Definition str_truthy (s : string) : bool :=
  match s with EmptyString => false | _ => true end.

(** [a or b] on texts. *)
Definition str_or (a b : string) : string := if str_truthy a then a else b.

(** [a or b] where [a] may be None or empty. *)
Definition opt_str_or (a : option string) (b : string) : string :=
  match a with
  | Some s => str_or s b
  | None => b
  end.

(** [a or b] on an optional number: None and 0 are falsy. *)
Definition opt_num_or (a : option Z) (b : Z) : Z :=
  match a with
  | Some z => if z =? 0 then b else z
  | None => b
  end.

(* ===================================================================== *)
(** * Dictionaries *)
(* ===================================================================== *)

(** A Python dict with str keys: items in insertion order, keys unique. *)
Definition dict (V : Type) : Type := list (string * V).

(** [d.get(k)]. *)
Fixpoint dict_get {V : Type} (d : dict V) (k : string) : option V :=
  match d with
  | [] => None
  | (k', v) :: d' => if String.eqb k' k then Some v else dict_get d' k
  end.

(** [k in d]. *)
Definition dict_has {V : Type} (d : dict V) (k : string) : bool :=
  match dict_get d k with Some _ => true | None => false end.

(** [d[k] = v]: an existing key keeps its place, a new one goes last. *)
Fixpoint dict_set {V : Type} (d : dict V) (k : string) (v : V) : dict V :=
  match d with
  | [] => [(k, v)]
  | (k', v') :: d' =>
      if String.eqb k' k then (k', v) :: d' else (k', v') :: dict_set d' k v
  end.

(** [del d[k]] for a key that may be absent. *)
Fixpoint dict_del {V : Type} (d : dict V) (k : string) : dict V :=
  match d with
  | [] => []
  | (k', v') :: d' =>
      if String.eqb k' k then d' else (k', v') :: dict_del d' k
  end.

Definition dict_keys {V : Type} (d : dict V) : list string := map fst d.
Definition dict_values {V : Type} (d : dict V) : list V := map snd d.

(* ===================================================================== *)
(** * The world and the effect monad *)
(* ===================================================================== *)

(** Text streams are objects in a store; [sys.stdout] and [sys.stderr] hold
    references to two of them.  [ext] is everything else a tool or the model
    backend may read or change (files, network, the backend's own state). *)
Record World (E : Type) : Type := mkWorld {
  sys_stdout : nat;
  sys_stderr : nat;
  streams : list string;
  ext : E
}.
Arguments mkWorld {E} _ _ _ _.
Arguments sys_stdout {E} _.
Arguments sys_stderr {E} _.
Arguments streams {E} _.
Arguments ext {E} _.

(** A computation: it may change the world, and returns or raises. *)
Definition M (E A : Type) : Type := World E -> World E * Res A.

Section Effects.
Context {E : Type}.

Definition ret {A : Type} (a : A) : M E A := fun w => (w, Ok a).

Definition raise {A : Type} (e : Exn) : M E A := fun w => (w, Raise e).

Definition bind {A B : Type} (m : M E A) (k : A -> M E B) : M E B :=
  fun w =>
    match m w with
    | (w', Ok a) => k a w'
    | (w', Raise e) => (w', Raise e)
    end.

(** A pure call that may raise. *)
Definition lift {A : Type} (r : Res A) : M E A := fun w => (w, r).

(** [try: body / except cls_1 as e: h_1 / ... / except cls_n as e: h_n]: the
    first clause whose class the exception is an instance of handles it; an
    exception no clause matches, or one raised by a handler, propagates. *)
Fixpoint handle {A : Type} (clauses : list (ExcClass * (Exn -> M E A)))
    (e : Exn) : M E A :=
  match clauses with
  | [] => raise e
  | (cls, h) :: rest => if isinstance e cls then h e else handle rest e
  end.

Definition try_except {A : Type} (body : M E A)
    (clauses : list (ExcClass * (Exn -> M E A))) : M E A :=
  fun w =>
    match body w with
    | (w', Ok a) => (w', Ok a)
    | (w', Raise e) => handle clauses e w'
    end.

(** [try: body / finally: cleanup], for a cleanup that neither returns nor
    breaks: it runs on every exit, and the body's outcome stands unless the
    cleanup itself raises. *)
Definition try_finally {A : Type} (body : M E A) (cleanup : M E unit)
    : M E A :=
  fun w =>
    match body w with
    | (w', r) =>
        match cleanup w' with
        | (w'', Ok _) => (w'', r)
        | (w'', Raise e) => (w'', Raise e)
        end
    end.

(** [sys.stdout], [sys.stderr] and their assignment. *)
Definition get_stdout : M E nat := fun w => (w, Ok (sys_stdout w)).
Definition get_stderr : M E nat := fun w => (w, Ok (sys_stderr w)).

Definition set_stdout (s : nat) : M E unit :=
  fun w => (mkWorld s (sys_stderr w) (streams w) (ext w), Ok tt).

Definition set_stderr (s : nat) : M E unit :=
  fun w => (mkWorld (sys_stdout w) s (streams w) (ext w), Ok tt).

(** [StringIO()]: a new, empty stream. *)
Definition StringIO : M E nat :=
  fun w =>
    (mkWorld (sys_stdout w) (sys_stderr w) (streams w ++ [EmptyString]) (ext w),
     Ok (length (streams w))).

(** [stream.getvalue()]. *)
Definition getvalue (s : nat) : M E string :=
  fun w => (w, Ok (nth s (streams w) EmptyString)).

End Effects.

Declare Scope py_scope.
Delimit Scope py_scope with py.
Notation "x <- m ;; k" := (bind m (fun x => k))
  (at level 61, m at next level, right associativity) : py_scope.
Notation "m ;;; k" := (bind m (fun _ => k))
  (at level 61, right associativity) : py_scope.
Local Open Scope py_scope.

(* ===================================================================== *)
(** * core/types.py *)
(* ===================================================================== *)

Inductive ToolSource : Type := NATIVE | MCP | LANGCHAIN.

(** A bound executor: keyword arguments in, a result out.  A coroutine
    function and a plain function are the same thing here ([Tool.execute]
    awaits the result when it is awaitable). *)
Definition Executor (E : Type) : Type := Kwargs -> M E PyVal.

(** class Tool.  [parameters] is the JSON-Schema dict. *)
Record Tool (E : Type) : Type := mkTool {
  name : string;
  description : string;
  parameters : dict JVal;
  source : ToolSource;
  _executor : option (Executor E)
}.
Arguments mkTool {E} _ _ _ _ _.
Arguments name {E} _.
Arguments description {E} _.
Arguments parameters {E} _.
Arguments source {E} _.
Arguments _executor {E} _.

(** class ExecutionResult. *)
Record ExecutionResult : Type := mkExecutionResult {
  success : bool;
  stdout : string;
  stderr : string;
  return_value : PyVal;
  error : option string
}.

(** class Usage (the integer counters). *)
Record Usage : Type := mkUsage {
  input_tokens : Z;
  output_tokens : Z;
  total_tokens : Z;
  usage_tool_calls : Z;
  ptc_executions : Z
}.

(** [Usage()]. *)
Definition Usage0 : Usage := mkUsage 0 0 0 0 0.

(** One requested call, as the provider builds it
    (providers/litellm.py, _response_to_message):
    {"id": .., "type": "function", "function": {"name": .., "arguments": ..}}. *)
Record ToolCall : Type := mkToolCall {
  tc_id : string;
  tc_name : string;
  tc_arguments : string
}.

(** class Message. *)
Record Message : Type := mkMessage {
  role : string;
  content : option string;
  tool_calls : option (list ToolCall);
  tool_call_id : option string;
  msg_name : option string
}.

Section ToolMethods.
Context {E : Type}.

(** Tool.execute (core/types.py:30-36).  The signature is
    [execute(self, **kwargs)]: a keyword named "self" collides with the
    instance the method is bound to, and the call raises TypeError before
    the body runs. *)
Definition Tool_execute (self : Tool E) (kwargs : Kwargs) : M E PyVal :=
  if dict_has kwargs "self" then
    raise (mkExn TypeError
             "Tool.execute() got multiple values for argument 'self'")
  else
    match _executor self with
    | None =>
        raise (mkExn ValueError ("Tool '" ++ name self ++ "' has no executor"))
    | Some executor => executor kwargs
    end.

(** Tool.set_executor. *)
Definition set_executor (self : Tool E) (executor : Executor E) : Tool E :=
  mkTool (name self) (description self) (parameters self) (source self)
         (Some executor).

End ToolMethods.

(** _json_type_to_python (core/types.py:67-76).  [mapping.get(json_type,
    "Any")] hashes its argument: a list or a dict raises TypeError; any
    other value that is no key of the mapping gives "Any". *)
Definition _json_type_to_python (json_type : JVal) : Res string :=
  match json_type with
  | JStr t =>
      Ok (if String.eqb t "string" then "str"
          else if String.eqb t "integer" then "int"
          else if String.eqb t "number" then "float"
          else if String.eqb t "boolean" then "bool"
          else if String.eqb t "array" then "list"
          else if String.eqb t "object" then "dict"
          else "Any")
  | JArr _ => Raise (mkExn TypeError "unhashable type: 'list'")
  | JObj _ => Raise (mkExn TypeError "unhashable type: 'dict'")
  | _ => Ok "Any"
  end.

(** The str members of [set(l)] for a list [l]: building the set hashes
    every element in turn, and an element that is a list or a dict raises
    TypeError.  Members that are no str never equal a parameter name. *)
Fixpoint hashable_names (l : list JVal) : Res (list string) :=
  match l with
  | [] => Ok []
  | JArr _ :: _ => Raise (mkExn TypeError "unhashable type: 'list'")
  | JObj _ :: _ => Raise (mkExn TypeError "unhashable type: 'dict'")
  | JStr s :: rest =>
      match hashable_names rest with
      | Ok names => Ok (s :: names)
      | Raise e => Raise e
      end
  | _ :: rest => hashable_names rest
  end.

(** [set(self.parameters.get("required", []))], as the names it holds: a
    list gives its elements, a str its characters, a dict its keys; any
    other value cannot be iterated. *)
Definition required_set (parameters : dict JVal) : Res (list string) :=
  match dict_get parameters "required" with
  | None => Ok []
  | Some (JArr l) => hashable_names l
  | Some (JStr s) =>
      Ok (map (fun c => String c EmptyString) (list_ascii_of_string s))
  | Some (JObj items) => Ok (dict_keys items)
  | Some other =>
      Raise (mkExn TypeError
               ("'" ++ json_type_name other ++ "' object is not iterable"))
  end.

(** [properties.items()]. *)
Definition items_of (properties : JVal) : Res (list (string * JVal)) :=
  match properties with
  | JObj items => Ok items
  | other =>
      Raise (mkExn AttributeError
               ("'" ++ json_type_name other
                ++ "' object has no attribute 'items'"))
  end.

(** [schema.get(key, default)]. *)
Definition schema_get (schema : JVal) (key : string) (default : JVal)
    : Res JVal :=
  match schema with
  | JObj items =>
      Ok (match dict_get items key with Some v => v | None => default end)
  | other =>
      Raise (mkExn AttributeError
               ("'" ++ json_type_name other
                ++ "' object has no attribute 'get'"))
  end.

Section Signature.
Context {E : Type}.

(** [repr] on plain data.  It raises nothing; the text it gives is read by
    no property below and is kept abstract. *)
Variable py_repr : JVal -> string.

(** The body of the loop of get_signature (core/types.py:56-62). *)
Definition signature_param (required : list string) (n : string)
    (schema : JVal) : Res string :=
  match schema_get schema "type" (JStr "Any") with
  | Raise e => Raise e
  | Ok json_type =>
      match _json_type_to_python json_type with
      | Raise e => Raise e
      | Ok type_hint =>
          if existsb (String.eqb n) required
          then Ok (n ++ ": " ++ type_hint)
          else
            match schema_get schema "default" (JStr "None") with
            | Raise e => Raise e
            | Ok default =>
                Ok (n ++ ": " ++ type_hint ++ " = " ++ py_repr default)
            end
      end
  end.

Fixpoint signature_params (required : list string)
    (properties : list (string * JVal)) : Res (list string) :=
  match properties with
  | [] => Ok []
  | (n, schema) :: rest =>
      match signature_param required n schema with
      | Raise e => Raise e
      | Ok param =>
          match signature_params required rest with
          | Raise e => Raise e
          | Ok params => Ok (param :: params)
          end
      end
  end.

(** Tool.get_signature (core/types.py:51-64): the set of required names is
    built before the properties are iterated. *)
Definition get_signature (self : Tool E) : Res string :=
  let properties :=
    match dict_get (parameters self) "properties" with
    | Some v => v
    | None => JObj []
    end in
  match required_set (parameters self) with
  | Raise e => Raise e
  | Ok required =>
      match items_of properties with
      | Raise e => Raise e
      | Ok items =>
          match signature_params required items with
          | Raise e => Raise e
          | Ok params =>
              Ok ("async def " ++ name self ++ "(" ++ join ", " params
                  ++ ") -> Any")
          end
      end
  end.

End Signature.

(* ===================================================================== *)
(** * tools/decorator.py: callables and their signatures *)
(* ===================================================================== *)

(** inspect.Parameter.kind. *)
Inductive ParamKind : Type :=
| POSITIONAL_ONLY
| POSITIONAL_OR_KEYWORD
| VAR_POSITIONAL
| KEYWORD_ONLY
| VAR_KEYWORD.

(** inspect.Parameter: [default = None] is [Parameter.empty]. *)
Record Param : Type := mkParam {
  param_name : string;
  kind : ParamKind;
  default : option JVal
}.

(** The metadata of an [Annotated] hint that the synthesizer looks at: a
    str, a pydantic FieldInfo (with its description), or anything else. *)
Inductive Meta : Type :=
| MetaStr (s : string)
| MetaField (field_description : option string)
| MetaOther.

(** A resolved type hint.  [HListOf args] is a hint whose origin is list
    ([list[int]], [List[str]]); [HModel schema] is a pydantic BaseModel
    subclass with the dict its [model_json_schema()] returns. *)
Inductive Hint : Type :=
| HNoneType
| HStr
| HInt
| HFloat
| HBool
| HList
| HListOf (args : list Hint)
| HDict
| HDictOf
| HAnnotated (base : Hint) (metadata : list Meta)
| HModel (schema : dict JVal)
| HOther.

(** A callable as the decorator and the registry inspect it:
    [fn_name] is [__name__] (absent on partial objects and the like),
    [fn_signature] what [inspect.signature] answers,
    [fn_hints] what [get_type_hints(.., include_extras=True)] answers,
    [fn_tool] the [tool] attribute when it holds a Tool,
    [fn_polytool] whether [__polytool__] is set, [fn_call] the call itself. *)
Record Callable (E : Type) : Type := mkCallable {
  fn_name : option string;
  fn_doc : option string;
  fn_signature : Res (list Param);
  fn_hints : Res (dict Hint);
  fn_tool : option (Tool E);
  fn_polytool : bool;
  fn_call : Executor E
}.
Arguments mkCallable {E} _ _ _ _ _ _ _.
Arguments fn_name {E} _.
Arguments fn_doc {E} _.
Arguments fn_signature {E} _.
Arguments fn_hints {E} _.
Arguments fn_tool {E} _.
Arguments fn_polytool {E} _.
Arguments fn_call {E} _.

Definition type_schema (t : string) : dict JVal := [("type", JStr t)].

(** _type_to_schema (tools/decorator.py:91-125), on a hint that is not
    None. *)
Fixpoint _type_to_schema (hint : Hint) : dict JVal :=
  match hint with
  | HAnnotated base _ => _type_to_schema base
  | HNoneType => type_schema "null"
  | HStr => type_schema "string"
  | HInt => type_schema "integer"
  | HFloat => type_schema "number"
  | HBool => type_schema "boolean"
  | HList => [("type", JStr "array"); ("items", JObj (type_schema "string"))]
  | HListOf args =>
      let items_schema :=
        match args with
        | a :: _ => _type_to_schema a
        | [] => type_schema "string"
        end in
      [("type", JStr "array"); ("items", JObj items_schema)]
  | HDict | HDictOf => type_schema "object"
  | HModel schema => schema
  | HOther => type_schema "string"
  end.

(** _type_to_schema on [hints.get(param_name)]. *)
Definition _type_to_schema_opt (hint : option Hint) : dict JVal :=
  match hint with
  | None => type_schema "string"
  | Some h => _type_to_schema h
  end.

(** The loop over [args[1:]] of an Annotated hint (decorator.py:69-75). *)
Fixpoint apply_metadata (metadata : list Meta) (prop_schema : dict JVal)
    : dict JVal :=
  match metadata with
  | [] => prop_schema
  | MetaStr s :: rest =>
      apply_metadata rest (dict_set prop_schema "description" (JStr s))
  | MetaField (Some d) :: rest =>
      if str_truthy d
      then apply_metadata rest (dict_set prop_schema "description" (JStr d))
      else apply_metadata rest prop_schema
  | _ :: rest => apply_metadata rest prop_schema
  end.

Definition is_variadic (k : ParamKind) : bool :=
  match k with
  | VAR_POSITIONAL | VAR_KEYWORD => true
  | _ => false
  end.

(** [param_name in ("self", "cls") or param.kind in (VAR_POSITIONAL,
    VAR_KEYWORD)]: the parameters the loop skips. *)
Definition skipped (p : Param) : bool :=
  String.eqb (param_name p) "self" || String.eqb (param_name p) "cls"
  || is_variadic (kind p).

(** One turn of the loop over [sig.parameters.items()]. *)
Definition schema_step (hints : dict Hint)
    (acc : dict JVal * list string) (p : Param)
    : dict JVal * list string :=
  let '(properties, required) := acc in
  if skipped p then acc
  else
    let hint := dict_get hints (param_name p) in
    let prop_schema := _type_to_schema_opt hint in
    let prop_schema :=
      match hint with
      | Some (HAnnotated _ metadata) => apply_metadata metadata prop_schema
      | _ => prop_schema
      end in
    match default p with
    | Some d =>
        (dict_set properties (param_name p)
                  (JObj (dict_set prop_schema "default" d)),
         required)
    | None =>
        (dict_set properties (param_name p) (JObj prop_schema),
         (required ++ [param_name p])%list)
    end.

(** The schema dict built after the loop. *)
Definition build_schema (acc : dict JVal * list string) : dict JVal :=
  let '(properties, required) := acc in
  let schema := [("type", JStr "object"); ("properties", JObj properties)] in
  match required with
  | [] => schema
  | _ => dict_set schema "required" (JArr (map JStr required))
  end.

(** _generate_schema (tools/decorator.py:47-88): [inspect.signature] is
    called outside any try; a failure of [get_type_hints] that is an
    Exception leaves [hints = {}]. *)
Definition _generate_schema {E : Type} (func : Callable E)
    : Res (dict JVal) :=
  match fn_signature func with
  | Raise e => Raise e
  | Ok params =>
      match fn_hints func with
      | Raise e =>
          if isinstance e Exception
          then Ok (build_schema (fold_left (schema_step []) params ([], [])))
          else Raise e
      | Ok hints =>
          Ok (build_schema (fold_left (schema_step hints) params ([], [])))
      end
  end.

(** The empty object schema, {"type": "object", "properties": {}}. *)
Definition empty_object_schema : dict JVal :=
  [("type", JStr "object"); ("properties", JObj [])].

(** Reading a schema back: its "properties" dict and its "required" names
    (an absent key is an empty collection, as in Tool.get_signature). *)
Definition schema_properties (schema : dict JVal) : dict JVal :=
  match dict_get schema "properties" with
  | Some (JObj props) => props
  | _ => []
  end.

Fixpoint str_items (l : list JVal) : list string :=
  match l with
  | [] => []
  | JStr s :: l' => s :: str_items l'
  | _ :: l' => str_items l'
  end.

Definition schema_required (schema : dict JVal) : list string :=
  match dict_get schema "required" with
  | Some (JArr names) => str_items names
  | _ => []
  end.

(** The "default" entry of one property's schema. *)
Definition property_default (schema : dict JVal) (param : string)
    : option JVal :=
  match dict_get (schema_properties schema) param with
  | Some (JObj prop_schema) => dict_get prop_schema "default"
  | _ => None
  end.

Section Decorator.
Context {E : Type}.

(** [name or fn.__name__]: reading [__name__] raises AttributeError when the
    callable has none. *)
Definition name_or_dunder (name_arg : option string) (fn : Callable E)
    : Res string :=
  match name_arg with
  | Some n =>
      if str_truthy n then Ok n
      else match fn_name fn with
           | Some f => Ok f
           | None => Raise (mkExn AttributeError
                              "object has no attribute '__name__'")
           end
  | None =>
      match fn_name fn with
      | Some f => Ok f
      | None => Raise (mkExn AttributeError
                         "object has no attribute '__name__'")
      end
  end.

(** [description or (fn.__doc__ or "").strip() or f"Tool: {tool_name}"]. *)
Definition tool_description_of (descr : option string) (fn : Callable E)
    (tool_name : string) : string :=
  opt_str_or descr
    (str_or (strip (opt_str_or (fn_doc fn) EmptyString))
            ("Tool: " ++ tool_name)).

(** The @tool decorator applied to [fn] (tools/decorator.py:17-44): the
    wrapper it returns is [fn] carrying the Tool in its [tool] attribute. *)
Definition tool (fn : Callable E) (name_arg descr : option string)
    : Res (Callable E) :=
  match name_or_dunder name_arg fn with
  | Raise e => Raise e
  | Ok tool_name =>
      let tool_description := tool_description_of descr fn tool_name in
      match _generate_schema fn with
      | Raise e => Raise e
      | Ok params =>
          let tool_obj :=
            set_executor (mkTool tool_name tool_description params NATIVE None)
                         (fn_call fn) in
          Ok (mkCallable (fn_name fn) (fn_doc fn) (fn_signature fn)
                         (fn_hints fn) (Some tool_obj) true (fn_call fn))
      end
  end.

(** get_tool_from_func. *)
Definition get_tool_from_func (func : Callable E) : option (Tool E) :=
  fn_tool func.

(** _normalize_callable (tools/universal.py:79-105), the other path that
    turns a raw callable into a Tool: here schema synthesis sits in a try
    whose handler substitutes the empty object schema. *)
Definition _normalize_callable (func : Callable E)
    (name_arg descr : option string) : Res (Tool E) :=
  let tool_name :=
    match name_arg with
    | Some n => if str_truthy n then Some n else fn_name func
    | None => fn_name func
    end in
  match tool_name with
  | None => Raise (mkExn ValueError "Lambda requires name= argument")
  | Some tool_name =>
      if negb (str_truthy tool_name) || String.eqb tool_name "<lambda>"
      then Raise (mkExn ValueError "Lambda requires name= argument")
      else
        let tool_description := tool_description_of descr func tool_name in
        let mk params :=
          Ok (set_executor
                (mkTool tool_name tool_description params NATIVE None)
                (fn_call func)) in
        match _generate_schema func with
        | Ok params => mk params
        | Raise e =>
            if isinstance e Exception then mk empty_object_schema
            else Raise e
        end
  end.

End Decorator.

(* ===================================================================== *)
(** * tools/registry.py *)
(* ===================================================================== *)

(** class ToolRegistry: [self._tools], a dict from tool name to Tool. *)
Record ToolRegistry (E : Type) : Type := mkToolRegistry {
  _tools : dict (Tool E)
}.
Arguments mkToolRegistry {E} _.
Arguments _tools {E} _.

(** What [register] may be handed: a Tool, a callable, or some other object
    (given by the text of its type, as in <class 'int'>). *)
Inductive Registrable (E : Type) : Type :=
| ATool (t : Tool E)
| ACallable (f : Callable E)
| AOther (type_repr : string).
Arguments ATool {E} t.
Arguments ACallable {E} f.
Arguments AOther {E} type_repr.

(** The first key that collides with a named parameter of
    [ToolRegistry.execute(self, name, **kwargs)]. *)
Fixpoint clashing_key (items : Kwargs) : option string :=
  match items with
  | [] => None
  | (k, _) :: rest =>
      if String.eqb k "self" || String.eqb k "name" then Some k
      else clashing_key rest
  end.

Section Registry.
Context {E : Type}.

(** [ToolRegistry()]. *)
Definition ToolRegistry_new : ToolRegistry E := mkToolRegistry [].

(** The second half of register (registry.py:48-55): the duplicate check,
    the insertion and the returned Tool. *)
Definition register_tool (self : ToolRegistry E) (t : Tool E)
    : ToolRegistry E * Res (Tool E) :=
  if dict_has (_tools self) (name t)
  then (self, Raise (mkExn ToolError
                       ("Tool '" ++ name t ++ "' already registered")))
  else (mkToolRegistry (dict_set (_tools self) (name t) t), Ok t).

(** ToolRegistry.register (registry.py:23-55): the registry after the call,
    and what the call returns or raises. *)
Definition register (self : ToolRegistry E) (tool_or_func : Registrable E)
    : ToolRegistry E * Res (Tool E) :=
  match tool_or_func with
  | ATool t => register_tool self t
  | ACallable f =>
      match get_tool_from_func f with
      | Some t => register_tool self t
      | None =>
          match fn_name f with
          | Some n =>
              (self, Raise (mkExn ToolError
                 ("Function " ++ n ++ " is not decorated with @tool")))
          | None =>
              (self, Raise (mkExn AttributeError
                 "object has no attribute '__name__'"))
          end
      end
  | AOther type_repr =>
      (self, Raise (mkExn ToolError ("Cannot register " ++ type_repr)))
  end.

(** ToolRegistry.get. *)
Definition get (self : ToolRegistry E) (n : string) : Res (Tool E) :=
  match dict_get (_tools self) n with
  | None =>
      let available := join ", " (dict_keys (_tools self)) in
      Raise (mkExn ToolError
               ("Tool '" ++ n ++ "' not found. Available: " ++ available))
  | Some t => Ok t
  end.

Definition get_all (self : ToolRegistry E) : list (Tool E) :=
  dict_values (_tools self).

Definition has (self : ToolRegistry E) (n : string) : bool :=
  dict_has (_tools self) n.

Definition remove (self : ToolRegistry E) (n : string) : ToolRegistry E :=
  if dict_has (_tools self) n
  then mkToolRegistry (dict_del (_tools self) n)
  else self.

Definition get_names (self : ToolRegistry E) : list string :=
  dict_keys (_tools self).

(** ToolRegistry.execute (registry.py:106-118).  The signature is
    [execute(self, name, **kwargs)]: a keyword named "self" or "name"
    collides with a parameter that is already bound, and the call raises
    TypeError before the tool is looked up. *)
Definition ToolRegistry_execute (self : ToolRegistry E) (n : string)
    (kwargs : Kwargs) : M E PyVal :=
  match clashing_key kwargs with
  | Some k =>
      raise (mkExn TypeError
               ("ToolRegistry.execute() got multiple values for argument '"
                ++ k ++ "'"))
  | None =>
      match get self n with
      | Raise e => raise e
      | Ok t => Tool_execute t kwargs
      end
  end.

End Registry.

(* ===================================================================== *)
(** * sandbox/restricted.py and sandbox/base.py *)
(* ===================================================================== *)

(** What a name of the execution namespace is bound to: a built-in function
    or type, an imported module, or the wrapper made for a tool. *)
Inductive NsObj (E : Type) : Type :=
| NsBuiltin (n : string)
| NsModule (n : string)
| NsTool (t : Tool E).
Arguments NsBuiltin {E} n.
Arguments NsModule {E} n.
Arguments NsTool {E} t.

(** class RestrictedSandbox: [self.timeout], in whole seconds.  The
    configured timeout is an int (core/config.py:27); a timeout handed in as
    a float, which the signature admits too, is not covered. *)
Record RestrictedSandbox : Type := mkRestrictedSandbox {
  timeout : Z
}.

(** The settings the sandboxes read (core/config.py). *)
Record Settings : Type := mkSettings {
  settings_sandbox_type : string;
  sandbox_timeout_seconds : Z
}.

(** The Sandbox protocol (sandbox/base.py:14-42). *)
Record Sandbox (E : Type) : Type := mkSandbox {
  sb_execute : string -> option (list (Tool E)) -> option Z
               -> M E ExecutionResult;
  sb_aenter : M E unit;
  sb_aexit : M E unit
}.
Arguments mkSandbox {E} _ _ _.
Arguments sb_execute {E} _ _ _ _.
Arguments sb_aenter {E} _.
Arguments sb_aexit {E} _.

(** _indent (restricted.py:188-192). *)
Definition _indent (code : string) (n : Z) : string :=
  let prefix := spaces n in
  let lines := split_lines code in
  join nl (map (fun line => if str_truthy (strip line)
                            then prefix ++ line else line) lines).

(** The text _execute_code compiles (restricted.py:124-127). *)
Definition wrapped_code (code : string) : string :=
  let indented := _indent (rstrip code) 4 in
  let indented := if str_truthy (strip indented) then indented
                  else "    pass" in
  "async def __polytool_main__():" ++ nl ++ indented ++ nl ++ "    pass" ++ nl.

(** The names _build_namespace binds before the tools. *)
Definition safe_builtins : list string :=
  ["print"; "len"; "range"; "enumerate"; "zip"; "map"; "filter"; "sorted";
   "reversed"; "list"; "dict"; "set"; "tuple"; "str"; "int"; "float"; "bool";
   "sum"; "min"; "max"; "abs"; "round"; "any"; "all"; "isinstance";
   "hasattr"; "getattr"; "setattr"].

Section RestrictedSandbox.
Context {E : Type}.

(** [ast.parse]: it returns, or raises (SyntaxError for text that is not
    Python). *)
Variable ast_parse : string -> Res unit.

(** The interpreter, for a positive deadline: it compiles the wrapped text,
    executes it in the namespace, awaits [__polytool_main__()] and returns
    its value; it raises what the compilation or the code raises, and
    TimeoutError when the deadline of [timeout] seconds expires first. *)
Variable run_entry_point : string -> dict (NsObj E) -> Z -> M E PyVal.

(** [asyncio.wait_for(self._execute_code(code, namespace), timeout)]: with a
    deadline that is not positive wait_for cancels the coroutine before it
    starts and raises TimeoutError. *)
Definition wait_for_execute_code (code : string) (namespace : dict (NsObj E))
    (deadline : Z) : M E PyVal :=
  if deadline <=? 0 then raise (mkExn TimeoutError EmptyString)
  else run_entry_point (wrapped_code code) namespace deadline.

(** _build_namespace (restricted.py:136-177). *)
Definition _build_namespace (tools : list (Tool E)) : dict (NsObj E) :=
  fold_left (fun namespace t => dict_set namespace (name t) (NsTool t))
            tools
            (map (fun n => (n, NsBuiltin n)) safe_builtins
             ++ [("json", NsModule "json"); ("asyncio", NsModule "asyncio")])%list.

(** [RestrictedSandbox(timeout)]. *)
Definition RestrictedSandbox_new (settings : Settings)
    (timeout_arg : option Z) : RestrictedSandbox :=
  mkRestrictedSandbox (opt_num_or timeout_arg (sandbox_timeout_seconds settings)).

(** RestrictedSandbox.execute (restricted.py:40-118). *)
Definition RestrictedSandbox_execute (self : RestrictedSandbox)
    (code : string) (tools : option (list (Tool E)))
    (timeout_arg : option Z) : M E ExecutionResult :=
  let deadline := opt_num_or timeout_arg (timeout self) in
  match ast_parse code with
  | Raise e =>
      if isinstance e SyntaxError
      then ret (mkExecutionResult false EmptyString EmptyString VNone
                  (Some ("Syntax error: " ++ exc_msg e)))
      else raise e
  | Ok _ =>
      let namespace :=
        _build_namespace (match tools with Some ts => ts | None => [] end) in
      stdout_capture <- StringIO ;;
      stderr_capture <- StringIO ;;
      old_stdout <- get_stdout ;;
      old_stderr <- get_stderr ;;
      try_finally
        (try_except
           (set_stdout stdout_capture ;;;
            set_stderr stderr_capture ;;;
            result <- wait_for_execute_code code namespace deadline ;;
            out <- getvalue stdout_capture ;;
            err <- getvalue stderr_capture ;;
            ret (mkExecutionResult true out err result None))
           [(TimeoutError,
             fun _ =>
               out <- getvalue stdout_capture ;;
               err <- getvalue stderr_capture ;;
               ret (mkExecutionResult false out err VNone
                      (Some ("Execution timed out after "
                             ++ str_of_int deadline ++ "s"))));
            (Exception,
             fun e =>
               out <- getvalue stdout_capture ;;
               err <- getvalue stderr_capture ;;
               ret (mkExecutionResult false out err VNone
                      (Some (class_name (exc_class e) ++ ": " ++ exc_msg e))))])
        (set_stdout old_stdout ;;; set_stderr old_stderr)
  end.

(** A RestrictedSandbox seen through the protocol: entering and leaving do
    nothing. *)
Definition RestrictedSandbox_protocol (self : RestrictedSandbox) : Sandbox E :=
  mkSandbox (RestrictedSandbox_execute self) (ret tt) (ret tt).

(** [E2BSandbox()] after importing sandbox/e2b.py: the remote sandbox, or
    the exception the import or the constructor raises. *)
Variable E2BSandbox_new : Res (Sandbox E).

(** get_sandbox (sandbox/base.py:45-75). *)
Definition get_sandbox (settings : Settings) (sandbox_type : option string)
    : Res (Sandbox E) :=
  let stype := opt_str_or sandbox_type (settings_sandbox_type settings) in
  let restricted :=
    RestrictedSandbox_protocol (RestrictedSandbox_new settings None) in
  if String.eqb stype "e2b" then
    match E2BSandbox_new with
    | Ok sb => Ok sb
    | Raise e => if isinstance e ImportError then Ok restricted else Raise e
    end
  else if String.eqb stype "restricted" then Ok restricted
  else if String.eqb stype "docker" then
    Raise (mkExn NotImplementedError "Docker sandbox not yet implemented")
  else Raise (mkExn ValueError ("Unknown sandbox type: " ++ stype)).

End RestrictedSandbox.

(* ===================================================================== *)
(** * codegen/executor.py *)
(* ===================================================================== *)

(** class ExecuteCodeTool: the registry it reads and the sandbox type. *)
Record ExecuteCodeTool (E : Type) : Type := mkExecuteCodeTool {
  ect_registry : ToolRegistry E;
  ect_sandbox_type : option string
}.
Arguments mkExecuteCodeTool {E} _ _.
Arguments ect_registry {E} _.
Arguments ect_sandbox_type {E} _.

Section ExecuteCode.
Context {E : Type}.

(** get_sandbox with the settings and the runtime already supplied. *)
Variable acquire_sandbox : option string -> Res (Sandbox E).

(** [async with sandbox: body]. *)
Definition async_with {A : Type} (sandbox : Sandbox E) (body : M E A)
    : M E A :=
  sb_aenter sandbox ;;; try_finally body (sb_aexit sandbox).

(** The tools handed to the sandbox: all but execute_code itself. *)
Definition tools_for_code (self : ExecuteCodeTool E) : list (Tool E) :=
  filter (fun t => negb (String.eqb (name t) "execute_code"))
         (get_all (ect_registry self)).

(** The sandboxed run inside ExecuteCodeTool.execute (executor.py:68-75). *)
Definition run_in_sandbox (self : ExecuteCodeTool E) (code : string)
    : M E ExecutionResult :=
  sandbox <- lift (acquire_sandbox (ect_sandbox_type self)) ;;
  async_with sandbox (sb_execute sandbox code (Some (tools_for_code self)) None).

(** What execute makes of the sandbox's result (executor.py:77-92). *)
Definition render_result (result : ExecutionResult) : Res string :=
  if negb (success result) then
    let error_msg := opt_str_or (error result) "Unknown error" in
    let error_msg :=
      if str_truthy (stderr result)
      then error_msg ++ nl ++ "Stderr: " ++ stderr result
      else error_msg in
    Raise (mkExn SandboxError ("Code execution failed: " ++ error_msg))
  else
    let output := strip (stdout result) in
    let output :=
      if negb (str_truthy output) && is_not_None (return_value result)
      then py_str (return_value result)
      else output in
    Ok (str_or output "(no output)").

(** ExecuteCodeTool.execute (executor.py:58-92). *)
Definition ExecuteCodeTool_execute (self : ExecuteCodeTool E) (code : string)
    : M E string :=
  result <- run_in_sandbox self code ;;
  lift (render_result result).

End ExecuteCode.

(* ===================================================================== *)
(** * codegen/prompts.py *)
(* ===================================================================== *)

(** The three double quotes that open and close a docstring. *)
Definition triple_quote : string :=
  let q := ascii_of_nat 34 in String q (String q (String q EmptyString)).

Definition default_base_prompt : string :=
  "You are a helpful assistant with access to tools.".

Definition tool_usage_text : string :=
  nl ++ "## Tool Usage" ++ nl ++ nl
  ++ "For simple tasks (1-2 tool calls), call tools directly." ++ nl
  ++ "For complex tasks requiring multiple tools or data processing, use execute_code."
  ++ nl.

Section Prompts.
Context {E : Type}.
Variable py_repr : JVal -> string.

(** The parts the loop over the tools appends (prompts.py:47-53): the tool
    named "execute_code" is passed over; for every other tool the signature
    is rendered, which can raise. *)
Fixpoint tool_parts (tools : list (Tool E)) : Res (list string) :=
  match tools with
  | [] => Ok []
  | t :: rest =>
      if String.eqb (name t) "execute_code" then tool_parts rest
      else
        match get_signature py_repr t with
        | Raise e => Raise e
        | Ok sig =>
            let desc := hd EmptyString (split_lines (description t)) in
            match tool_parts rest with
            | Raise e => Raise e
            | Ok parts =>
                Ok ((sig ++ nl ++ "    " ++ triple_quote ++ desc
                     ++ triple_quote)
                    :: EmptyString :: parts)
            end
        end
  end.

(** build_system_prompt (prompts.py:30-56). *)
Definition build_system_prompt (tools : list (Tool E))
    (base_prompt : option string) : Res string :=
  match tool_parts tools with
  | Raise e => Raise e
  | Ok parts =>
      let opening := "## Available Tools" ++ nl ++ "```python" in
      Ok (join nl
            ([opt_str_or base_prompt default_base_prompt;
              tool_usage_text; opening]
             ++ parts ++ ["```"])%list)
  end.

End Prompts.

(* ===================================================================== *)
(** * agent/agent.py *)
(* ===================================================================== *)

(** The model backend: [provider.generate(conversation, tools)]. *)
Record Provider (E : Type) : Type := mkProvider {
  generate : list Message -> list (Tool E) -> M E (Message * Usage)
}.
Arguments mkProvider {E} _.
Arguments generate {E} _ _ _.

(** class Agent. *)
Record Agent (E : Type) : Type := mkAgent {
  system_prompt : option string;
  max_iterations : Z;
  provider : Provider E;
  registry : ToolRegistry E
}.
Arguments mkAgent {E} _ _ _ _.
Arguments system_prompt {E} _.
Arguments max_iterations {E} _.
Arguments provider {E} _.
Arguments registry {E} _.

(** class AgentResult. *)
Record AgentResult : Type := mkAgentResult {
  output : string;
  usage : Usage;
  messages : list Message;
  tool_calls_made : Z;
  ptc_used : bool
}.

(** The local variables of Agent.run that the loop updates. *)
Record LoopState : Type := mkLoopState {
  conversation : list Message;
  total_usage : Usage;
  calls_made : Z;
  ptc_seen : bool
}.

(** [total_usage.<tokens> += usage.<tokens>] (agent.py:84-86). *)
Definition add_tokens (total u : Usage) : Usage :=
  mkUsage (input_tokens total + input_tokens u)
          (output_tokens total + output_tokens u)
          (total_tokens total + total_tokens u)
          (usage_tool_calls total) (ptc_executions total).

(** The accounting of one requested call (agent.py:106-110). *)
Definition count_call (func_name : string) (total : Usage) (seen : bool)
    : Usage * bool :=
  if String.eqb func_name "execute_code"
  then (mkUsage (input_tokens total) (output_tokens total)
                (total_tokens total) (usage_tool_calls total)
                (ptc_executions total + 1), true)
  else (mkUsage (input_tokens total) (output_tokens total)
                (total_tokens total) (usage_tool_calls total + 1)
                (ptc_executions total), seen).

(** The call [self.registry.execute(func_name, **func_args)] binds its
    arguments first: TypeError when [func_args] is no mapping or names a
    parameter twice. *)
Definition unpack_kwargs (func_args : JVal) : Res Kwargs :=
  match func_args with
  | JObj items =>
      match clashing_key items with
      | Some k =>
          Raise (mkExn TypeError
            ("ToolRegistry.execute() got multiple values for argument '"
             ++ k ++ "'"))
      | None => Ok items
      end
  | other =>
      Raise (mkExn TypeError
        ("polytool.tools.registry.ToolRegistry.execute() argument after ** "
         ++ "must be a mapping, not " ++ json_type_name other))
  end.

(** [str(result) if not isinstance(result, str) else result]. *)
Definition result_text (result : PyVal) : string :=
  match result with
  | VStr s => s
  | other => py_str other
  end.

(** The tool-role message appended for one call (agent.py:118-123). *)
Definition tool_message (tool_call : ToolCall) (result_str : string)
    : Message :=
  mkMessage "tool" (Some result_str) None (Some (tc_id tool_call))
            (Some (tc_name tool_call)).

Definition sentinel : string := "[Max iterations reached]".

Section AgentRun.
Context {E : Type}.

(** [json.loads]. *)
Variable json_loads : string -> Res JVal.

(** [repr], which Tool.get_signature applies to the defaults while the
    system prompt is built. *)
Variable py_repr : JVal -> string.

(** [await self.registry.execute(func_name, **func_args)] (agent.py:113). *)
Definition call_registry (self : Agent E) (func_name : string)
    (func_args : JVal) : M E PyVal :=
  kwargs <- lift (unpack_kwargs func_args) ;;
  ToolRegistry_execute (registry self) func_name kwargs.

(** The try statement of the loop body (agent.py:112-116). *)
Definition execute_call (self : Agent E) (func_name : string)
    (func_args : JVal) : M E string :=
  try_except
    (result <- call_registry self func_name func_args ;;
     ret (result_text result))
    [(Exception, fun e => ret ("Error: " ++ exc_msg e))].

(** The body of [for tool_call in response.tool_calls] (agent.py:99-123). *)
Definition dispatch_tool_call (self : Agent E) (tool_call : ToolCall)
    (st : LoopState) : M E LoopState :=
  let made := calls_made st + 1 in
  let func_name := tc_name tool_call in
  func_args <- lift (json_loads (tc_arguments tool_call)) ;;
  let '(total, seen) := count_call func_name (total_usage st) (ptc_seen st) in
  result_str <- execute_call self func_name func_args ;;
  ret (mkLoopState
         (conversation st ++ [tool_message tool_call result_str])
         total made seen).

(** [for tool_call in response.tool_calls: ...]. *)
Fixpoint dispatch_all (self : Agent E) (calls : list ToolCall)
    (st : LoopState) : M E LoopState :=
  match calls with
  | [] => ret st
  | tool_call :: rest =>
      st' <- dispatch_tool_call self tool_call st ;;
      dispatch_all self rest st'
  end.

Definition result_of (out : string) (st : LoopState) : AgentResult :=
  mkAgentResult out (total_usage st) (conversation st) (calls_made st)
                (ptc_seen st).

(** [for _ in range(n): ...] followed by the final return
    (agent.py:80-131).  Beside the AgentResult the loop hands back what the
    backend answered in each iteration it entered, oldest first: this list
    is observation only, the source keeps no such record. *)
Fixpoint run_loop (self : Agent E) (n : nat) (st : LoopState)
    : M E (AgentResult * list (Message * Usage)) :=
  match n with
  | O => ret (result_of sentinel st, [])
  | S n' =>
      let tools := get_all (registry self) in
      answer <- generate (provider self) (conversation st) tools ;;
      let '(response, u) := answer in
      let st1 := mkLoopState (conversation st ++ [response])
                             (add_tokens (total_usage st) u)
                             (calls_made st) (ptc_seen st) in
      match tool_calls response with
      | None | Some [] =>
          ret (result_of (opt_str_or (content response) EmptyString) st1,
               [answer])
      | Some calls =>
          st2 <- dispatch_all self calls st1 ;;
          rest <- run_loop self n' st2 ;;
          ret (fst rest, answer :: snd rest)
      end
  end.

(** The conversation the loop starts from (agent.py:67-74): the system
    prompt is built, and can raise, only when the messages handed in do not
    begin with a system message. *)
Definition seed_conversation (self : Agent E) (prompt : string)
    (msgs : option (list Message)) : Res (list Message) :=
  let conversation := match msgs with Some l => l | None => [] end in
  let with_system :=
    match build_system_prompt py_repr (get_all (registry self))
                              (system_prompt self) with
    | Raise e => Raise e
    | Ok full_system =>
        Ok (mkMessage "system" (Some full_system) None None None
            :: conversation)
    end in
  let seeded :=
    match conversation with
    | first :: _ =>
        if String.eqb (role first) "system" then Ok conversation
        else with_system
    | [] => with_system
    end in
  match seeded with
  | Raise e => Raise e
  | Ok conversation =>
      Ok (conversation ++ [mkMessage "user" (Some prompt) None None None])%list
  end.

(** Agent.run with the record of the backend's answers. *)
Definition run_observed (self : Agent E) (prompt : string)
    (msgs : option (list Message))
    : M E (AgentResult * list (Message * Usage)) :=
  seed <- lift (seed_conversation self prompt msgs) ;;
  run_loop self (Z.to_nat (max_iterations self))
           (mkLoopState seed Usage0 0 false).

(** Agent.run (agent.py:65-131). *)
Definition run (self : Agent E) (prompt : string)
    (msgs : option (list Message)) : M E AgentResult :=
  answer <- run_observed self prompt msgs ;;
  ret (fst answer).

End AgentRun.

(* ===================================================================== *)
(** * Vocabulary of the properties *)
(* ===================================================================== *)

(** The Tool a registrable object stands for: the Tool itself, or the one a
    decorated function carries. *)
Definition resolves_to {E : Type} (arg : Registrable E) (t : Tool E) : Prop :=
  arg = ATool t \/ exists f, arg = ACallable f /\ fn_tool f = Some t.

(** A parameter the loop keeps and that has no default. *)
Definition kept_without_default (p : Param) : bool :=
  negb (skipped p) && match default p with None => true | Some _ => false end.

(** Every character is whitespace in the sense of [str.strip]. *)
Fixpoint all_space (s : string) : bool :=
  match s with
  | EmptyString => true
  | String a s' => isspace a && all_space s'
  end.

(** The text compiled for a program that has no statement. *)
Definition trivial_program : string :=
  "async def __polytool_main__():" ++ nl ++ "    pass" ++ nl ++ "    pass" ++ nl.

(** The world in which the sandboxed program starts: two new empty streams,
    installed as [sys.stdout] and [sys.stderr]. *)
Definition redirected {E : Type} (w : World E) : World E :=
  mkWorld (length (streams w)) (length (streams w ++ [EmptyString]))
          ((streams w ++ [EmptyString]) ++ [EmptyString]) (ext w).

(** The world [w1] with the stream references of [w] put back. *)
Definition restored {E : Type} (w w1 : World E) : World E :=
  mkWorld (sys_stdout w) (sys_stderr w) (streams w1) (ext w1).

(** The result execute builds from the outcome of the run, given the text
    captured on the two streams. *)
Definition outcome_result (deadline : Z) (out err : string) (r : Res PyVal)
    : Res ExecutionResult :=
  match r with
  | Ok v => Ok (mkExecutionResult true out err v None)
  | Raise e =>
      if isinstance e TimeoutError then
        Ok (mkExecutionResult false out err VNone
              (Some ("Execution timed out after " ++ str_of_int deadline ++ "s")))
      else if isinstance e Exception then
        Ok (mkExecutionResult false out err VNone
              (Some (class_name (exc_class e) ++ ": " ++ exc_msg e)))
      else Raise e
  end.


Section SandboxedRun.
Context {E : Type}.
Variable run_entry_point : string -> dict (NsObj E) -> Z -> M E PyVal.

(** The run execute starts once the text has parsed. *)
Definition sandboxed_run (self : RestrictedSandbox) (code : string)
    (tools : option (list (Tool E))) (timeout_arg : option Z) (w : World E)
    : World E * Res PyVal :=
  wait_for_execute_code run_entry_point code
    (_build_namespace (match tools with Some ts => ts | None => [] end))
    (opt_num_or timeout_arg (timeout self)) (redirected w).

End SandboxedRun.

(** [m] is the tool-role message that answers [call]: it carries the call's
    identifier and tool name, and some text. *)
Definition answers (call : ToolCall) (m : Message) : Prop :=
  exists text, m = tool_message call text.

(** The tool calls a message requests. *)
Definition calls_of (m : Message) : list ToolCall :=
  match tool_calls m with
  | Some calls => calls
  | None => []
  end.


(** The messages a run of iterations appends: each answer followed by its
    replies. *)
Fixpoint history (trace : list (Message * Usage)) (replies : list (list Message))
    : list Message :=
  match trace, replies with
  | answer :: trace', r :: replies' =>
      (fst answer :: r) ++ history trace' replies'
  | _, _ => []
  end.

(** A token counter summed over the backend's answers. *)
Definition sum_usage (f : Usage -> Z) (trace : list (Message * Usage)) : Z :=
  fold_right (fun answer acc => f (snd answer) + acc) 0 trace.



(* ===================================================================== *)
(** * Scenarios: a concrete runtime and concrete values *)
(* ===================================================================== *)

(** The rest of the world is a counter of backend calls. *)
Definition W0 : World nat := mkWorld 0 1 [EmptyString; EmptyString] 0%nat.

(** [json.loads] on the two argument texts the scenarios use: "{}" decodes
    to the empty dict; the empty text raises JSONDecodeError with Python's
    message.  Other texts are outside this stub. *)
Definition json_loads_stub (s : string) : Res JVal :=
  if String.eqb s "{}" then Ok (JObj [])
  else if String.eqb s EmptyString then
    Raise (mkExn JSONDecodeError "Expecting value: line 1 column 1 (char 0)")
  else Raise (mkExn NotImplementedError "text outside the stub").

Definition hex_digit (n : nat) : string :=
  String (nth n (list_ascii_of_string "0123456789ABCDEF") "0"%char) EmptyString.

(** The first character that Python's tokenizer refuses in a text without
    any token: a whitespace character other than space, tab, form feed and
    the line breaks.  The scan stops at the first character that is not
    whitespace. *)
Fixpoint invalid_blank (s : string) : option ascii :=
  match s with
  | EmptyString => None
  | String a s' =>
      let n := nat_of_ascii a in
      if ((n =? 32) || (n =? 9) || (n =? 12) || (n =? 10) || (n =? 13))%nat
      then invalid_blank s'
      else if isspace a then Some a else None
  end.

(** [ast.parse] on text without any token, first line.  Text that holds a
    token is outside this stub, which lets it pass. *)
Definition ast_parse_stub (s : string) : Res unit :=
  match invalid_blank s with
  | Some a =>
      let n := nat_of_ascii a in
      Raise (mkExn SyntaxError
               ("invalid non-printable character U+00"
                ++ hex_digit (n / 16) ++ hex_digit (n mod 16)
                ++ " (<unknown>, line 1)"))
  | None => Ok tt
  end.

(** [print(text)]: writes to the stream [sys.stdout] refers to. *)
Fixpoint append_at (i : nat) (text : string) (l : list string) : list string :=
  match l, i with
  | [], _ => []
  | x :: l', O => (x ++ text) :: l'
  | x :: l', S i' => x :: append_at i' text l'
  end.

Definition print {E : Type} (text : string) : M E unit :=
  fun w => (mkWorld (sys_stdout w) (sys_stderr w)
                    (append_at (sys_stdout w) (text ++ nl) (streams w)) (ext w),
            Ok tt).

Definition code_hi : string := "print('hi')".
Definition code_partial : string :=
  "print('partial')" ++ nl ++ "print(1/0)".
Definition code_return : string := "return 42".
Definition code_return_empty : string := "return ''".
Definition code_exit : string := "raise SystemExit".
Definition vertical_tab : string := String (ascii_of_nat 11) EmptyString.

(** The interpreter on the six programs of the scenarios.  Other programs
    are outside this stub. *)
Definition run_stub {E : Type} (program : string) (namespace : dict (NsObj E))
    (deadline : Z) : M E PyVal :=
  if String.eqb program trivial_program then ret VNone
  else if String.eqb program (wrapped_code code_hi) then
    print "hi" ;;; ret VNone
  else if String.eqb program (wrapped_code code_partial) then
    print "partial" ;;; raise (mkExn ZeroDivisionError "division by zero")
  else if String.eqb program (wrapped_code code_return) then ret (VInt 42)
  else if String.eqb program (wrapped_code code_return_empty) then
    ret (VStr EmptyString)
  else if String.eqb program (wrapped_code code_exit) then
    raise (mkExn SystemExit EmptyString)
  else raise (mkExn NotImplementedError "program outside the stub").

Definition sandbox60 : RestrictedSandbox := mkRestrictedSandbox 60.

Definition settings_restricted : Settings := mkSettings "restricted" 60.

(** E2B is not installed in the scenarios. *)
Definition e2b_missing : Res (Sandbox nat) :=
  Raise (mkExn SandboxError
           "E2B not installed. Install with: pip install polytool[e2b]").

Definition acquire_stub (sandbox_type : option string) : Res (Sandbox nat) :=
  get_sandbox ast_parse_stub run_stub e2b_missing settings_restricted
              sandbox_type.

(** Tools: one that answers, one that fails, one without executor. *)
Definition echo_tool : Tool nat :=
  mkTool "echo" "Echo" empty_object_schema NATIVE
         (Some (fun _ => ret (VStr "ok"))).

Definition failing_tool : Tool nat :=
  mkTool "boom" "Always fails" empty_object_schema NATIVE
         (Some (fun _ => raise (mkExn ValueError "bad input"))).

Definition search_tool : Tool nat :=
  mkTool "search" "Search the web" empty_object_schema NATIVE None.

Definition search_tool_2 : Tool nat :=
  mkTool "search" "Another search" empty_object_schema MCP
         (Some (fun _ => ret VNone)).

Definition registry_echo : ToolRegistry nat :=
  mkToolRegistry [("echo", echo_tool); ("boom", failing_tool)].

Definition registry_search : ToolRegistry nat :=
  mkToolRegistry [("search", search_tool)].

(** A backend that, whatever it is shown, asks for one call of [tool_name]
    with the argument text [arguments], and counts its calls. *)
Definition insisting_backend (tool_name arguments : string) : Provider nat :=
  mkProvider (fun _ _ w =>
    (mkWorld (sys_stdout w) (sys_stderr w) (streams w) (S (ext w)),
     Ok (mkMessage "assistant" None
           (Some [mkToolCall "call_1" tool_name arguments]) None None,
         mkUsage 10 5 15 0 0))).

(** [repr] on None, the bools, the ints and the str "None".  Other values
    are outside this stub. *)
Definition repr_stub (v : JVal) : string :=
  match v with
  | JNull => "None"
  | JBool true => "True"
  | JBool false => "False"
  | JInt z => str_of_int z
  | JStr s => if String.eqb s "None" then "'None'" else "<outside the stub>"
  | _ => "<outside the stub>"
  end.

Definition agent_echo : Agent nat :=
  mkAgent None 3 (insisting_backend "echo" "{}") registry_echo.




Definition ect_echo : ExecuteCodeTool nat :=
  mkExecuteCodeTool registry_echo (Some "restricted").

(** def add(a: int, b: int = 2), def classify(text: str, cls: str), and the
    built-in max, whose signature inspect cannot read. *)
Definition fn_add : Callable nat :=
  mkCallable (Some "add") (Some "Add two numbers.")
    (Ok [mkParam "a" POSITIONAL_OR_KEYWORD None;
         mkParam "b" POSITIONAL_OR_KEYWORD (Some (JInt 2))])
    (Ok [("a", HInt); ("b", HInt)]) None false (fun _ => ret (VInt 0)).

Definition fn_classify : Callable nat :=
  mkCallable (Some "classify") None
    (Ok [mkParam "text" POSITIONAL_OR_KEYWORD None;
         mkParam "cls" POSITIONAL_OR_KEYWORD None])
    (Ok [("text", HStr); ("cls", HStr)]) None false (fun _ => ret (VStr "x")).

Definition builtin_max : Callable nat :=
  mkCallable (Some "max") (Some "max(iterable, *[, default=obj, key=func])")
    (Raise (mkExn ValueError
              "no signature found for builtin <built-in function max>"))
    (Ok []) None false (fun _ => ret (VInt 0)).

(* ===================================================================== *)
(** * Further code: registry, agent, provider, sandbox factory *)
(* ===================================================================== *)

Section RegistryMore.
Context {E : Type}.

(** ToolRegistry.register_many (registry.py:57-59): the list comprehension
    registers one after the other and stops at the first call that raises;
    what was registered before stays. *)
Fixpoint register_many (self : ToolRegistry E) (tools : list (Registrable E))
    : ToolRegistry E * Res (list (Tool E)) :=
  match tools with
  | [] => (self, Ok [])
  | t :: rest =>
      match register self t with
      | (self1, Raise e) => (self1, Raise e)
      | (self1, Ok registered) =>
          match register_many self1 rest with
          | (self2, Raise e) => (self2, Raise e)
          | (self2, Ok others) => (self2, Ok (registered :: others))
          end
      end
  end.

(** ToolRegistry.clear. *)
Definition clear (self : ToolRegistry E) : ToolRegistry E := mkToolRegistry [].

(** Agent.add_tool (agent.py:137-143): a callable without a Tool and an
    object that is neither a Tool nor callable are passed over in silence. *)
Definition add_tool (self : Agent E) (t : Registrable E)
    : Agent E * Res unit :=
  let with_registry r :=
    mkAgent (system_prompt self) (max_iterations self) (provider self) r in
  let do_register tool_obj :=
    match register (registry self) (ATool tool_obj) with
    | (r, Ok _) => (with_registry r, Ok tt)
    | (r, Raise e) => (with_registry r, Raise e)
    end in
  match t with
  | ATool tool_obj => do_register tool_obj
  | ACallable f =>
      match get_tool_from_func f with
      | Some tool_obj => do_register tool_obj
      | None => (self, Ok tt)
      end
  | AOther _ => (self, Ok tt)
  end.

(** E2BSandbox.__init__ (sandbox/e2b.py:30-39): without the e2b package the
    constructor raises SandboxError; [remote] is the sandbox it builds
    otherwise. *)
Definition E2BSandbox_init (E2B_AVAILABLE : bool) (remote : Sandbox E)
    : Res (Sandbox E) :=
  if E2B_AVAILABLE then Ok remote
  else Raise (mkExn SandboxError
                "E2B not installed. Install with: pip install polytool[e2b]").

End RegistryMore.

(* ===================================================================== *)
(** * providers/litellm.py *)
(* ===================================================================== *)

(** What litellm answers: per choice the message (content and tool calls),
    and the token usage when the backend reports it. *)
Record ResponseMessage : Type := mkResponseMessage {
  rm_content : option string;
  rm_tool_calls : option (list ToolCall)
}.

Record LLMUsage : Type := mkLLMUsage {
  prompt_tokens : Z;
  completion_tokens : Z;
  llm_total_tokens : Z
}.

Record ModelResponse : Type := mkModelResponse {
  choices : list ResponseMessage;
  response_usage : option LLMUsage
}.

(** The dict built for one tool call (litellm.py:154-161). *)
Definition tool_call_dict (tc : ToolCall) : JVal :=
  JObj [("id", JStr (tc_id tc));
        ("type", JStr "function");
        ("function", JObj [("name", JStr (tc_name tc));
                           ("arguments", JStr (tc_arguments tc))])].

(** [d[k]] for a str key on decoded data: KeyError on a missing key,
    TypeError on a value that is no dict. *)
Definition subscript (d : JVal) (k : string) : Res JVal :=
  match d with
  | JObj items =>
      match dict_get items k with
      | Some v => Ok v
      | None => Raise (mkExn KeyError ("'" ++ k ++ "'"))
      end
  | JStr _ =>
      Raise (mkExn TypeError "string indices must be integers, not 'str'")
  | JArr _ =>
      Raise (mkExn TypeError
               "list indices must be integers or slices, not str")
  | other =>
      Raise (mkExn TypeError
               ("'" ++ json_type_name other ++ "' object is not subscriptable"))
  end.

(** The three lookups of the agent loop on a tool-call dict
    (agent.py:102-104): [tool_call["function"]["name"]],
    [tool_call["function"]["arguments"]] and [tool_call["id"]], in this
    order. *)
Definition tool_call_fields (tool_call : JVal) : Res (JVal * JVal * JVal) :=
  match subscript tool_call "function" with
  | Raise e => Raise e
  | Ok f =>
      match subscript f "name" with
      | Raise e => Raise e
      | Ok func_name =>
          match subscript tool_call "function" with
          | Raise e => Raise e
          | Ok f' =>
              match subscript f' "arguments" with
              | Raise e => Raise e
              | Ok arguments =>
                  match subscript tool_call "id" with
                  | Raise e => Raise e
                  | Ok id => Ok (func_name, arguments, id)
                  end
              end
          end
      end
  end.

(** _response_to_message (litellm.py:148-167): an absent or empty list of
    tool calls gives [tool_calls = None]. *)
Definition _response_to_message (response_message : ResponseMessage)
    : Message :=
  let calls :=
    match rm_tool_calls response_message with
    | Some (c :: cs) => Some (c :: cs)
    | _ => None
    end in
  mkMessage "assistant" (rm_content response_message) calls None None.

(** _message_to_dict (litellm.py:130-146): the role always; the content
    unless it is None; tool calls, call identifier and name only when they
    are truthy. *)
Definition _message_to_dict (message : Message) : dict JVal :=
  let result := [("role", JStr (role message))] in
  let result :=
    match content message with
    | Some c => dict_set result "content" (JStr c)
    | None => result
    end in
  let result :=
    match tool_calls message with
    | Some (c :: cs) =>
        dict_set result "tool_calls" (JArr (map tool_call_dict (c :: cs)))
    | _ => result
    end in
  let result :=
    match tool_call_id message with
    | Some i => if str_truthy i then dict_set result "tool_call_id" (JStr i)
                else result
    | None => result
    end in
  match msg_name message with
  | Some n => if str_truthy n then dict_set result "name" (JStr n) else result
  | None => result
  end.

(** Tool.to_openai_schema (core/types.py:41-49). *)
Definition to_openai_schema {E : Type} (t : Tool E) : JVal :=
  JObj [("type", JStr "function");
        ("function", JObj [("name", JStr (name t));
                           ("description", JStr (description t));
                           ("parameters", JObj (parameters t))])].

Section LiteLLM.
Context {E : Type}.

(** [litellm.acompletion] with the provider's model and options: the
    messages and the tools (None when there are none) go in. *)
Variable acompletion : list (dict JVal) -> option (list JVal)
                       -> M E ModelResponse.

(** The body of the try statement of generate (litellm.py:69-89). *)
Definition generate_body (msgs : list Message) (tools : list (Tool E))
    : M E (Message * Usage) :=
  let litellm_messages := map _message_to_dict msgs in
  let litellm_tools :=
    match tools with
    | [] => None
    | _ => Some (map to_openai_schema tools)
    end in
  response <- acompletion litellm_messages litellm_tools ;;
  match choices response with
  | [] => raise (mkExn (UserException "IndexError") "list index out of range")
  | choice :: _ =>
      let assistant_message := _response_to_message choice in
      let u :=
        match response_usage response with
        | Some ru => mkUsage (prompt_tokens ru) (completion_tokens ru)
                             (llm_total_tokens ru) 0 0
        | None => Usage0
        end in
      ret (assistant_message, u)
  end.

(** LiteLLMProvider.generate (litellm.py:43-96). *)
Definition LiteLLMProvider_generate (msgs : list Message)
    (tools : list (Tool E)) : M E (Message * Usage) :=
  try_except (generate_body msgs tools)
    [(Exception,
      fun e => raise (mkExn ProviderError ("LiteLLM error: " ++ exc_msg e)))].

Definition LiteLLMProvider : Provider E :=
  mkProvider LiteLLMProvider_generate.

End LiteLLM.

(* ===================================================================== *)
(** * Vocabulary of the further properties *)
(* ===================================================================== *)

(** The registry is a dict: its keys are distinct, and every Tool is stored
    under its own name. *)
Definition registry_ok {E : Type} (self : ToolRegistry E) : Prop :=
  NoDup (dict_keys (_tools self))
  /\ Forall (fun kv => name (snd kv) = fst kv) (_tools self).

(** The schemas _type_to_schema builds from hints that hold no pydantic
    model: a JSON type name, and for an array the schema of its items. *)
Inductive TypedSchema : dict JVal -> Prop :=
| typed_scalar (t : string) :
    In t ["null"; "string"; "integer"; "number"; "boolean"; "object"] ->
    TypedSchema [("type", JStr t)]
| typed_array (items : dict JVal) :
    TypedSchema items ->
    TypedSchema [("type", JStr "array"); ("items", JObj items)].

(** No pydantic model where _type_to_schema looks: under Annotated, and in
    the first argument of a list hint. *)
Fixpoint model_free (h : Hint) : bool :=
  match h with
  | HModel _ => false
  | HAnnotated base _ => model_free base
  | HListOf (a :: _) => model_free a
  | _ => true
  end.

(** What _indent does to one line. *)
Definition indent_line (n : Z) (line : string) : string :=
  if str_truthy (strip line) then spaces n ++ line else line.

(** The text has no line break. *)
Fixpoint one_line (s : string) : bool :=
  match s with
  | EmptyString => true
  | String a s' => negb (Ascii.eqb a newline) && one_line s'
  end.

(** The names _build_namespace binds before the tools, with their
    bindings. *)
Definition base_namespace {E : Type} : dict (NsObj E) :=
  (map (fun n => (n, NsBuiltin n)) safe_builtins
   ++ [("json", NsModule "json"); ("asyncio", NsModule "asyncio")])%list.

(** One turn of the loop of _build_namespace over the tools. *)
Definition bind_tool {E : Type} (namespace : dict (NsObj E)) (t : Tool E)
    : dict (NsObj E) :=
  dict_set namespace (name t) (NsTool t).

(** The call is a code execution. *)
Definition is_ptc (c : ToolCall) : bool := String.eqb (tc_name c) "execute_code".

(** All the calls the backend asked for, in order. *)
Definition requested_calls (trace : list (Message * Usage)) : list ToolCall :=
  flat_map (fun answer => calls_of (fst answer)) trace.

(** Every call of the answer has its tool-role reply, in order. *)
Definition replies_to (answer : Message * Usage) (replies : list Message)
    : Prop :=
  Forall2 answers (calls_of (fst answer)) replies.

(** How a run that returns has ended: at the bound, every answer having
    asked for calls, or at an answer that asked for none. *)
Definition run_ending (n : nat) (trace : list (Message * Usage))
    (r : AgentResult) : Prop :=
  (length trace = n
   /\ Forall (fun answer => calls_of (fst answer) <> []) trace
   /\ output r = sentinel)
  \/ (exists init last,
        trace = (init ++ [last])%list
        /\ Forall (fun answer => calls_of (fst answer) <> []) init
        /\ calls_of (fst last) = []
        /\ output r = opt_str_or (content (fst last)) EmptyString).

(** The calls of a list that are code executions, and those that are not,
    counted. *)
Definition count_ptc (calls : list ToolCall) : Z :=
  Z.of_nat (length (filter is_ptc calls)).

Definition count_direct (calls : list ToolCall) : Z :=
  Z.of_nat (length (filter (fun c => negb (is_ptc c)) calls)).


(** The system message Agent.run puts in front of a conversation that has
    none. *)
Definition system_message (text : string) : Message :=
  mkMessage "system" (Some text) None None None.


Definition user_message (prompt : string) : Message :=
  mkMessage "user" (Some prompt) None None None.

(* ===================================================================== *)
(** * Further scenarios *)
(* ===================================================================== *)

(** A backend that first asks for echo({}) and for a code execution, and
    answers in plain text from its second call on. *)
Definition scripted_backend : Provider nat :=
  mkProvider (fun _ _ w =>
    (mkWorld (sys_stdout w) (sys_stderr w) (streams w) (S (ext w)),
     Ok (match ext w with
         | O =>
             (mkMessage "assistant" None
                (Some [mkToolCall "call_1" "echo" "{}";
                       mkToolCall "call_2" "execute_code" "{}"]) None None,
              mkUsage 10 5 15 0 0)
         | S _ =>
             (mkMessage "assistant" (Some "done") None None None,
              mkUsage 7 3 10 0 0)
         end))).

Definition agent_scripted : Agent nat :=
  mkAgent None 3 scripted_backend registry_echo.

(** A tool as an MCP server may describe it: the property's "type" is a
    list of type names.  The agent that holds it asks its backend for it. *)
Definition union_tool : Tool nat :=
  mkTool "lookup" "Look a key up"
         [("type", JStr "object");
          ("properties",
           JObj [("key", JObj [("type", JArr [JStr "string"; JStr "null"])])])]
         MCP (Some (fun _ => ret VNone)).

Definition agent_union : Agent nat :=
  mkAgent None 3 (insisting_backend "lookup" "{}")
          (mkToolRegistry [("lookup", union_tool)]).

(** A backend that answers in plain text at once. *)
Definition plain_backend (text : option string) : Provider nat :=
  mkProvider (fun _ _ w =>
    (mkWorld (sys_stdout w) (sys_stderr w) (streams w) (S (ext w)),
     Ok (mkMessage "assistant" text None None None, mkUsage 7 3 10 0 0))).

Definition agent_plain : Agent nat :=
  mkAgent (Some "Be brief.") 3 (plain_backend (Some "Hello")) registry_echo.

(** [json.loads] on two more argument texts. *)
Definition json_loads_more (s : string) : Res JVal :=
  if String.eqb s "[]" then Ok (JArr [])
  else if String.eqb s "null" then Ok JNull
  else json_loads_stub s.

(** litellm answering with one tool call and usage figures, with no choice
    at all, and failing with a rate limit. *)
Definition acompletion_call (msgs : list (dict JVal))
    (tools : option (list JVal)) : M nat ModelResponse :=
  ret (mkModelResponse
         [mkResponseMessage None (Some [mkToolCall "call_1" "echo" "{}"])]
         (Some (mkLLMUsage 10 5 15))).

Definition acompletion_empty (msgs : list (dict JVal))
    (tools : option (list JVal)) : M nat ModelResponse :=
  ret (mkModelResponse [] None).

Definition acompletion_rate_limited (msgs : list (dict JVal))
    (tools : option (list JVal)) : M nat ModelResponse :=
  raise (mkExn (UserException "RateLimitError") "rate limit exceeded").

(* ===================================================================== *)
(** * Facts about dictionaries and text *)
(* ===================================================================== *)

Lemma dict_get_set_same {V : Type} (d : dict V) (k : string) (v : V) :
  dict_get (dict_set d k v) k = Some v.
Proof.
  induction d as [| [k' v'] d IH]; simpl.
  - now rewrite String.eqb_refl.
  - destruct (String.eqb k' k) eqn:Hk; simpl; rewrite Hk; auto.
Qed.

Lemma dict_get_set_other {V : Type} (d : dict V) (k k' : string) (v : V) :
  k <> k' -> dict_get (dict_set d k v) k' = dict_get d k'.
Proof.
  intros Hne. induction d as [| [k0 v0] d IH]; simpl.
  - destruct (String.eqb k k') eqn:Hk; auto.
    apply String.eqb_eq in Hk. contradiction.
  - destruct (String.eqb k0 k) eqn:Hk; simpl.
    + apply String.eqb_eq in Hk. subst k0.
      destruct (String.eqb k k') eqn:Hk'; auto.
      apply String.eqb_eq in Hk'. contradiction.
    + now rewrite IH.
Qed.

Lemma dict_has_get {V : Type} (d : dict V) (k : string) (v : V) :
  dict_get d k = Some v -> dict_has d k = true.
Proof. unfold dict_has. now intros ->. Qed.

Lemma dict_has_false {V : Type} (d : dict V) (k : string) :
  dict_has d k = false -> dict_get d k = None.
Proof. unfold dict_has. now destruct (dict_get d k). Qed.

(** A new key goes to the end, so the values keep their order. *)
Lemma dict_set_fresh {V : Type} (d : dict V) (k : string) (v : V) :
  dict_get d k = None -> dict_set d k v = (d ++ [(k, v)])%list.
Proof.
  induction d as [| [k' v'] d IH]; simpl; auto.
  destruct (String.eqb k' k); intros H; [discriminate |].
  now rewrite IH.
Qed.

Lemma str_items_map_JStr (l : list string) : str_items (map JStr l) = l.
Proof. induction l; simpl; congruence. Qed.

(* ===================================================================== *)
(** * The registry (C3) *)
(* ===================================================================== *)

Section RegistryFacts.
Context {E : Type}.

Lemma register_tool_duplicate (self : ToolRegistry E) (first second : Tool E) :
  dict_get (_tools self) (name second) = Some first ->
  register_tool self second
  = (self, Raise (mkExn ToolError
                    ("Tool '" ++ name second ++ "' already registered"))).
Proof.
  intros H. unfold register_tool. now rewrite (dict_has_get _ _ _ H).
Qed.

Lemma register_tool_ok (self self' : ToolRegistry E) (t t' : Tool E) :
  register_tool self t = (self', Ok t') ->
  t' = t
  /\ dict_get (_tools self) (name t) = None
  /\ _tools self' = (_tools self ++ [(name t, t)])%list.
Proof.
  unfold register_tool.
  destruct (dict_has (_tools self) (name t)) eqn:Hh; intros H;
    inversion H; subst.
  pose proof (dict_has_false _ _ Hh) as Hn.
  repeat split; auto. simpl. now apply dict_set_fresh.
Qed.

Lemma register_resolves (self self' : ToolRegistry E) (arg : Registrable E)
    (t : Tool E) :
  register self arg = (self', Ok t) ->
  exists t0, resolves_to arg t0 /\ register_tool self t0 = (self', Ok t).
Proof.
  destruct arg as [t0 | f | ty]; simpl.
  - intros H. exists t0. split; [now left | exact H].
  - unfold get_tool_from_func. destruct (fn_tool f) as [t0 |] eqn:Hf.
    + intros H. exists t0. split; [right; now exists f | exact H].
    + destruct (fn_name f); discriminate.
  - discriminate.
Qed.

(** C3.  In every registry, registering a second Tool (handed over as a Tool
    or as a decorated function) under a name that is already present fails
    with ToolError "Tool '<name>' already registered"; the registry is left
    exactly as it was, so the name still maps to the first Tool.  And when a
    register call succeeds, the Tool it returns is the very Tool it was
    handed, stored as given under its name at the end of the registry: no
    other entry changes. *)
Theorem register_duplicate_rejected_and_identity :
  forall (self : ToolRegistry E),
    (forall (arg : Registrable E) (first second : Tool E),
        dict_get (_tools self) (name second) = Some first ->
        resolves_to arg second ->
        register self arg
        = (self, Raise (mkExn ToolError
                          ("Tool '" ++ name second ++ "' already registered")))
        /\ get (fst (register self arg)) (name second) = Ok first)
    /\ (forall (arg : Registrable E) (self' : ToolRegistry E) (t : Tool E),
           register self arg = (self', Ok t) ->
           resolves_to arg t
           /\ get self' (name t) = Ok t
           /\ _tools self' = (_tools self ++ [(name t, t)])%list
           /\ get_all self' = (get_all self ++ [t])%list).
Proof.
  intros self. split.
  - intros arg first second Hin Hres.
    assert (Hreg : register self arg
                   = (self, Raise (mkExn ToolError
                        ("Tool '" ++ name second ++ "' already registered")))).
    { destruct Hres as [-> | [f [-> Hf]]]; simpl.
      - now apply register_tool_duplicate with (first := first).
      - unfold get_tool_from_func. rewrite Hf.
        now apply register_tool_duplicate with (first := first). }
    split; [exact Hreg |].
    rewrite Hreg. simpl. unfold get. now rewrite Hin.
  - intros arg self' t Hreg.
    destruct (register_resolves _ _ _ _ Hreg) as [t0 [Hres Hrt]].
    destruct (register_tool_ok _ _ _ _ Hrt) as [-> [Hfresh Htools]].
    repeat split; auto.
    + unfold get. rewrite Htools.
      rewrite <- (dict_set_fresh _ _ t0 Hfresh).
      now rewrite dict_get_set_same.
    + unfold get_all, dict_values. rewrite Htools. now rewrite map_app.
Qed.

End RegistryFacts.

(* ===================================================================== *)
(** * Tool.execute without an executor (C7) *)
(* ===================================================================== *)

Section ToolFacts.
Context {E : Type}.

(** C7, as the code has it.  Executing a Tool whose executor is None
    always raises and changes nothing.  With keyword arguments none of which
    is named "self" it raises the built-in ValueError with the message
    "Tool '<name>' has no executor"; with a keyword named "self" the call
    fails earlier, while its arguments are bound, with TypeError.  Either
    exception is an Exception but no instance of ToolError nor of
    PolyToolError. *)
Theorem execute_without_executor_raises_ValueError :
  forall (t : Tool E) (kwargs : Kwargs) (w : World E),
    _executor t = None ->
    exists e,
      Tool_execute t kwargs w = (w, Raise e)
      /\ (dict_has kwargs "self" = false ->
          e = mkExn ValueError ("Tool '" ++ name t ++ "' has no executor"))
      /\ (dict_has kwargs "self" = true ->
          e = mkExn TypeError
                "Tool.execute() got multiple values for argument 'self'")
      /\ isinstance e Exception = true
      /\ isinstance e ToolError = false
      /\ isinstance e PolyToolError = false.
Proof.
  intros t kwargs w H. unfold Tool_execute. rewrite H.
  destruct (dict_has kwargs "self"); eexists;
    (split; [reflexivity |]);
    (split; [intros Hs; try discriminate; reflexivity |]);
    (split; [intros Hs; try discriminate; reflexivity |]);
    repeat split.
Qed.

End ToolFacts.

(* ===================================================================== *)
(** * Schema synthesis (C8, C9) *)
(* ===================================================================== *)

Section SchemaFacts.
Variable hints : dict Hint.

Lemma schema_step_required (acc : dict JVal * list string) (p : Param) :
  snd (schema_step hints acc p)
  = (snd acc ++ (if kept_without_default p then [param_name p] else []))%list.
Proof.
  destruct acc as [props req]. unfold schema_step, kept_without_default.
  destruct (skipped p); simpl.
  - now rewrite app_nil_r.
  - destruct (default p); simpl; auto. now rewrite app_nil_r.
Qed.

Lemma fold_required (params : list Param) (acc : dict JVal * list string) :
  snd (fold_left (schema_step hints) params acc)
  = (snd acc ++ map param_name (filter kept_without_default params))%list.
Proof.
  revert acc. induction params as [| p params IH]; intros acc; simpl.
  - now rewrite app_nil_r.
  - rewrite IH, schema_step_required, <- app_assoc. f_equal.
    now destruct (kept_without_default p).
Qed.

Lemma schema_step_other (acc : dict JVal * list string) (p : Param)
    (k : string) :
  param_name p <> k ->
  dict_get (fst (schema_step hints acc p)) k = dict_get (fst acc) k.
Proof.
  intros Hne. destruct acc as [props req]. unfold schema_step.
  destruct (skipped p); simpl; auto.
  destruct (default p); simpl; now apply dict_get_set_other.
Qed.

Lemma fold_other (params : list Param) (acc : dict JVal * list string)
    (k : string) :
  ~ In k (map param_name params) ->
  dict_get (fst (fold_left (schema_step hints) params acc)) k
  = dict_get (fst acc) k.
Proof.
  revert acc. induction params as [| p params IH]; intros acc Hk; simpl; auto.
  simpl in Hk. rewrite IH by tauto. apply schema_step_other. tauto.
Qed.

Lemma schema_step_kept (acc : dict JVal * list string) (p : Param) :
  skipped p = false ->
  exists prop_schema,
    dict_get (fst (schema_step hints acc p)) (param_name p)
    = Some (JObj prop_schema)
    /\ forall d, default p = Some d -> dict_get prop_schema "default" = Some d.
Proof.
  intros Hs. destruct acc as [props req]. unfold schema_step. rewrite Hs.
  destruct (default p) as [d |]; simpl; rewrite dict_get_set_same;
    eexists; split; try reflexivity.
  - intros d' H. inversion H; subst. apply dict_get_set_same.
  - discriminate.
Qed.

Lemma fold_kept (params : list Param) (acc : dict JVal * list string)
    (p : Param) :
  NoDup (map param_name params) -> In p params -> skipped p = false ->
  exists prop_schema,
    dict_get (fst (fold_left (schema_step hints) params acc)) (param_name p)
    = Some (JObj prop_schema)
    /\ forall d, default p = Some d -> dict_get prop_schema "default" = Some d.
Proof.
  revert acc. induction params as [| q params IH]; intros acc Hnd Hin Hs.
  - contradiction.
  - simpl in Hnd. inversion Hnd as [| ? ? Hq Hnd']; subst.
    destruct Hin as [-> | Hin]; simpl.
    + rewrite fold_other by exact Hq. now apply schema_step_kept.
    + now apply IH.
Qed.

Lemma schema_step_skipped (acc : dict JVal * list string) (p : Param) :
  skipped p = true -> schema_step hints acc p = acc.
Proof.
  intros Hs. destruct acc as [props req]. unfold schema_step. now rewrite Hs.
Qed.

Lemma fold_skipped (params : list Param) (acc : dict JVal * list string)
    (p : Param) :
  NoDup (map param_name params) -> In p params -> skipped p = true ->
  dict_get (fst (fold_left (schema_step hints) params acc)) (param_name p)
  = dict_get (fst acc) (param_name p).
Proof.
  revert acc. induction params as [| q params IH]; intros acc Hnd Hin Hs.
  - contradiction.
  - simpl in Hnd. inversion Hnd as [| ? ? Hq Hnd']; subst. simpl.
    destruct Hin as [-> | Hin].
    + rewrite fold_other by exact Hq. now rewrite schema_step_skipped.
    + rewrite IH by assumption. apply schema_step_other.
      intros Heq. apply Hq. rewrite Heq. now apply in_map.
Qed.

End SchemaFacts.

Lemma build_schema_required (acc : dict JVal * list string) :
  schema_required (build_schema acc) = snd acc.
Proof.
  destruct acc as [props [| r req]]; simpl; auto.
  unfold schema_required. simpl. f_equal. apply str_items_map_JStr.
Qed.

Lemma build_schema_properties (acc : dict JVal * list string) :
  schema_properties (build_schema acc) = fst acc.
Proof. destruct acc as [props [| r req]]; reflexivity. Qed.

Lemma build_schema_type (acc : dict JVal * list string) :
  dict_get (build_schema acc) "type" = Some (JStr "object").
Proof. destruct acc as [props [| r req]]; reflexivity. Qed.

Lemma in_kept_names (params : list Param) (p : Param) :
  NoDup (map param_name params) -> In p params ->
  In (param_name p) (map param_name (filter kept_without_default params))
  <-> kept_without_default p = true.
Proof.
  intros Hnd Hin. split.
  - intros H. apply in_map_iff in H. destruct H as [q [Hname Hq]].
    apply filter_In in Hq. destruct Hq as [Hq Hkept].
    assert (q = p) as <-; [| exact Hkept].
    clear Hkept. induction params as [| r params IH]; [contradiction |].
    simpl in Hnd. inversion Hnd as [| ? ? Hr Hnd']; subst.
    destruct Hin as [-> | Hin], Hq as [-> | Hq]; auto.
    + exfalso. apply Hr. rewrite <- Hname. now apply in_map.
    + exfalso. apply Hr. rewrite Hname. now apply in_map.
  - intros H. apply in_map. apply filter_In. now split.
Qed.

Section GenerateSchema.
Context {E : Type}.

(** What _generate_schema computes once the signature is known: the hints
    are the resolved ones, or none when resolving them raised an
    Exception. *)
Lemma generate_schema_introspectable (func : Callable E)
    (params : list Param) :
  fn_signature func = Ok params ->
  (forall e, fn_hints func = Raise e -> isinstance e Exception = true) ->
  exists hints,
    _generate_schema func
    = Ok (build_schema (fold_left (schema_step hints) params ([], []))).
Proof.
  intros Hsig Hh. unfold _generate_schema. rewrite Hsig.
  destruct (fn_hints func) as [hints | e].
  - now exists hints.
  - rewrite (Hh e eq_refl). now exists [].
Qed.

(** C8, as the code has it.  For a callable whose signature can be read
    (parameter names are distinct, as in every Python signature) and whose
    hints resolve or fail with an Exception, schema synthesis returns an
    object schema in which every parameter that is not variadic and is named
    neither "self" nor "cls" is in the required list exactly when it has no
    default, and carries its default under "default" in its property schema
    when it has one; a parameter that is variadic or named "self" or "cls"
    is no property of the schema and is not in the required list. *)
Theorem required_iff_no_default :
  forall (func : Callable E) (params : list Param),
    fn_signature func = Ok params ->
    NoDup (map param_name params) ->
    (forall e, fn_hints func = Raise e -> isinstance e Exception = true) ->
    exists schema,
      _generate_schema func = Ok schema
      /\ dict_get schema "type" = Some (JStr "object")
      /\ (forall p,
             In p params ->
             is_variadic (kind p) = false ->
             param_name p <> "self" -> param_name p <> "cls" ->
             (In (param_name p) (schema_required schema) <-> default p = None)
             /\ (forall d, default p = Some d ->
                           property_default schema (param_name p) = Some d))
      /\ (forall p,
             In p params ->
             is_variadic (kind p) = true
             \/ param_name p = "self" \/ param_name p = "cls" ->
             dict_get (schema_properties schema) (param_name p) = None
             /\ ~ In (param_name p) (schema_required schema)).
Proof.
  intros func params Hsig Hnd Hh.
  destruct (generate_schema_introspectable func params Hsig Hh)
    as [hints Hgen].
  eexists. split; [exact Hgen |]. split; [apply build_schema_type |].
  split.
  - intros p Hin Hvar Hself Hcls.
    assert (Hs : skipped p = false).
    { unfold skipped. rewrite Hvar.
      apply String.eqb_neq in Hself, Hcls. now rewrite Hself, Hcls. }
    split.
    + rewrite build_schema_required, fold_required. simpl.
      rewrite (in_kept_names params p Hnd Hin).
      unfold kept_without_default. rewrite Hs. simpl.
      destruct (default p); split; congruence.
    + intros d Hd. unfold property_default.
      rewrite build_schema_properties.
      destruct (fold_kept hints params ([], []) p Hnd Hin Hs)
        as [ps [Hget Hdef]].
      rewrite Hget. now apply Hdef.
  - intros p Hin Hskip.
    assert (Hs : skipped p = true).
    { unfold skipped. destruct Hskip as [Hv | [Hn | Hn]].
      - rewrite Hv. apply orb_true_r.
      - rewrite Hn. reflexivity.
      - rewrite Hn. reflexivity. }
    split.
    + rewrite build_schema_properties.
      now rewrite (fold_skipped hints params ([], []) p Hnd Hin Hs).
    + rewrite build_schema_required, fold_required. simpl.
      rewrite (in_kept_names params p Hnd Hin).
      unfold kept_without_default. rewrite Hs. discriminate.
Qed.

(** When the signature cannot be read, _generate_schema raises what
    [inspect.signature] raised, and so does the decorator (given a name);
    _normalize_callable, on the same callable, builds a Tool with the empty
    object schema. *)
Lemma unintrospectable_paths (func : Callable E) (e : Exn) (n : string) :
  fn_signature func = Raise e ->
  isinstance e Exception = true ->
  str_truthy n = true -> n <> "<lambda>" ->
  _generate_schema func = Raise e
  /\ tool func (Some n) None = Raise e
  /\ exists t, _normalize_callable func (Some n) None = Ok t
               /\ parameters t = empty_object_schema.
Proof.
  intros Hsig He Hn Hl.
  assert (Hg : _generate_schema func = Raise e).
  { unfold _generate_schema. now rewrite Hsig. }
  split; [exact Hg |]. split.
  - unfold tool, name_or_dunder. now rewrite Hn, Hg.
  - unfold _normalize_callable. rewrite Hn. cbv iota beta.
    apply String.eqb_neq in Hl. rewrite Hn, Hl, Hg, He. simpl.
    eexists. split; reflexivity.
Qed.

End GenerateSchema.

(* ===================================================================== *)
(** * The restricted sandbox (C5, C6, C10) *)
(* ===================================================================== *)

Lemma rstrip_all_space (s : string) : all_space s = true -> rstrip s = EmptyString.
Proof.
  induction s as [| a s IH]; simpl; auto.
  intros H. apply andb_prop in H. destruct H as [Ha Hs].
  now rewrite (IH Hs), Ha.
Qed.

Lemma wrapped_code_blank (code : string) :
  all_space code = true -> wrapped_code code = trivial_program.
Proof.
  intros H. unfold wrapped_code. now rewrite (rstrip_all_space code H).
Qed.

Lemma nth_first_capture (l : list string) (a b d : string) :
  nth (length l) ((l ++ [a]) ++ [b]) d = a.
Proof.
  rewrite <- app_assoc. simpl. apply nth_middle.
Qed.

Lemma nth_second_capture (l : list string) (a b d : string) :
  nth (length (l ++ [a])) ((l ++ [a]) ++ [b]) d = b.
Proof. apply nth_middle. Qed.

Section SandboxFacts.
Context {E : Type}.
Variable ast_parse : string -> Res unit.
Variable run_entry_point : string -> dict (NsObj E) -> Z -> M E PyVal.

(** execute on text the parser rejects with a SyntaxError. *)
Lemma execute_syntax_error (self : RestrictedSandbox) (code : string)
    (tools : option (list (Tool E))) (timeout_arg : option Z) (w : World E)
    (e : Exn) :
  ast_parse code = Raise e -> isinstance e SyntaxError = true ->
  RestrictedSandbox_execute ast_parse run_entry_point self code tools
                            timeout_arg w
  = (w, Ok (mkExecutionResult false EmptyString EmptyString VNone
              (Some ("Syntax error: " ++ exc_msg e)))).
Proof.
  intros Hp He. unfold RestrictedSandbox_execute. now rewrite Hp, He.
Qed.

(** execute on text that parses: the run happens in the redirected world,
    the references are put back, and the result is built from the run's
    outcome and the two captured texts. *)
Lemma execute_parsed (self : RestrictedSandbox) (code : string)
    (tools : option (list (Tool E))) (timeout_arg : option Z) (w : World E)
    (u : unit) :
  ast_parse code = Ok u ->
  let run := sandboxed_run run_entry_point self code tools timeout_arg w in
  RestrictedSandbox_execute ast_parse run_entry_point self code tools
                            timeout_arg w
  = (restored w (fst run),
     outcome_result (opt_num_or timeout_arg (timeout self))
       (nth (length (streams w)) (streams (fst run)) EmptyString)
       (nth (length (streams w ++ [EmptyString])) (streams (fst run))
            EmptyString)
       (snd run)).
Proof.
  intros Hp run. unfold RestrictedSandbox_execute. rewrite Hp.
  unfold bind, StringIO, get_stdout, get_stderr, try_finally, try_except,
    set_stdout, set_stderr, getvalue, ret. simpl.
  subst run. unfold sandboxed_run, redirected.
  destruct (wait_for_execute_code _ _ _ _ _) as [w1 [v | e]] eqn:Hrun; simpl.
  - reflexivity.
  - unfold restored.
    destruct (isinstance e TimeoutError) eqn:Ht; simpl; [reflexivity |].
    destruct (isinstance e Exception) eqn:Hx; simpl; reflexivity.
Qed.

End SandboxFacts.

Section SandboxProperties.
Context {E : Type}.
Variable ast_parse : string -> Res unit.
Variable run_entry_point : string -> dict (NsObj E) -> Z -> M E PyVal.

Lemma outcome_result_error (deadline : Z) (out err : string) (r : Res PyVal)
    (res : ExecutionResult) :
  outcome_result deadline out err r = Ok res ->
  stdout res = out /\ stderr res = err
  /\ (success res = true /\ error res = None
      \/ success res = false /\ return_value res = VNone
         /\ (error res = Some ("Execution timed out after "
                               ++ str_of_int deadline ++ "s")
             \/ exists e, error res = Some (class_name (exc_class e) ++ ": "
                                            ++ exc_msg e))).
Proof.
  unfold outcome_result. destruct r as [v | e].
  - intros H. inversion H; subst; simpl. auto.
  - destruct (isinstance e TimeoutError).
    + intros H. inversion H; subst; simpl.
      split; [reflexivity |]. split; [reflexivity |].
      right. split; [reflexivity |]. split; [reflexivity |].
      now left.
    + destruct (isinstance e Exception); intros H; [| discriminate].
      inversion H; subst; simpl.
      split; [reflexivity |]. split; [reflexivity |].
      right. split; [reflexivity |]. split; [reflexivity |].
      right. now exists e.
Qed.

(** C5.  Whatever the code text, the tool list and the timeout, a result
    that execute returns has an error message whenever its success flag is
    false (one of the three messages the code builds) and none when the
    flag is true; its stdout and stderr fields are texts: empty for a
    syntax failure, the captured streams otherwise. *)
Theorem failure_result_carries_error :
  forall (self : RestrictedSandbox) (code : string)
         (tools : option (list (Tool E))) (timeout_arg : option Z)
         (w w' : World E) (r : ExecutionResult),
    RestrictedSandbox_execute ast_parse run_entry_point self code tools
      timeout_arg w = (w', Ok r) ->
    (success r = false -> exists msg, error r = Some msg)
    /\ (success r = true -> error r = None)
    /\ (success r = false ->
        (exists e, error r = Some ("Syntax error: " ++ exc_msg e)
                   /\ stdout r = EmptyString /\ stderr r = EmptyString)
        \/ error r = Some ("Execution timed out after "
                           ++ str_of_int (opt_num_or timeout_arg (timeout self))
                           ++ "s")
        \/ exists e, error r = Some (class_name (exc_class e) ++ ": "
                                     ++ exc_msg e)).
Proof.
  intros self code tools timeout_arg w w' r Hex.
  destruct (ast_parse code) as [u | e] eqn:Hp.
  - rewrite (execute_parsed ast_parse run_entry_point self code tools
               timeout_arg w u Hp) in Hex.
    cbv zeta in Hex. inversion Hex as [[Hw Hr]]. clear Hex Hw.
    apply outcome_result_error in Hr.
    destruct Hr as [_ [_ [[Hs Hn] | [Hs [_ [Ht | [e He]]]]]]].
    + rewrite Hs, Hn. repeat split; auto; discriminate.
    + rewrite Hs, Ht. repeat split; eauto; discriminate.
    + rewrite Hs, He. repeat split; eauto; discriminate.
  - unfold RestrictedSandbox_execute in Hex. rewrite Hp in Hex.
    destruct (isinstance e SyntaxError); inversion Hex; subst; simpl.
    repeat split; eauto; discriminate.
Qed.


End SandboxProperties.

Section BlankCode.
Context {E : Type}.
Variable ast_parse : string -> Res unit.
Variable run_entry_point : string -> dict (NsObj E) -> Z -> M E PyVal.

(** C10, as the code has it.  Let the interpreter run the program without
    statements to completion under any positive deadline, returning None and
    touching nothing.  Then for every code text made of whitespace only (the
    empty text included) that the syntax check accepts, and a deadline in
    force that is positive, execute returns the success result with empty
    stdout, empty stderr and return value None, and the world is as before
    but for the two capture streams, both empty. *)
Theorem blank_code_succeeds :
  forall (self : RestrictedSandbox) (code : string)
         (tools : option (list (Tool E))) (timeout_arg : option Z)
         (w : World E) (u : unit),
    (forall namespace deadline w0,
        0 < deadline ->
        run_entry_point trivial_program namespace deadline w0 = (w0, Ok VNone)) ->
    all_space code = true ->
    ast_parse code = Ok u ->
    0 < opt_num_or timeout_arg (timeout self) ->
    RestrictedSandbox_execute ast_parse run_entry_point self code tools
                              timeout_arg w
    = (mkWorld (sys_stdout w) (sys_stderr w)
               ((streams w ++ [EmptyString]) ++ [EmptyString]) (ext w),
       Ok (mkExecutionResult true EmptyString EmptyString VNone None)).
Proof.
  intros self code tools timeout_arg w u Hlaw Hblank Hp Hpos.
  rewrite (execute_parsed ast_parse run_entry_point self code tools
             timeout_arg w u Hp).
  cbv zeta. unfold sandboxed_run, wait_for_execute_code.
  destruct (opt_num_or timeout_arg (timeout self) <=? 0) eqn:Hle.
  - apply Z.leb_le in Hle. lia.
  - rewrite (wrapped_code_blank code Hblank), Hlaw by exact Hpos.
    simpl. rewrite nth_first_capture, nth_second_capture. reflexivity.
Qed.

End BlankCode.

(* ===================================================================== *)
(** * The execute_code tool (C4) *)
(* ===================================================================== *)

Section ExecuteCodeFacts.
Context {E : Type}.
Variable acquire_sandbox : option string -> Res (Sandbox E).


End ExecuteCodeFacts.

(* ===================================================================== *)
(** * The agent loop (C1, C2) *)
(* ===================================================================== *)


Lemma TypeError_is_Exception (msg : string) :
  isinstance (mkExn TypeError msg) Exception = true.
Proof. reflexivity. Qed.


Lemma clashing_key_no_self (kwargs : Kwargs) :
  clashing_key kwargs = None -> dict_has kwargs "self" = false.
Proof.
  unfold dict_has.
  induction kwargs as [| [k v] kwargs IH]; simpl; [reflexivity |].
  rewrite (String.eqb_sym k "self").
  destruct (String.eqb "self" k); simpl; [discriminate |].
  destruct (String.eqb k "name"); [discriminate | exact IH].
Qed.


Section SeedFacts.
Context {E : Type}.
Variable py_repr : JVal -> string.



Variable self : Agent E.

(** The conversation handed in begins with a system message: nothing is
    built. *)
Lemma seed_conversation_given (prompt : string) (msgs : option (list Message))
    (first : Message) (rest : list Message) :
  match msgs with Some l => l | None => [] end = first :: rest ->
  role first = "system" ->
  seed_conversation py_repr self prompt msgs
  = Ok ((first :: rest) ++ [mkMessage "user" (Some prompt) None None None])%list.
Proof.
  intros Hg Hr. unfold seed_conversation. rewrite Hg.
  apply String.eqb_eq in Hr. now rewrite Hr.
Qed.

(** Otherwise the system prompt is built first. *)
Lemma seed_conversation_built (prompt : string) (msgs : option (list Message)) :
  (forall first rest,
      match msgs with Some l => l | None => [] end = first :: rest ->
      role first <> "system") ->
  seed_conversation py_repr self prompt msgs
  = match build_system_prompt py_repr (get_all (registry self))
                              (system_prompt self) with
    | Ok text =>
        Ok (mkMessage "system" (Some text) None None None
            :: match msgs with Some l => l | None => [] end
            ++ [mkMessage "user" (Some prompt) None None None])%list
    | Raise e => Raise e
    end.
Proof.
  intros H. unfold seed_conversation.
  destruct (match msgs with Some l => l | None => [] end)
    as [| first rest] eqn:Hg.
  - destruct (build_system_prompt py_repr _ _); reflexivity.
  - specialize (H first rest eq_refl). apply String.eqb_neq in H.
    rewrite H. destruct (build_system_prompt py_repr _ _); reflexivity.
Qed.

Lemma seed_conversation_cases (prompt : string) (msgs : option (list Message)) :
  (exists first rest,
      match msgs with Some l => l | None => [] end = first :: rest
      /\ role first = "system")
  \/ (forall first rest,
         match msgs with Some l => l | None => [] end = first :: rest ->
         role first <> "system").
Proof.
  destruct (match msgs with Some l => l | None => [] end)
    as [| first rest]; [right; discriminate |].
  destruct (String.eqb (role first) "system") eqn:Hr.
  - apply String.eqb_eq in Hr. left. now exists first, rest.
  - apply String.eqb_neq in Hr. right. intros f r H. now inversion H; subst.
Qed.



End SeedFacts.

Section AgentFacts.
Context {E : Type}.
Variable json_loads : string -> Res JVal.




End AgentFacts.

Section AgentLoopFacts.
Context {E : Type}.
Variable json_loads : string -> Res JVal.
Variable py_repr : JVal -> string.
Variable self : Agent E.

(** The executors of the registered tools raise nothing but Exceptions. *)
Hypothesis tools_raise_exceptions :
  forall (t : Tool E) (kwargs : Kwargs) (w w' : World E) (e : Exn),
    In t (get_all (registry self)) ->
    Tool_execute t kwargs w = (w', Raise e) ->
    isinstance e Exception = true.





(** The backend asks for at least one call in every answer, and the argument
    text of every call it asks for decodes. *)
Hypothesis backend_requests_calls :
  forall (conv : list Message) (tools : list (Tool E)) (w : World E),
  exists w' response u,
    generate (provider self) conv tools w = (w', Ok (response, u))
    /\ calls_of response <> []
    /\ Forall (fun c => exists v, json_loads (tc_arguments c) = Ok v)
              (calls_of response).



End AgentLoopFacts.

(* ===================================================================== *)
(** * The properties at concrete inputs *)
(* ===================================================================== *)


(** The same run, evaluated: three iterations, three backend calls. *)
Example run_echo_three_iterations :
  let res := run json_loads_stub repr_stub agent_echo "hi" None W0 in
  fst res = mkWorld 0 1 [EmptyString; EmptyString] 3%nat
  /\ match snd res with
     | Ok r =>
         output r = "[Max iterations reached]"
         /\ usage r = mkUsage 30 15 45 3 0
         /\ length (messages r) = 8%nat
         /\ tool_calls_made r = 3
     | Raise _ => False
     end.
Proof. vm_compute. repeat split. Qed.




(** An executor fault is reported the same way. *)
Example failing_tool_is_reported :
  exists st',
    dispatch_tool_call json_loads_stub agent_echo
      (mkToolCall "call_8" "boom" "{}") (mkLoopState [] Usage0 0 false) W0
    = (W0, Ok st')
    /\ conversation st'
       = [mkMessage "tool" (Some "Error: bad input") None (Some "call_8")
                    (Some "boom")].
Proof. eexists. split; reflexivity. Qed.

(** C3 at the registry that holds "search". *)
Lemma register_duplicate_rejected_and_identity_witness :
  (register registry_search (ATool search_tool_2)
   = (registry_search,
      Raise (mkExn ToolError "Tool 'search' already registered"))
   /\ get (fst (register registry_search (ATool search_tool_2))) "search"
      = Ok search_tool)
  /\ (resolves_to (ATool echo_tool) echo_tool
      /\ get (mkToolRegistry [("search", search_tool); ("echo", echo_tool)])
             "echo" = Ok echo_tool
      /\ [("search", search_tool); ("echo", echo_tool)]
         = (_tools registry_search ++ [("echo", echo_tool)])%list
      /\ [search_tool; echo_tool] = (get_all registry_search ++ [echo_tool])%list).
Proof.
  destruct (register_duplicate_rejected_and_identity registry_search)
    as [Hdup Hok].
  split.
  - apply (Hdup (ATool search_tool_2) search_tool search_tool_2).
    + reflexivity.
    + left. reflexivity.
  - apply (Hok (ATool echo_tool)
               (mkToolRegistry [("search", search_tool); ("echo", echo_tool)])
               echo_tool).
    reflexivity.
Defined.


(** The three outputs of execute_code. *)
Example execute_code_three_outputs :
  snd (ExecuteCodeTool_execute acquire_stub ect_echo code_hi W0) = Ok "hi"
  /\ snd (ExecuteCodeTool_execute acquire_stub ect_echo code_return W0)
     = Ok "42"
  /\ snd (ExecuteCodeTool_execute acquire_stub ect_echo EmptyString W0)
     = Ok "(no output)".
Proof. repeat split. Qed.


(** A return value whose text is empty counts as empty. *)
Example empty_return_text_is_no_output :
  render_result (mkExecutionResult true "  " EmptyString (VStr EmptyString) None)
  = Ok "(no output)".
Proof. reflexivity. Qed.

(** C5 at a program that prints and then divides by zero. *)
Lemma failure_result_carries_error_witness :
  let r := mkExecutionResult false ("partial" ++ nl) EmptyString VNone
             (Some "ZeroDivisionError: division by zero") in
  (success r = false -> exists msg, error r = Some msg)
  /\ (success r = true -> error r = None)
  /\ (success r = false ->
      (exists e, error r = Some ("Syntax error: " ++ exc_msg e)
                 /\ stdout r = EmptyString /\ stderr r = EmptyString)
      \/ error r = Some ("Execution timed out after "
                         ++ str_of_int (opt_num_or None (timeout sandbox60))
                         ++ "s")
      \/ exists e, error r = Some (class_name (exc_class e) ++ ": "
                                   ++ exc_msg e)).
Proof.
  exact (failure_result_carries_error ast_parse_stub run_stub sandbox60
           code_partial None None W0
           (mkWorld 0 1 [EmptyString; EmptyString; "partial" ++ nl; EmptyString]
                    0%nat)
           (mkExecutionResult false ("partial" ++ nl) EmptyString VNone
              (Some "ZeroDivisionError: division by zero"))
           eq_refl).
Defined.


(** The same run, evaluated: the references are back, the text printed
    before the fault is in the result; and an exit request passes through
    execute with the references restored all the same. *)
Example partial_output_is_captured :
  RestrictedSandbox_execute ast_parse_stub run_stub sandbox60 code_partial
                            None None W0
  = (mkWorld 0 1 [EmptyString; EmptyString; "partial" ++ nl; EmptyString] 0%nat,
     Ok (mkExecutionResult false ("partial" ++ nl) EmptyString VNone
           (Some "ZeroDivisionError: division by zero")))
  /\ RestrictedSandbox_execute ast_parse_stub run_stub sandbox60 code_exit
                               None None W0
     = (mkWorld 0 1 [EmptyString; EmptyString; EmptyString; EmptyString] 0%nat,
        Raise (mkExn SystemExit EmptyString)).
Proof. split; reflexivity. Qed.

(** C7 at the search tool, which has no executor. *)
Lemma execute_without_executor_raises_ValueError_witness :
  exists e,
    Tool_execute search_tool [("query", JStr "rocq")] W0 = (W0, Raise e)
    /\ e = mkExn ValueError ("Tool '" ++ name search_tool ++ "' has no executor")
    /\ isinstance e Exception = true
    /\ isinstance e ToolError = false
    /\ isinstance e PolyToolError = false.
Proof.
  destruct (execute_without_executor_raises_ValueError search_tool
              [("query", JStr "rocq")] W0 eq_refl)
    as [e [Hex [Hvalue [_ [Hexc [Htool Hpoly]]]]]].
  exists e. split; [exact Hex |]. split; [exact (Hvalue eq_refl) |].
  split; [exact Hexc |]. split; [exact Htool | exact Hpoly].
Defined.

(** With a keyword named "self" the missing executor is not even reached. *)
Example self_keyword_fails_at_binding :
  Tool_execute search_tool [("self", JInt 1)] W0
  = (W0, Raise (mkExn TypeError
                  "Tool.execute() got multiple values for argument 'self'")).
Proof. reflexivity. Qed.

(** C7 as stated fails: the exception raised for a missing executor is a
    ValueError, which is no ToolError. *)
Lemma missing_executor_error_is_not_ToolError :
  _executor search_tool = None
  /\ Tool_execute search_tool [] W0
     = (W0, Raise (mkExn ValueError "Tool 'search' has no executor"))
  /\ isinstance (mkExn ValueError "Tool 'search' has no executor") ToolError
     = false.
Proof. repeat split. Qed.

(** C8 at def add(a: int, b: int = 2) and at def classify(text, cls). *)
Lemma required_iff_no_default_witness :
  (exists schema,
      _generate_schema fn_add = Ok schema
      /\ dict_get schema "type" = Some (JStr "object")
      /\ (In "a" (schema_required schema) <-> @None JVal = None)
      /\ (In "b" (schema_required schema) <-> Some (JInt 2) = None)
      /\ property_default schema "b" = Some (JInt 2))
  /\ (exists schema,
         _generate_schema fn_classify = Ok schema
         /\ dict_get (schema_properties schema) "cls" = None
         /\ ~ In "cls" (schema_required schema)).
Proof.
  split.
  - destruct (required_iff_no_default fn_add
                [mkParam "a" POSITIONAL_OR_KEYWORD None;
                 mkParam "b" POSITIONAL_OR_KEYWORD (Some (JInt 2))] eq_refl)
      as [schema [Hs [Ht [Hkept _]]]].
    + repeat constructor; simpl; intuition discriminate.
    + intros e H. discriminate.
    + exists schema. split; [exact Hs |]. split; [exact Ht |].
      destruct (Hkept (mkParam "a" POSITIONAL_OR_KEYWORD None))
        as [Ha _]; [now left | reflexivity | discriminate | discriminate |].
      destruct (Hkept (mkParam "b" POSITIONAL_OR_KEYWORD (Some (JInt 2))))
        as [Hb Hd];
        [right; now left | reflexivity | discriminate | discriminate |].
      split; [exact Ha |]. split; [exact Hb |]. now apply Hd.
  - destruct (required_iff_no_default fn_classify
                [mkParam "text" POSITIONAL_OR_KEYWORD None;
                 mkParam "cls" POSITIONAL_OR_KEYWORD None] eq_refl)
      as [schema [Hs [_ [_ Hskipped]]]].
    + repeat constructor; simpl; intuition discriminate.
    + intros e H. discriminate.
    + exists schema. split; [exact Hs |].
      apply (Hskipped (mkParam "cls" POSITIONAL_OR_KEYWORD None)).
      * right. now left.
      * right. now right.
Defined.

(** C8 as stated fails: in def classify(text: str, cls: str) the parameter
    cls is not variadic, is not self and has no default, yet it is neither
    required nor a property, because the loop skips the name "cls" as it
    skips "self". *)
Lemma cls_parameter_is_not_required :
  fn_signature fn_classify
  = Ok [mkParam "text" POSITIONAL_OR_KEYWORD None;
        mkParam "cls" POSITIONAL_OR_KEYWORD None]
  /\ _generate_schema fn_classify
     = Ok [("type", JStr "object");
           ("properties", JObj [("text", JObj [("type", JStr "string")])]);
           ("required", JArr [JStr "text"])]
  /\ schema_required
       [("type", JStr "object");
        ("properties", JObj [("text", JObj [("type", JStr "string")])]);
        ("required", JArr [JStr "text"])]
     = ["text"].
Proof. repeat split. Qed.

(** C9 at the built-in max: the decorator raises the ValueError of
    [inspect.signature] and builds no Tool, while _normalize_callable, given
    the same callable, builds the Tool with the empty object schema. *)
Lemma decorator_raises_on_unintrospectable :
  _generate_schema builtin_max
  = Raise (mkExn ValueError
             "no signature found for builtin <built-in function max>")
  /\ tool builtin_max None None
     = Raise (mkExn ValueError
                "no signature found for builtin <built-in function max>")
  /\ exists t, _normalize_callable builtin_max None None = Ok t
               /\ name t = "max"
               /\ parameters t = empty_object_schema.
Proof.
  split; [reflexivity |]. split; [reflexivity |].
  eexists. repeat split.
Qed.

(** When only the hints fail to resolve, every parameter is typed as a
    string: the fallback is no empty schema. *)
Example unresolved_hints_fall_back_to_strings :
  _generate_schema
    (mkCallable (Some "add") None
       (Ok [mkParam "a" POSITIONAL_OR_KEYWORD None;
            mkParam "b" POSITIONAL_OR_KEYWORD (Some (JInt 2))])
       (Raise (mkExn (UserException "NameError") "name 'Foo' is not defined"))
       None false (fun _ => @ret nat _ VNone))
  = Ok [("type", JStr "object");
        ("properties",
         JObj [("a", JObj [("type", JStr "string")]);
               ("b", JObj [("type", JStr "string"); ("default", JInt 2)])]);
        ("required", JArr [JStr "a"])].
Proof. reflexivity. Qed.

(** C10 at a text of two spaces, a tab and a line break. *)
Lemma blank_code_succeeds_witness :
  RestrictedSandbox_execute ast_parse_stub run_stub sandbox60
    ("  " ++ String (ascii_of_nat 9) nl) None None W0
  = (mkWorld (sys_stdout W0) (sys_stderr W0)
             ((streams W0 ++ [EmptyString]) ++ [EmptyString]) (ext W0),
     Ok (mkExecutionResult true EmptyString EmptyString VNone None)).
Proof.
  apply (blank_code_succeeds ast_parse_stub run_stub sandbox60
           ("  " ++ String (ascii_of_nat 9) nl) None None W0 tt).
  - intros namespace deadline w0 Hpos. reflexivity.
  - reflexivity.
  - reflexivity.
  - reflexivity.
Defined.

(** C10 as stated fails at two inputs: a vertical tab is whitespace but is
    refused by the syntax check, and under a deadline that is not positive
    even the empty text times out. *)
Lemma blank_code_can_fail :
  all_space vertical_tab = true
  /\ RestrictedSandbox_execute ast_parse_stub run_stub sandbox60 vertical_tab
                               None None W0
     = (W0,
        Ok (mkExecutionResult false EmptyString EmptyString VNone
              (Some ("Syntax error: invalid non-printable character U+000B "
                     ++ "(<unknown>, line 1)"))))
  /\ all_space EmptyString = true
  /\ RestrictedSandbox_execute ast_parse_stub run_stub sandbox60 EmptyString
                               None (Some (-1)) W0
     = (mkWorld 0 1 [EmptyString; EmptyString; EmptyString; EmptyString] 0%nat,
        Ok (mkExecutionResult false EmptyString EmptyString VNone
              (Some "Execution timed out after -1s"))).
Proof. repeat split. Qed.

(* ===================================================================== *)
(** * Further properties: the registry *)
(* ===================================================================== *)

Lemma dict_get_None_iff {V : Type} (d : dict V) (k : string) :
  dict_get d k = None <-> ~ In k (dict_keys d).
Proof.
  induction d as [| [k' v] d IH]; simpl.
  - tauto.
  - destruct (String.eqb k' k) eqn:Hk.
    + apply String.eqb_eq in Hk. split; [discriminate | tauto].
    + apply String.eqb_neq in Hk. rewrite IH. tauto.
Qed.

Lemma dict_get_del_other {V : Type} (d : dict V) (k k' : string) :
  k <> k' -> dict_get (dict_del d k) k' = dict_get d k'.
Proof.
  intros Hne. induction d as [| [k0 v0] d IH]; simpl; auto.
  destruct (String.eqb k0 k) eqn:Hk; simpl.
  - apply String.eqb_eq in Hk. subst k0.
    apply String.eqb_neq in Hne. now rewrite Hne.
  - now rewrite IH.
Qed.

(** On a dict, deleting a key keeps exactly the items under other keys. *)
Lemma dict_del_filter {V : Type} (d : dict V) (k : string) :
  NoDup (dict_keys d) ->
  dict_del d k = filter (fun kv => negb (String.eqb (fst kv) k)) d.
Proof.
  induction d as [| [k0 v0] d IH]; simpl; auto.
  intros Hnd. inversion Hnd as [| ? ? Hnot Hnd']; subst.
  destruct (String.eqb k0 k) eqn:Hk; simpl.
  - apply String.eqb_eq in Hk. subst k0.
    clear IH Hnd Hnd'. induction d as [| [k1 v1] d IH]; simpl; auto.
    simpl in Hnot.
    destruct (String.eqb k1 k) eqn:Hk1.
    + apply String.eqb_eq in Hk1. tauto.
    + simpl. f_equal. apply IH. tauto.
  - f_equal. now apply IH.
Qed.

Lemma NoDup_keys_filter {V : Type} (d : dict V) (f : string * V -> bool) :
  NoDup (dict_keys d) -> NoDup (dict_keys (filter f d)).
Proof.
  induction d as [| kv d IH]; simpl; auto.
  intros Hnd. inversion Hnd as [| ? ? Hnot Hnd']; subst.
  destruct (f kv); simpl; auto.
  constructor; auto.
  intros Hin. apply Hnot. unfold dict_keys in *.
  apply in_map_iff in Hin. destruct Hin as [x [Hx Hin]].
  apply filter_In in Hin. apply in_map_iff. exists x. tauto.
Qed.

Section RegistryInvariant.
Context {E : Type}.

Lemma register_failure_unchanged (self self' : ToolRegistry E)
    (arg : Registrable E) (e : Exn) :
  register self arg = (self', Raise e) -> self' = self.
Proof.
  assert (Ht : forall t, register_tool self t = (self', Raise e) -> self' = self).
  { intros t. unfold register_tool.
    destruct (dict_has (_tools self) (name t)); intros H; now inversion H. }
  destruct arg as [t | f | ty]; simpl.
  - apply Ht.
  - unfold get_tool_from_func. destruct (fn_tool f) as [t |].
    + apply Ht.
    + destruct (fn_name f); intros H; now inversion H.
  - intros H. now inversion H.
Qed.

Lemma register_success_appends (self self' : ToolRegistry E)
    (arg : Registrable E) (t : Tool E) :
  register self arg = (self', Ok t) ->
  dict_get (_tools self) (name t) = None
  /\ _tools self' = (_tools self ++ [(name t, t)])%list.
Proof.
  intros H. destruct (register_resolves _ _ _ _ H) as [t0 [_ Hrt]].
  destruct (register_tool_ok _ _ _ _ Hrt) as [-> [Hn Ht]]. auto.
Qed.

Lemma registry_ok_register (self : ToolRegistry E) (arg : Registrable E) :
  registry_ok self -> registry_ok (fst (register self arg)).
Proof.
  intros [Hnd Hnames].
  destruct (register self arg) as [self' [t | e]] eqn:Hreg; simpl.
  - destruct (register_success_appends _ _ _ _ Hreg) as [Hfresh Htools].
    unfold registry_ok, dict_keys. rewrite Htools, map_app. simpl. split.
    + apply NoDup_app; auto.
      * repeat constructor. tauto.
      * intros x Hx [<- | []]. now apply dict_get_None_iff in Hfresh.
    + apply Forall_app. split; auto.
  - rewrite (register_failure_unchanged _ _ _ _ Hreg). now split.
Qed.

Lemma registry_ok_register_many (tools : list (Registrable E)) :
  forall self : ToolRegistry E,
    registry_ok self -> registry_ok (fst (register_many self tools)).
Proof.
  induction tools as [| t tools IH]; intros self Hok; simpl; auto.
  pose proof (registry_ok_register self t Hok) as H1.
  destruct (register self t) as [self1 [r | e]]; simpl in *; auto.
  specialize (IH self1 H1).
  now destruct (register_many self1 tools) as [self2 [l | e]].
Qed.

Lemma registry_ok_remove (self : ToolRegistry E) (n : string) :
  registry_ok self -> registry_ok (remove self n).
Proof.
  intros [Hnd Hnames]. unfold remove.
  destruct (dict_has (_tools self) n); [| now split].
  unfold registry_ok. simpl. rewrite (dict_del_filter _ _ Hnd). split.
  - now apply NoDup_keys_filter.
  - apply Forall_forall. intros kv Hin. apply filter_In in Hin.
    rewrite Forall_forall in Hnames. apply Hnames. tauto.
Qed.

Lemma registry_ok_get (self : ToolRegistry E) (n : string) (t : Tool E) :
  registry_ok self -> get self n = Ok t -> name t = n.
Proof.
  intros [_ Hnames]. unfold get.
  destruct (dict_get (_tools self) n) as [t0 |] eqn:Hg; [| discriminate].
  intros H. inversion H; subst. clear H.
  induction (_tools self) as [| [k v] d IH]; simpl in *; [discriminate |].
  inversion Hnames as [| ? ? Hkv Hrest]; subst. simpl in Hkv.
  destruct (String.eqb k n) eqn:Hk.
  - apply String.eqb_eq in Hk. inversion Hg. congruence.
  - now apply IH.
Qed.

Lemma registry_ok_names (self : ToolRegistry E) :
  registry_ok self -> get_names self = map name (get_all self).
Proof.
  intros [_ Hnames]. unfold get_names, get_all, dict_keys, dict_values.
  rewrite map_map. apply map_ext_in. intros kv Hin.
  rewrite Forall_forall in Hnames. symmetry. now apply Hnames.
Qed.

(** X1.  The registry keeps the invariant of a dict of Tools keyed by name:
    the empty registry has it, and register (whether it succeeds or raises),
    register_many, remove and clear preserve it.  In a registry that has it,
    [get n] can only return a Tool whose name is [n], the names are the
    names of the Tools returned by get_all, in the same order, and no two
    registered Tools share a name. *)
Theorem registry_invariant_kept :
  registry_ok (@ToolRegistry_new E)
  /\ forall self : ToolRegistry E,
       registry_ok self ->
       (forall arg, registry_ok (fst (register self arg)))
       /\ (forall tools, registry_ok (fst (register_many self tools)))
       /\ (forall n, registry_ok (remove self n))
       /\ registry_ok (clear self)
       /\ (forall n t, get self n = Ok t -> name t = n)
       /\ get_names self = map name (get_all self)
       /\ NoDup (map name (get_all self)).
Proof.
  split.
  - split; constructor.
  - intros self Hok. split; [| split; [| split; [| split; [| split; [| split]]]]].
    + intros arg. now apply registry_ok_register.
    + intros tools. now apply registry_ok_register_many.
    + intros n. now apply registry_ok_remove.
    + split; constructor.
    + intros n t. now apply registry_ok_get.
    + now apply registry_ok_names.
    + rewrite <- (registry_ok_names self Hok). apply Hok.
Qed.

Lemma register_many_fresh (ts : list (Tool E)) :
  forall self : ToolRegistry E,
    NoDup (map name ts) ->
    (forall t, In t ts -> has self (name t) = false) ->
    register_many self (map ATool ts)
    = (mkToolRegistry (_tools self ++ map (fun t => (name t, t)) ts)%list,
       Ok ts).
Proof.
  induction ts as [| t ts IH]; intros self Hnd Hfresh; simpl.
  - rewrite app_nil_r. now destruct self.
  - inversion Hnd as [| ? ? Hnot Hnd']; subst.
    assert (Ht : has self (name t) = false) by (apply Hfresh; now left).
    unfold register_tool. unfold has in Ht. rewrite Ht.
    rewrite IH; auto.
    + simpl. rewrite (dict_set_fresh _ _ _ (dict_has_false _ _ Ht)).
      now rewrite <- app_assoc.
    + intros t' Hin. unfold has. simpl.
      assert (Hne : name t <> name t').
      { intros Heq. apply Hnot. rewrite Heq. now apply in_map. }
      unfold dict_has. rewrite dict_get_set_other by exact Hne.
      specialize (Hfresh t' (or_intror Hin)). unfold has, dict_has in Hfresh.
      exact Hfresh.
Qed.

Lemma register_many_ok_appends (tools : list (Registrable E)) :
  forall (self self' : ToolRegistry E) (registered : list (Tool E)),
    register_many self tools = (self', Ok registered) ->
    get_all self' = (get_all self ++ registered)%list.
Proof.
  induction tools as [| t tools IH]; intros self self' registered; simpl.
  - intros H. inversion H; subst. now rewrite app_nil_r.
  - destruct (register self t) as [self1 [r | e]] eqn:Hreg; [| discriminate].
    destruct (register_many self1 tools) as [self2 [l | e]] eqn:Hmany;
      [| discriminate].
    intros H. inversion H; subst. clear H.
    rewrite (IH _ _ _ Hmany).
    destruct (register_success_appends _ _ _ _ Hreg) as [_ Htools].
    unfold get_all, dict_values. rewrite Htools, map_app. simpl.
    now rewrite <- app_assoc.
Qed.

Lemma register_many_stops (l1 : list (Registrable E)) :
  forall (self self1 : ToolRegistry E) (r1 : list (Tool E))
         (bad : Registrable E) (l2 : list (Registrable E)) (e : Exn),
    register_many self l1 = (self1, Ok r1) ->
    snd (register self1 bad) = Raise e ->
    register_many self (l1 ++ bad :: l2) = (self1, Raise e).
Proof.
  induction l1 as [| t l1 IH]; intros self self1 r1 bad l2 e; simpl.
  - intros H Hbad. inversion H; subst. clear H.
    destruct (register self1 bad) as [self' [r | e']] eqn:Hreg; simpl in Hbad;
      [discriminate |].
    inversion Hbad; subst.
    now rewrite (register_failure_unchanged _ _ _ _ Hreg).
  - destruct (register self t) as [self0 [r | e']] eqn:Hreg; [| discriminate].
    destruct (register_many self0 l1) as [self2 [l | e']] eqn:Hmany;
      [| discriminate].
    intros H Hbad. inversion H; subst. clear H.
    now rewrite (IH _ _ _ bad l2 e Hmany Hbad).
Qed.

(** X2.  register_many registers the objects one after the other.  Tools
    with distinct names, none of them registered yet, are all registered, are
    returned in the order given and are added in that order after the Tools
    already there.  When one object is refused after a run of successful
    registrations, the exception of that object is raised and the Tools
    registered before it stay registered: the call is not undone, and the
    objects after it are not looked at. *)
Theorem register_many_is_sequential :
  forall self : ToolRegistry E,
    (forall ts : list (Tool E),
        NoDup (map name ts) ->
        (forall t, In t ts -> has self (name t) = false) ->
        exists self',
          register_many self (map ATool ts) = (self', Ok ts)
          /\ get_all self' = (get_all self ++ ts)%list)
    /\ (forall l1 bad l2 self1 r1 e,
           register_many self l1 = (self1, Ok r1) ->
           snd (register self1 bad) = Raise e ->
           register_many self (l1 ++ bad :: l2) = (self1, Raise e)
           /\ get_all self1 = (get_all self ++ r1)%list).
Proof.
  intros self. split.
  - intros ts Hnd Hfresh. eexists. split.
    + now apply register_many_fresh.
    + unfold get_all, dict_values. simpl.
      rewrite map_app, map_map. simpl. now rewrite map_id.
  - intros l1 bad l2 self1 r1 e Hmany Hbad. split.
    + now apply register_many_stops with (r1 := r1).
    + now apply register_many_ok_appends with (tools := l1).
Qed.

(** X3.  In a registry with the dict invariant, remove takes the named Tool
    out and nothing else: afterwards the name is absent, every other name
    maps to what it mapped to, and get_all returns the other Tools in their
    old order; removing a name that is absent changes nothing and does not
    raise. *)
Theorem remove_takes_out_one_name :
  forall (self : ToolRegistry E) (n : string),
    registry_ok self ->
    has (remove self n) n = false
    /\ (forall m, m <> n ->
          dict_get (_tools (remove self n)) m = dict_get (_tools self) m)
    /\ get_all (remove self n)
       = filter (fun t => negb (String.eqb (name t) n)) (get_all self)
    /\ (has self n = false -> remove self n = self).
Proof.
  intros self n [Hnd Hnames]. unfold remove, has.
  destruct (dict_has (_tools self) n) eqn:Hh.
  - simpl. rewrite (dict_del_filter _ _ Hnd).
    split; [| split; [| split]].
    + unfold dict_has.
      assert (Hn : dict_get (filter (fun kv => negb (String.eqb (fst kv) n))
                                    (_tools self)) n = None).
      { apply dict_get_None_iff. unfold dict_keys. intros Hin.
        apply in_map_iff in Hin. destruct Hin as [kv [Hk Hin]].
        apply filter_In in Hin. destruct Hin as [_ Hf].
        rewrite Hk, String.eqb_refl in Hf. discriminate. }
      now rewrite Hn.
    + intros m Hm. rewrite <- (dict_del_filter _ _ Hnd).
      apply dict_get_del_other. congruence.
    + unfold get_all, dict_values.
      clear Hh Hnd. induction (_tools self) as [| [k v] d IH]; simpl; auto.
      inversion Hnames as [| ? ? Hkv Hrest]; subst. simpl in Hkv. rewrite Hkv.
      specialize (IH Hrest). simpl in IH.
      destruct (String.eqb k n); simpl; now rewrite IH.
    + discriminate.
  - split; [exact Hh |]. split; [reflexivity |]. split; [| reflexivity].
    unfold get_all, dict_values.
    apply dict_has_false, dict_get_None_iff in Hh.
    clear Hnd. induction (_tools self) as [| [k v] d IH]; simpl; auto.
    inversion Hnames as [| ? ? Hkv Hrest]; subst. simpl in Hkv, Hh.
    rewrite Hkv.
    destruct (String.eqb k n) eqn:Hk.
    + apply String.eqb_eq in Hk. tauto.
    + simpl. f_equal. apply IH; tauto.
Qed.

(** X4.  A function decorated with @tool, registered and then executed
    through the registry by name, is called with exactly the keyword
    arguments given, provided none of them is named "self" or "name": the
    decorator builds a NATIVE Tool named by the name argument (or
    [__name__]) with the function as executor, get_tool_from_func finds it
    on the wrapper, register stores it in a registry that does not hold the
    name, and ToolRegistry.execute of that name is then the function's own
    call.  A keyword named "self" or "name" collides with a parameter of
    ToolRegistry.execute: the call raises TypeError and the function is not
    called. *)
Theorem decorated_function_runs_through_registry :
  forall (fn wrapper : Callable E) (name_arg descr : option string)
         (self : ToolRegistry E),
    tool fn name_arg descr = Ok wrapper ->
    exists t,
      get_tool_from_func wrapper = Some t
      /\ name_or_dunder name_arg fn = Ok (name t)
      /\ source t = NATIVE
      /\ _generate_schema fn = Ok (parameters t)
      /\ (has self (name t) = false ->
          exists self',
            register self (ACallable wrapper) = (self', Ok t)
            /\ (forall kwargs w,
                   clashing_key kwargs = None ->
                   ToolRegistry_execute self' (name t) kwargs w
                   = fn_call fn kwargs w)
            /\ (forall kwargs w k,
                   clashing_key kwargs = Some k ->
                   ToolRegistry_execute self' (name t) kwargs w
                   = (w, Raise (mkExn TypeError
                        ("ToolRegistry.execute() got multiple values for argument '"
                         ++ k ++ "'"))))).
Proof.
  intros fn wrapper name_arg descr self Htool. unfold tool in Htool.
  destruct (name_or_dunder name_arg fn) as [n | e] eqn:Hn; [| discriminate].
  destruct (_generate_schema fn) as [params | e] eqn:Hg; [| discriminate].
  inversion Htool; subst. clear Htool. simpl.
  eexists. split; [reflexivity |]. simpl.
  split; [reflexivity |]. split; [reflexivity |]. split; [reflexivity |].
  intros Hfresh. unfold has in Hfresh. unfold register_tool. simpl.
  rewrite Hfresh. eexists. split; [reflexivity |]. split.
  - intros kwargs w Hk. unfold ToolRegistry_execute, get. simpl.
    rewrite Hk, dict_get_set_same. unfold Tool_execute.
    now rewrite (clashing_key_no_self kwargs Hk).
  - intros kwargs w k Hk. unfold ToolRegistry_execute. now rewrite Hk.
Qed.

(** X5.  Agent.add_tool never complains about what is not a tool: handed a
    callable that carries no Tool, or an object that is neither a Tool nor
    callable, it leaves the agent as it is and returns, where
    ToolRegistry.register raises on the same object.  Handed a Tool or a
    decorated function, it does what register does to the agent's registry
    and raises what register raises. *)
Theorem add_tool_skips_what_is_not_a_tool :
  forall (self : Agent E) (arg : Registrable E),
    ((forall t, ~ resolves_to arg t) ->
     add_tool self arg = (self, Ok tt)
     /\ exists e, snd (register (registry self) arg) = Raise e)
    /\ (forall t, resolves_to arg t ->
          registry (fst (add_tool self arg))
          = fst (register (registry self) arg)
          /\ (forall e, snd (add_tool self arg) = Raise e
                        <-> snd (register (registry self) arg) = Raise e)).
Proof.
  intros self arg. split.
  - intros Hno. destruct arg as [t | f | ty]; simpl.
    + exfalso. apply (Hno t). now left.
    + unfold get_tool_from_func. destruct (fn_tool f) as [t |] eqn:Hf.
      * exfalso. apply (Hno t). right. now exists f.
      * split; [reflexivity |]. destruct (fn_name f); eexists; reflexivity.
    + split; [reflexivity |]. eexists. reflexivity.
  - intros t Hres.
    assert (Hreg : register (registry self) arg
                   = register_tool (registry self) t
                   /\ add_tool self arg = add_tool self (ATool t)).
    { destruct Hres as [-> | [f [-> Hf]]]; simpl; [now split |].
      unfold get_tool_from_func. now rewrite Hf. }
    destruct Hreg as [Hreg Hadd]. rewrite Hreg, Hadd. simpl.
    destruct (register_tool (registry self) t) as [r [t' | e']]; simpl.
    + split; [reflexivity |]. intros e. split; discriminate.
    + split; [reflexivity |]. intros e.
      split; intros H; inversion H; reflexivity.
Qed.

End RegistryInvariant.

(* ===================================================================== *)
(** * Further properties: schema synthesis *)
(* ===================================================================== *)

Lemma type_to_schema_typed :
  forall h : Hint, model_free h = true -> TypedSchema (_type_to_schema h).
Proof.
  fix IH 1. intros h. destruct h as [| | | | | | args | | | base md | s |];
    simpl; intros Hfree;
    try (apply typed_scalar; simpl; tauto);
    try discriminate.
  - apply typed_array. apply typed_scalar. simpl. tauto.
  - apply typed_array. destruct args as [| a args'].
    + apply typed_scalar. simpl. tauto.
    + apply IH. exact Hfree.
  - apply IH. exact Hfree.
Qed.

(** X6.  For a hint that holds no pydantic model where the conversion
    looks, and for a missing hint, _type_to_schema returns a schema whose
    "type" is one of the JSON type names null, string, integer, number,
    boolean, object, or else "array" together with an "items" schema of the
    same kind, however deep the list hints nest; an Annotated wrapper
    changes nothing. *)
Theorem type_schema_is_well_typed :
  forall hint : option Hint,
    (forall h, hint = Some h -> model_free h = true) ->
    TypedSchema (_type_to_schema_opt hint)
    /\ (forall h md, hint = Some (HAnnotated h md) ->
                     _type_to_schema_opt hint = _type_to_schema h).
Proof.
  intros [h |] Hfree; simpl.
  - split.
    + apply type_to_schema_typed. now apply Hfree.
    + intros h' md H. inversion H. reflexivity.
  - split; [apply typed_scalar; simpl; tauto | discriminate].
Qed.

Lemma dict_keys_app {V : Type} (d1 d2 : dict V) :
  dict_keys (d1 ++ d2)%list = (dict_keys d1 ++ dict_keys d2)%list.
Proof. apply map_app. Qed.

Lemma fold_property_names (hints : dict Hint) (params : list Param) :
  forall acc : dict JVal * list string,
    NoDup (map param_name params) ->
    (forall p, In p params -> ~ In (param_name p) (dict_keys (fst acc))) ->
    dict_keys (fst (fold_left (schema_step hints) params acc))
    = (dict_keys (fst acc)
       ++ map param_name (filter (fun p => negb (skipped p)) params))%list.
Proof.
  induction params as [| p params IH]; intros acc Hnd Hfresh.
  - simpl. now rewrite app_nil_r.
  - change (fold_left (schema_step hints) (p :: params) acc)
      with (fold_left (schema_step hints) params (schema_step hints acc p)).
    inversion Hnd as [| ? ? Hnot Hnd']; subst.
    assert (Hp : ~ In (param_name p) (dict_keys (fst acc)))
      by (apply Hfresh; now left).
    destruct acc as [props req]. simpl in Hp.
    destruct (skipped p) eqn:Hs.
    + assert (Hstep : schema_step hints (props, req) p = (props, req)).
      { unfold schema_step. now rewrite Hs. }
      rewrite Hstep, IH; auto.
      * simpl. now rewrite Hs.
      * intros q Hq. apply Hfresh. now right.
    + assert (Hstep : exists v req',
                 schema_step hints (props, req) p
                 = ((props ++ [(param_name p, v)])%list, req')).
      { unfold schema_step. rewrite Hs.
        apply dict_get_None_iff in Hp.
        destruct (default p); rewrite (dict_set_fresh _ _ _ Hp);
          eexists; eexists; reflexivity. }
      destruct Hstep as [v [req' Hstep]]. rewrite Hstep, IH; auto.
      * simpl. rewrite Hs, dict_keys_app. simpl. now rewrite <- app_assoc.
      * intros q Hq. simpl. rewrite dict_keys_app. simpl.
        intros Hin. apply in_app_or in Hin. destruct Hin as [Hin | [Heq | []]].
        -- apply (Hfresh q); [now right | exact Hin].
        -- apply Hnot. rewrite Heq. now apply in_map.
Qed.

Section SchemaShape.
Context {E : Type}.

(** X7.  For a callable whose signature can be read (with distinct parameter
    names) and whose hints resolve or fail with an Exception, the schema has
    one property per parameter that is kept (not variadic, not named self or
    cls), in the order of the signature, and none for the others; its
    required list holds, in the same order, the kept parameters without
    default, so every required name is a property. *)
Theorem schema_lists_kept_parameters_in_order :
  forall (func : Callable E) (params : list Param),
    fn_signature func = Ok params ->
    NoDup (map param_name params) ->
    (forall e, fn_hints func = Raise e -> isinstance e Exception = true) ->
    exists schema,
      _generate_schema func = Ok schema
      /\ dict_keys (schema_properties schema)
         = map param_name (filter (fun p => negb (skipped p)) params)
      /\ schema_required schema
         = map param_name (filter kept_without_default params)
      /\ (forall n, In n (schema_required schema) ->
                    In n (dict_keys (schema_properties schema))).
Proof.
  intros func params Hsig Hnd Hh.
  destruct (generate_schema_introspectable func params Hsig Hh)
    as [hints Hgen].
  eexists. split; [exact Hgen |].
  rewrite build_schema_properties, build_schema_required, fold_required.
  rewrite fold_property_names by (auto; intros p _ []).
  simpl. split; [reflexivity |]. split; [reflexivity |].
  intros n Hin. apply in_map_iff in Hin. destruct Hin as [p [<- Hp]].
  apply filter_In in Hp. destruct Hp as [Hp Hk].
  apply in_map. apply filter_In. split; auto.
  unfold kept_without_default in Hk. now apply andb_prop in Hk.
Qed.

(** X8.  _normalize_callable never fails over the schema: for a callable
    with a usable name (the name argument, or a [__name__] other than
    "<lambda>") whose introspection raises nothing but Exceptions, it returns
    a NATIVE Tool of that name whose parameters are the synthesized object
    schema when synthesis succeeds and the empty object schema when it
    raises.  The callable is the Tool's executor: Tool.execute with keyword
    arguments none of which is named "self" is the callable's own call. *)
Theorem normalize_callable_is_total :
  forall (func : Callable E) (name_arg descr : option string) (n : string),
    match name_arg with
    | Some a => if str_truthy a then Some a else fn_name func
    | None => fn_name func
    end = Some n ->
    str_truthy n = true -> n <> "<lambda>" ->
    (forall e, fn_signature func = Raise e -> isinstance e Exception = true) ->
    (forall e, fn_hints func = Raise e -> isinstance e Exception = true) ->
    exists t,
      _normalize_callable func name_arg descr = Ok t
      /\ name t = n
      /\ source t = NATIVE
      /\ dict_get (parameters t) "type" = Some (JStr "object")
      /\ (forall schema, _generate_schema func = Ok schema ->
                         parameters t = schema)
      /\ (forall e, _generate_schema func = Raise e ->
                    parameters t = empty_object_schema)
      /\ forall kwargs w,
           dict_has kwargs "self" = false ->
           Tool_execute t kwargs w = fn_call func kwargs w.
Proof.
  intros func name_arg descr n Hname Hn Hl Hsig Hhints.
  assert (Hcall : forall (nm d : string) (ps : dict JVal) kwargs (w : World E),
             dict_has kwargs "self" = false ->
             Tool_execute (mkTool nm d ps NATIVE (Some (fn_call func)))
                          kwargs w
             = fn_call func kwargs w).
  { intros nm d ps kwargs w Hs. unfold Tool_execute. now rewrite Hs. }
  unfold _normalize_callable. rewrite Hname.
  apply String.eqb_neq in Hl. rewrite Hn, Hl. simpl.
  destruct (_generate_schema func) as [schema | e] eqn:Hg.
  - eexists. split; [reflexivity |]. simpl.
    repeat split; auto.
    + unfold _generate_schema in Hg.
      destruct (fn_signature func) as [params |]; [| discriminate].
      destruct (fn_hints func) as [hints | e0].
      * inversion Hg. apply build_schema_type.
      * destruct (isinstance e0 Exception); inversion Hg.
        apply build_schema_type.
    + intros s H. now inversion H.
    + discriminate.
    + intros kwargs w Hs. now apply Hcall.
  - assert (He : isinstance e Exception = true).
    { unfold _generate_schema in Hg.
      destruct (fn_signature func) as [params | e0] eqn:Hs.
      - destruct (fn_hints func) as [hints | e1] eqn:Hh; [discriminate |].
        rewrite (Hhints e1 eq_refl) in Hg. discriminate.
      - inversion Hg; subst. now apply Hsig. }
    rewrite He. eexists. split; [reflexivity |]. simpl.
    repeat split; auto.
    + discriminate.
    + intros kwargs w Hs. now apply Hcall.
Qed.

End SchemaShape.

(* ===================================================================== *)
(** * Further properties: the sandbox *)
(* ===================================================================== *)

Lemma split_lines_nonempty (s : string) : split_lines s <> [].
Proof.
  destruct s as [| a s]; simpl; [discriminate |].
  destruct (Ascii.eqb a newline); [discriminate |].
  destruct (split_lines s); discriminate.
Qed.

Lemma join_cons_char (sep : string) (a : ascii) (l : string)
    (ls : list string) :
  join sep (String a l :: ls) = String a (join sep (l :: ls)).
Proof. unfold join. destruct ls; reflexivity. Qed.

Lemma join_cons2 (sep x y : string) (ls : list string) :
  join sep (x :: y :: ls) = x ++ sep ++ join sep (y :: ls).
Proof. reflexivity. Qed.

(** Splitting at the line breaks and joining again gives the text back. *)
Lemma join_split_lines (s : string) : join nl (split_lines s) = s.
Proof.
  induction s as [| a s IH]; simpl; auto.
  destruct (Ascii.eqb a newline) eqn:Ha.
  - apply Ascii.eqb_eq in Ha. subst a.
    pose proof (split_lines_nonempty s) as Hne.
    destruct (split_lines s) as [| l ls] eqn:Hs; [contradiction |].
    rewrite join_cons2, IH. reflexivity.
  - pose proof (split_lines_nonempty s) as Hne.
    destruct (split_lines s) as [| l ls] eqn:Hs; [contradiction |].
    rewrite join_cons_char, IH. reflexivity.
Qed.

Lemma split_lines_one_line (s : string) :
  one_line s = true -> split_lines s = [s].
Proof.
  induction s as [| a s IH]; simpl; auto.
  intros H. apply andb_prop in H. destruct H as [Ha Hs].
  apply negb_true_iff in Ha. rewrite Ha, (IH Hs). reflexivity.
Qed.

Lemma split_lines_app (x rest : string) :
  one_line x = true ->
  split_lines (x ++ String newline rest) = x :: split_lines rest.
Proof.
  induction x as [| a x IH]; simpl.
  - intros _. reflexivity.
  - intros H. apply andb_prop in H. destruct H as [Ha Hx].
    apply negb_true_iff in Ha. rewrite Ha, (IH Hx). reflexivity.
Qed.

(** Joining lines and splitting again gives the lines back. *)
Lemma split_lines_join (ls : list string) :
  ls <> [] -> Forall (fun l => one_line l = true) ls ->
  split_lines (join nl ls) = ls.
Proof.
  induction ls as [| x ls IH]; [contradiction |].
  intros _ Hall. inversion Hall as [| ? ? Hx Hrest]; subst.
  destruct ls as [| y ls].
  - simpl. now apply split_lines_one_line.
  - rewrite join_cons2.
    change (nl ++ join nl (y :: ls)) with (String newline (join nl (y :: ls))).
    rewrite split_lines_app by exact Hx.
    f_equal. apply IH; [discriminate | exact Hrest].
Qed.

Lemma split_lines_are_lines (s : string) :
  Forall (fun l => one_line l = true) (split_lines s).
Proof.
  induction s as [| a s IH]; simpl.
  - repeat constructor.
  - destruct (Ascii.eqb a newline) eqn:Ha.
    + constructor; auto.
    + destruct (split_lines s) as [| l ls].
      * repeat constructor. simpl. now rewrite Ha.
      * inversion IH as [| ? ? Hl Hls]; subst.
        constructor; auto. simpl. now rewrite Ha, Hl.
Qed.

Lemma one_line_app (a b : string) :
  one_line (a ++ b) = one_line a && one_line b.
Proof.
  induction a as [| c a IH]; simpl; auto.
  rewrite IH. now rewrite andb_assoc.
Qed.

Lemma one_line_spaces (n : Z) : one_line (spaces n) = true.
Proof.
  unfold spaces. induction (Z.to_nat n) as [| k IH]; simpl; auto.
  destruct (repeat " " k) eqn:Hr; simpl in *; auto.
Qed.

Lemma spaces_zero : spaces 0 = EmptyString.
Proof. reflexivity. Qed.

(** X9.  _indent works line by line: the lines of the indented text are the
    lines of the text, each prefixed with the given number of spaces when it
    holds something other than whitespace and left alone otherwise, so the
    number of lines does not change; with no spaces to add, and in
    particular with a negative count, the text comes back unchanged. *)
Theorem indent_is_linewise :
  forall (code : string) (n : Z),
    split_lines (_indent code n) = map (indent_line n) (split_lines code)
    /\ length (split_lines (_indent code n)) = length (split_lines code)
    /\ (n <= 0 -> _indent code n = code).
Proof.
  intros code n.
  assert (H : split_lines (_indent code n)
              = map (indent_line n) (split_lines code)).
  { unfold _indent. apply split_lines_join.
    - pose proof (split_lines_nonempty code).
      destruct (split_lines code); [contradiction | discriminate].
    - apply Forall_forall. intros l Hin. apply in_map_iff in Hin.
      destruct Hin as [line [<- Hline]].
      pose proof (split_lines_are_lines code) as Hall.
      rewrite Forall_forall in Hall. specialize (Hall line Hline).
      unfold indent_line. destruct (str_truthy (strip line)); auto.
      now rewrite one_line_app, one_line_spaces, Hall. }
  split; [exact H |]. split.
  - rewrite H. apply length_map.
  - intros Hn. unfold _indent.
    assert (Hs : spaces n = EmptyString).
    { unfold spaces. replace (Z.to_nat n) with O by lia. reflexivity. }
    rewrite Hs.
    rewrite (map_ext _ (fun line => line)).
    + rewrite map_id. apply join_split_lines.
    + intros line. now destruct (str_truthy (strip line)).
Qed.

Lemma rstrip_app_blank (s ws : string) :
  all_space ws = true -> rstrip (s ++ ws) = rstrip s.
Proof.
  intros Hws. induction s as [| a s IH]; simpl.
  - now apply rstrip_all_space.
  - now rewrite IH.
Qed.

Section SandboxMore.
Context {E : Type}.
Variable ast_parse : string -> Res unit.
Variable run_entry_point : string -> dict (NsObj E) -> Z -> M E PyVal.

(** X10.  Whitespace after the code does not reach the interpreter: the
    text compiled for [code] followed by whitespace is the text compiled for
    [code], so when the syntax check answers the same for both, execute
    behaves the same on both. *)
Theorem trailing_whitespace_is_dropped :
  forall (code ws : string),
    all_space ws = true ->
    wrapped_code (code ++ ws) = wrapped_code code
    /\ (ast_parse (code ++ ws) = ast_parse code ->
        forall self tools timeout_arg w,
          RestrictedSandbox_execute ast_parse run_entry_point self
            (code ++ ws) tools timeout_arg w
          = RestrictedSandbox_execute ast_parse run_entry_point self
              code tools timeout_arg w).
Proof.
  intros code ws Hws.
  assert (Hw : wrapped_code (code ++ ws) = wrapped_code code).
  { unfold wrapped_code. now rewrite (rstrip_app_blank code ws Hws). }
  split; [exact Hw |].
  intros Hp self tools timeout_arg w.
  unfold RestrictedSandbox_execute, wait_for_execute_code.
  now rewrite Hp, Hw.
Qed.

(** X11.  A text the syntax check refuses is never run and leaves no trace:
    for a SyntaxError execute returns the failure result "Syntax error:
    <message>" with empty stdout and stderr, for any other exception of the
    check it raises that exception; either way the world is exactly as
    before (no stream is created, nothing is redirected), whatever the
    interpreter would have done with the text. *)
Theorem refused_code_has_no_effect :
  forall (self : RestrictedSandbox) (code : string)
         (tools : option (list (Tool E))) (timeout_arg : option Z)
         (w : World E) (e : Exn),
    ast_parse code = Raise e ->
    RestrictedSandbox_execute ast_parse run_entry_point self code tools
                              timeout_arg w
    = (w,
       if isinstance e SyntaxError
       then Ok (mkExecutionResult false EmptyString EmptyString VNone
                  (Some ("Syntax error: " ++ exc_msg e)))
       else Raise e).
Proof.
  intros self code tools timeout_arg w e Hp.
  unfold RestrictedSandbox_execute. rewrite Hp.
  now destruct (isinstance e SyntaxError).
Qed.

(** X12.  Under a deadline given as an int that is not positive (a
    negative timeout argument, or no argument and a configured timeout that
    is not positive) code that parses is not started: execute returns the
    failure result "Execution timed out after <deadline>s" with empty stdout
    and stderr, and the world is as before but for the two empty capture
    streams. *)
Theorem nonpositive_deadline_times_out :
  forall (self : RestrictedSandbox) (code : string)
         (tools : option (list (Tool E))) (timeout_arg : option Z)
         (w : World E) (u : unit),
    ast_parse code = Ok u ->
    opt_num_or timeout_arg (timeout self) <= 0 ->
    RestrictedSandbox_execute ast_parse run_entry_point self code tools
                              timeout_arg w
    = (mkWorld (sys_stdout w) (sys_stderr w)
               ((streams w ++ [EmptyString]) ++ [EmptyString]) (ext w),
       Ok (mkExecutionResult false EmptyString EmptyString VNone
             (Some ("Execution timed out after "
                    ++ str_of_int (opt_num_or timeout_arg (timeout self))
                    ++ "s")))).
Proof.
  intros self code tools timeout_arg w u Hp Hle.
  rewrite (execute_parsed ast_parse run_entry_point self code tools
             timeout_arg w u Hp).
  cbv zeta. unfold sandboxed_run, wait_for_execute_code.
  apply Z.leb_le in Hle. rewrite Hle. simpl.
  rewrite nth_first_capture, nth_second_capture. reflexivity.
Qed.

End SandboxMore.

Lemma NoDup_keys_set {V : Type} (d : dict V) (k : string) (v : V) :
  NoDup (dict_keys d) -> NoDup (dict_keys (dict_set d k v)).
Proof.
  intros Hnd. destruct (dict_get d k) as [v0 |] eqn:Hg.
  - assert (Hk : dict_keys (dict_set d k v) = dict_keys d).
    { clear Hnd. induction d as [| [k' v'] d IH]; simpl in *; [discriminate |].
      destruct (String.eqb k' k) eqn:Hk; simpl; auto.
      f_equal. now apply IH. }
    now rewrite Hk.
  - rewrite (dict_set_fresh _ _ _ Hg), dict_keys_app. simpl.
    apply NoDup_app; auto.
    + repeat constructor. tauto.
    + intros x Hx [<- | []]. now apply dict_get_None_iff in Hg.
Qed.

Section NamespaceFacts.
Context {E : Type}.

Lemma bind_tools_other (tools : list (Tool E)) :
  forall (namespace : dict (NsObj E)) (n : string),
    (forall t, In t tools -> name t <> n) ->
    dict_get (fold_left bind_tool tools namespace) n = dict_get namespace n.
Proof.
  induction tools as [| t tools IH]; intros namespace n Hn; simpl; auto.
  rewrite IH by (intros t' Ht'; apply Hn; now right).
  unfold bind_tool. apply dict_get_set_other. apply Hn. now left.
Qed.

Lemma bind_tools_last (before after : list (Tool E)) (t : Tool E) :
  forall namespace : dict (NsObj E),
    (forall t', In t' after -> name t' <> name t) ->
    dict_get (fold_left bind_tool (before ++ t :: after) namespace) (name t)
    = Some (NsTool t).
Proof.
  intros namespace Hafter. rewrite fold_left_app. simpl.
  rewrite bind_tools_other by exact Hafter.
  unfold bind_tool. apply dict_get_set_same.
Qed.

Lemma bind_tools_NoDup (tools : list (Tool E)) :
  forall namespace : dict (NsObj E),
    NoDup (dict_keys namespace) ->
    NoDup (dict_keys (fold_left bind_tool tools namespace)).
Proof.
  induction tools as [| t tools IH]; intros namespace Hnd; simpl; auto.
  apply IH. now apply NoDup_keys_set.
Qed.

Lemma base_namespace_NoDup : NoDup (dict_keys (@base_namespace E)).
Proof.
  unfold base_namespace, dict_keys. rewrite map_app, map_map. simpl.
  repeat (constructor; [simpl; intuition discriminate |]). constructor.
Qed.

(** X13.  The namespace built for sandboxed code binds every injected tool
    under its exact name to the wrapper of that tool; of several tools with
    one name the last one wins, and a tool named like a safe built-in takes
    that built-in's place.  A name no tool has keeps its built-in binding
    (json and asyncio are the modules, each safe built-in is itself), and
    the names open, eval, exec, compile, __import__ and input are bound only
    if a tool is named so.  No name is bound twice. *)
Theorem namespace_binds_tools_by_name :
  forall tools : list (Tool E),
    let namespace := _build_namespace tools in
    NoDup (dict_keys namespace)
    /\ (forall before t after,
           tools = (before ++ t :: after)%list ->
           (forall t', In t' after -> name t' <> name t) ->
           dict_get namespace (name t) = Some (NsTool t))
    /\ (forall n,
           (forall t, In t tools -> name t <> n) ->
           dict_get namespace n = dict_get base_namespace n)
    /\ (forall n, In n safe_builtins ->
                  dict_get (@base_namespace E) n = Some (NsBuiltin n))
    /\ (forall n, In n ["open"; "eval"; "exec"; "compile"; "__import__";
                        "input"] ->
                  dict_get (@base_namespace E) n = None).
Proof.
  intros tools namespace. subst namespace.
  change (_build_namespace tools)
    with (fold_left bind_tool tools (@base_namespace E)).
  split; [apply bind_tools_NoDup, base_namespace_NoDup |].
  split; [| split; [| split]].
  - intros before t after -> Hafter. now apply bind_tools_last.
  - intros n Hn. now apply bind_tools_other.
  - intros n Hin. simpl in Hin.
    repeat (destruct Hin as [<- | Hin]; [reflexivity |]). contradiction.
  - intros n Hin. simpl in Hin.
    repeat (destruct Hin as [<- | Hin]; [reflexivity |]). contradiction.
Qed.

(** X14.  Code run through the execute_code tool cannot call execute_code
    again: whatever the registry holds, the tools handed to the sandbox are
    exactly the registered tools that are not named so, and the namespace
    built from them has no binding for "execute_code". *)
Theorem sandboxed_code_cannot_reenter :
  forall self : ExecuteCodeTool E,
    (forall t, In t (tools_for_code self) <->
               In t (get_all (ect_registry self))
               /\ name t <> "execute_code")
    /\ dict_get (_build_namespace (tools_for_code self)) "execute_code" = None.
Proof.
  intros self. split.
  - intros t. unfold tools_for_code. rewrite filter_In.
    rewrite negb_true_iff, String.eqb_neq. tauto.
  - change (_build_namespace (tools_for_code self))
      with (fold_left bind_tool (tools_for_code self) (@base_namespace E)).
    rewrite bind_tools_other; [reflexivity |].
    intros t Hin. unfold tools_for_code in Hin. apply filter_In in Hin.
    destruct Hin as [_ Hn]. now apply negb_true_iff, String.eqb_neq in Hn.
Qed.

End NamespaceFacts.

(* ===================================================================== *)
(** * Further properties: execute_code and the sandbox factory *)
(* ===================================================================== *)

Lemma append_empty_r (s : string) : s ++ EmptyString = s.
Proof. induction s as [| a s IH]; simpl; congruence. Qed.

Section ExecuteCodeMore.
Context {E : Type}.

(** The message of the SandboxError raised for a failure result. *)
Lemma render_failure (r : ExecutionResult) :
  success r = false ->
  render_result r
  = Raise (mkExn SandboxError
             ("Code execution failed: "
              ++ opt_str_or (error r) "Unknown error"
              ++ (if str_truthy (stderr r)
                  then nl ++ "Stderr: " ++ stderr r else EmptyString))).
Proof.
  intros Hs. unfold render_result. rewrite Hs. cbn [negb].
  destruct (str_truthy (stderr r)).
  - reflexivity.
  - now rewrite append_empty_r.
Qed.

(** X15.  When the sandboxed run returns a result whose success flag is
    not set, ExecuteCodeTool.execute returns no text: it raises SandboxError
    (an Exception, so the agent loop reports it to the model) with the
    message "Code execution failed: " followed by the result's error, or by
    "Unknown error" when that is missing or empty, and then, when stderr is
    not empty, by a line "Stderr: <stderr>". *)
Theorem failed_execution_raises_SandboxError :
  forall (acquire_sandbox : option string -> Res (Sandbox E))
         (self : ExecuteCodeTool E) (code : string) (w w' : World E)
         (r : ExecutionResult),
    run_in_sandbox acquire_sandbox self code w = (w', Ok r) ->
    success r = false ->
    exists e,
      ExecuteCodeTool_execute acquire_sandbox self code w = (w', Raise e)
      /\ exc_class e = SandboxError
      /\ isinstance e Exception = true
      /\ exc_msg e
         = "Code execution failed: "
           ++ opt_str_or (error r) "Unknown error"
           ++ (if str_truthy (stderr r)
               then nl ++ "Stderr: " ++ stderr r else EmptyString).
Proof.
  intros acquire_sandbox self code w w' r Hrun Hs.
  unfold ExecuteCodeTool_execute, bind, lift.
  rewrite Hrun, (render_failure r Hs).
  eexists. split; [reflexivity |]. repeat split.
Qed.

Variable ast_parse : string -> Res unit.
Variable run_entry_point : string -> dict (NsObj E) -> Z -> M E PyVal.
Variable E2BSandbox_new : Res (Sandbox E).

(** X16.  With the restricted sandbox selected (by the tool's sandbox type,
    or by the settings when the tool names none), code that the syntax check
    refuses with a SyntaxError makes ExecuteCodeTool.execute raise
    SandboxError "Code execution failed: Syntax error: <message>"; the code
    is not run and the world is exactly as before. *)
Theorem syntax_error_surfaces_as_SandboxError :
  forall (settings : Settings) (self : ExecuteCodeTool E) (code : string)
         (w : World E) (e : Exn),
    opt_str_or (ect_sandbox_type self) (settings_sandbox_type settings)
    = "restricted" ->
    ast_parse code = Raise e ->
    isinstance e SyntaxError = true ->
    ExecuteCodeTool_execute
      (get_sandbox ast_parse run_entry_point E2BSandbox_new settings)
      self code w
    = (w, Raise (mkExn SandboxError
                   ("Code execution failed: Syntax error: " ++ exc_msg e))).
Proof.
  intros settings self code w e Htype Hp He.
  unfold ExecuteCodeTool_execute, run_in_sandbox, get_sandbox.
  rewrite Htype. cbn [String.eqb Ascii.eqb Bool.eqb].
  unfold bind at 2. unfold lift at 1.
  unfold async_with, RestrictedSandbox_protocol. cbn [sb_aenter sb_execute sb_aexit].
  unfold bind, ret, try_finally.
  rewrite (execute_syntax_error ast_parse run_entry_point _ code _ None w e Hp He).
  reflexivity.
Qed.

(** X17.  get_sandbox decides by the sandbox type argument, or by the
    settings when the argument is None or empty: "restricted" gives the
    restricted sandbox with the configured timeout; "docker" raises
    NotImplementedError; any type other than these two and "e2b" raises
    ValueError "Unknown sandbox type: <type>"; so a sandbox is returned for
    "e2b" and "restricted" only.  For "e2b" without the e2b package the
    constructor's SandboxError is raised: the fall-back to the restricted
    sandbox is taken for an ImportError only. *)
Theorem sandbox_selection :
  forall (settings : Settings) (sandbox_type : option string),
    let stype :=
      opt_str_or sandbox_type (settings_sandbox_type settings) in
    let choose :=
      get_sandbox ast_parse run_entry_point in
    (stype = "restricted" ->
     choose E2BSandbox_new settings sandbox_type
     = Ok (RestrictedSandbox_protocol ast_parse run_entry_point
             (mkRestrictedSandbox (sandbox_timeout_seconds settings))))
    /\ (stype = "docker" ->
        choose E2BSandbox_new settings sandbox_type
        = Raise (mkExn NotImplementedError
                   "Docker sandbox not yet implemented"))
    /\ (stype <> "e2b" -> stype <> "restricted" -> stype <> "docker" ->
        choose E2BSandbox_new settings sandbox_type
        = Raise (mkExn ValueError ("Unknown sandbox type: " ++ stype)))
    /\ (forall sb, choose E2BSandbox_new settings sandbox_type = Ok sb ->
                   stype = "e2b" \/ stype = "restricted")
    /\ (stype = "e2b" ->
        forall remote,
          choose (E2BSandbox_init false remote) settings sandbox_type
          = Raise (mkExn SandboxError
                     "E2B not installed. Install with: pip install polytool[e2b]")).
Proof.
  intros settings sandbox_type stype choose. subst choose.
  unfold get_sandbox. fold stype.
  split; [| split; [| split; [| split]]].
  - intros ->. reflexivity.
  - intros ->. reflexivity.
  - intros He Hr Hd.
    apply String.eqb_neq in He, Hr, Hd. now rewrite He, Hr, Hd.
  - intros sb.
    destruct (String.eqb stype "e2b") eqn:He.
    + apply String.eqb_eq in He. auto.
    + destruct (String.eqb stype "restricted") eqn:Hr.
      * apply String.eqb_eq in Hr. auto.
      * destruct (String.eqb stype "docker"); discriminate.
  - intros -> remote. reflexivity.
Qed.

End ExecuteCodeMore.

(* ===================================================================== *)
(** * Further properties: the agent loop *)
(* ===================================================================== *)

Lemma count_direct_cons (c : ToolCall) (l : list ToolCall) :
  count_direct (c :: l) = (if is_ptc c then 0 else 1) + count_direct l.
Proof.
  unfold count_direct. cbn [filter].
  destruct (is_ptc c); cbn [negb length]; lia.
Qed.

Lemma count_ptc_cons (c : ToolCall) (l : list ToolCall) :
  count_ptc (c :: l) = (if is_ptc c then 1 else 0) + count_ptc l.
Proof.
  unfold count_ptc. cbn [filter].
  destruct (is_ptc c); cbn [length]; lia.
Qed.

Lemma count_direct_app (l1 l2 : list ToolCall) :
  count_direct (l1 ++ l2) = count_direct l1 + count_direct l2.
Proof.
  induction l1 as [| c l1 IH]; [reflexivity |].
  simpl app. rewrite !count_direct_cons, IH. lia.
Qed.

Lemma count_ptc_app (l1 l2 : list ToolCall) :
  count_ptc (l1 ++ l2) = count_ptc l1 + count_ptc l2.
Proof.
  induction l1 as [| c l1 IH]; [reflexivity |].
  simpl app. rewrite !count_ptc_cons, IH. lia.
Qed.

Lemma count_kinds_total (l : list ToolCall) :
  count_direct l + count_ptc l = Z.of_nat (length l).
Proof.
  induction l as [| c l IH]; [reflexivity |].
  rewrite count_direct_cons, count_ptc_cons, length_cons, Nat2Z.inj_succ.
  destruct (is_ptc c); lia.
Qed.

Lemma count_ptc_nonneg (l : list ToolCall) : 0 <= count_ptc l.
Proof. unfold count_ptc. lia. Qed.

Lemma existsb_is_ptc_count (l : list ToolCall) :
  existsb is_ptc l = true <-> 0 < count_ptc l.
Proof.
  induction l as [| c l IH].
  - simpl. unfold count_ptc. simpl. split; [discriminate | lia].
  - rewrite count_ptc_cons. simpl existsb.
    pose proof (count_ptc_nonneg l) as Hn.
    destruct (is_ptc c); cbn [orb].
    + split; [lia | reflexivity].
    + rewrite IH. split; lia.
Qed.

Lemma clashing_key_None (items : Kwargs) :
  clashing_key items = None
  <-> ~ In "self" (dict_keys items) /\ ~ In "name" (dict_keys items).
Proof.
  induction items as [| [k v] items IH]; simpl.
  - tauto.
  - destruct (String.eqb k "self") eqn:Hs; simpl.
    + apply String.eqb_eq in Hs. split; [discriminate |].
      intros [H _]. exfalso. apply H. now left.
    + destruct (String.eqb k "name") eqn:Hn; simpl.
      * apply String.eqb_eq in Hn. split; [discriminate |].
        intros [_ H]. exfalso. apply H. now left.
      * apply String.eqb_neq in Hs, Hn. rewrite IH. tauto.
Qed.

Section AgentMore.
Context {E : Type}.
Variable json_loads : string -> Res JVal.
Variable py_repr : JVal -> string.
Variable self : Agent E.

(** The try statement: the value's text, the text of an Exception, or the
    exception itself when it is no Exception. *)
Lemma execute_call_outcome (func_name : string) (func_args : JVal)
    (w : World E) :
  execute_call self func_name func_args w
  = match call_registry self func_name func_args w with
    | (w', Ok v) => (w', Ok (result_text v))
    | (w', Raise e) =>
        (w', if isinstance e Exception
             then Ok ("Error: " ++ exc_msg e) else Raise e)
    end.
Proof.
  unfold execute_call, try_except, bind.
  destruct (call_registry self func_name func_args w) as [w' [v | e]];
    [reflexivity |].
  simpl. destruct (isinstance e Exception); reflexivity.
Qed.

(** What the loop body does once the argument text has decoded. *)
Lemma dispatch_tool_call_decoded (tool_call : ToolCall) (st : LoopState)
    (w : World E) (func_args : JVal) :
  json_loads (tc_arguments tool_call) = Ok func_args ->
  dispatch_tool_call json_loads self tool_call st w
  = match execute_call self (tc_name tool_call) func_args w with
    | (w', Ok text) =>
        (w', Ok (mkLoopState
                   (conversation st ++ [tool_message tool_call text])
                   (fst (count_call (tc_name tool_call) (total_usage st)
                                    (ptc_seen st)))
                   (calls_made st + 1)
                   (snd (count_call (tc_name tool_call) (total_usage st)
                                    (ptc_seen st)))))
    | (w', Raise e) => (w', Raise e)
    end.
Proof.
  intros Hj. unfold dispatch_tool_call, bind, lift. rewrite Hj.
  destruct (count_call _ _ _) as [total seen]. reflexivity.
Qed.


Lemma dispatch_tool_call_ok (c : ToolCall) (st st' : LoopState)
    (w w' : World E) :
  dispatch_tool_call json_loads self c st w = (w', Ok st') ->
  exists reply,
    answers c reply
    /\ conversation st' = (conversation st ++ [reply])%list
    /\ calls_made st' = calls_made st + 1
    /\ input_tokens (total_usage st') = input_tokens (total_usage st)
    /\ output_tokens (total_usage st') = output_tokens (total_usage st)
    /\ total_tokens (total_usage st') = total_tokens (total_usage st)
    /\ usage_tool_calls (total_usage st')
       = usage_tool_calls (total_usage st) + (if is_ptc c then 0 else 1)
    /\ ptc_executions (total_usage st')
       = ptc_executions (total_usage st) + (if is_ptc c then 1 else 0)
    /\ ptc_seen st' = ptc_seen st || is_ptc c.
Proof.
  destruct (json_loads (tc_arguments c)) as [args | e0] eqn:Hj.
  - rewrite (dispatch_tool_call_decoded c st w args Hj).
    destruct (execute_call self (tc_name c) args w) as [w1 [text | e1]];
      [| discriminate].
    intros H. inversion H; subst; clear H.
    exists (tool_message c text). split; [now exists text |].
    unfold count_call, is_ptc.
    destruct (String.eqb (tc_name c) "execute_code"); simpl;
      repeat split; try lia; destruct (ptc_seen st); reflexivity.
  - unfold dispatch_tool_call, bind, lift. rewrite Hj. discriminate.
Qed.

Lemma dispatch_all_ok (calls : list ToolCall) :
  forall (st st' : LoopState) (w w' : World E),
  dispatch_all json_loads self calls st w = (w', Ok st') ->
  exists replies,
    Forall2 answers calls replies
    /\ conversation st' = (conversation st ++ replies)%list
    /\ calls_made st' = calls_made st + Z.of_nat (length calls)
    /\ input_tokens (total_usage st') = input_tokens (total_usage st)
    /\ output_tokens (total_usage st') = output_tokens (total_usage st)
    /\ total_tokens (total_usage st') = total_tokens (total_usage st)
    /\ usage_tool_calls (total_usage st')
       = usage_tool_calls (total_usage st) + count_direct calls
    /\ ptc_executions (total_usage st')
       = ptc_executions (total_usage st) + count_ptc calls
    /\ ptc_seen st' = ptc_seen st || existsb is_ptc calls.
Proof.
  induction calls as [| c calls IH]; intros st st' w w' H.
  - inversion H; subst. exists []. rewrite app_nil_r, orb_false_r.
    unfold count_direct, count_ptc. simpl.
    repeat split; try lia. constructor.
  - simpl in H. unfold bind at 1 in H.
    destruct (dispatch_tool_call json_loads self c st w)
      as [w1 [st1 | e1]] eqn:Hd; [| discriminate].
    destruct (dispatch_tool_call_ok c st st1 w w1 Hd)
      as [reply [Ha [Hconv [Hm [Hi [Ho [Ht [Hu [Hp Hs]]]]]]]]].
    destruct (IH st1 st' w1 w' H)
      as [replies [Ha2 [Hconv2 [Hm2 [Hi2 [Ho2 [Ht2 [Hu2 [Hp2 Hs2]]]]]]]]].
    exists (reply :: replies).
    split. { now constructor. }
    split. { rewrite Hconv2, Hconv, <- app_assoc. reflexivity. }
    rewrite count_direct_cons, count_ptc_cons, length_cons, Nat2Z.inj_succ.
    simpl existsb. rewrite orb_assoc, <- Hs.
    repeat split; try congruence; lia.
Qed.


Lemma requested_calls_cons (answer : Message * Usage)
    (trace : list (Message * Usage)) :
  requested_calls (answer :: trace)
  = (calls_of (fst answer) ++ requested_calls trace)%list.
Proof. reflexivity. Qed.

(** What holds of every run of the loop that returns. *)
Lemma run_loop_ok (n : nat) :
  forall (st : LoopState) (w w' : World E) (r : AgentResult)
         (trace : list (Message * Usage)),
  run_loop json_loads self n st w = (w', Ok (r, trace)) ->
  (length trace <= n)%nat
  /\ run_ending n trace r
  /\ (exists replies,
        Forall2 replies_to trace replies
        /\ messages r = (conversation st ++ history trace replies)%list)
  /\ input_tokens (usage r)
     = input_tokens (total_usage st) + sum_usage input_tokens trace
  /\ output_tokens (usage r)
     = output_tokens (total_usage st) + sum_usage output_tokens trace
  /\ total_tokens (usage r)
     = total_tokens (total_usage st) + sum_usage total_tokens trace
  /\ tool_calls_made r
     = calls_made st + Z.of_nat (length (requested_calls trace))
  /\ usage_tool_calls (usage r)
     = usage_tool_calls (total_usage st)
       + count_direct (requested_calls trace)
  /\ ptc_executions (usage r)
     = ptc_executions (total_usage st) + count_ptc (requested_calls trace)
  /\ ptc_used r = ptc_seen st || existsb is_ptc (requested_calls trace).
Proof.
  induction n as [| n IH]; intros st w w' r trace H.
  - inversion H; subst; clear H.
    split; [apply Nat.le_refl |].
    split. { left. repeat split. constructor. }
    split. { exists []. split; [constructor |]. simpl. now rewrite app_nil_r. }
    unfold sum_usage, count_direct, count_ptc. simpl.
    rewrite orb_false_r. repeat split; lia.
  - simpl in H. unfold bind at 1 in H.
    destruct (generate (provider self) (conversation st)
                (get_all (registry self)) w)
      as [w1 [[response u] | e1]] eqn:Hgen; [| discriminate].
    assert (Hplain :
      calls_of response = [] ->
      (w1, Ok (result_of (opt_str_or (content response) EmptyString)
                 (mkLoopState (conversation st ++ [response])
                    (add_tokens (total_usage st) u)
                    (calls_made st) (ptc_seen st)),
               [(response, u)]))
      = (w', Ok (r, trace)) ->
      (length trace <= S n)%nat
      /\ run_ending (S n) trace r
      /\ (exists replies,
            Forall2 replies_to trace replies
            /\ messages r = (conversation st ++ history trace replies)%list)
      /\ input_tokens (usage r)
         = input_tokens (total_usage st) + sum_usage input_tokens trace
      /\ output_tokens (usage r)
         = output_tokens (total_usage st) + sum_usage output_tokens trace
      /\ total_tokens (usage r)
         = total_tokens (total_usage st) + sum_usage total_tokens trace
      /\ tool_calls_made r
         = calls_made st + Z.of_nat (length (requested_calls trace))
      /\ usage_tool_calls (usage r)
         = usage_tool_calls (total_usage st)
           + count_direct (requested_calls trace)
      /\ ptc_executions (usage r)
         = ptc_executions (total_usage st)
           + count_ptc (requested_calls trace)
      /\ ptc_used r
         = ptc_seen st || existsb is_ptc (requested_calls trace)).
    { intros Hnone Heq. inversion Heq; subst; clear Heq.
      split; [simpl; lia |].
      split.
      { right. exists [], (response, u).
        repeat split; [constructor | exact Hnone]. }
      split.
      { exists [[]]. split.
        - constructor; [| constructor]. unfold replies_to. simpl.
          rewrite Hnone. constructor.
        - reflexivity. }
      unfold requested_calls, sum_usage, count_direct, count_ptc. simpl.
      rewrite Hnone. simpl. rewrite orb_false_r. repeat split; lia. }
    destruct (tool_calls response) as [[| c cs] |] eqn:Hcalls.
    + apply Hplain; [| exact H]. unfold calls_of. now rewrite Hcalls.
    + clear Hplain. unfold bind at 1 in H.
      set (st1 := mkLoopState (conversation st ++ [response])
                              (add_tokens (total_usage st) u)
                              (calls_made st) (ptc_seen st)) in *.
      destruct (dispatch_all json_loads self (c :: cs) st1 w1)
        as [w2 [st2 | e2]] eqn:Hd; [| discriminate].
      unfold bind at 1 in H.
      destruct (run_loop json_loads self n st2 w2)
        as [w3 [[r3 trace3] | e3]] eqn:Hrun; [| discriminate].
      inversion H; subst; clear H. simpl fst. simpl snd.
      destruct (dispatch_all_ok _ _ _ _ _ Hd)
        as [rep [Ha [Hconv [Hm [Hi [Ho [Ht [Hu [Hp Hs]]]]]]]]].
      destruct (IH _ _ _ _ _ Hrun)
        as [Hlen [Hend [[replies [Hrep Hmsg]]
              [Hi3 [Ho3 [Ht3 [Hm3 [Hu3 [Hp3 Hs3]]]]]]]]].
      assert (Hc : calls_of response = c :: cs).
      { unfold calls_of. now rewrite Hcalls. }
      split; [simpl; lia |].
      split.
      { destruct Hend as [[Hl [Hall Hout]] | [init [last [-> [Hall [Hn Hout]]]]]].
        - left. split; [simpl; now rewrite Hl |].
          split; [| exact Hout].
          constructor; [| exact Hall]. simpl. rewrite Hc. discriminate.
        - right. exists ((response, u) :: init), last.
          split; [reflexivity |]. split; [| now split].
          constructor; [| exact Hall]. simpl. rewrite Hc. discriminate. }
      split.
      { exists (rep :: replies). split.
        - constructor; [| exact Hrep]. unfold replies_to. simpl.
          now rewrite Hc.
        - rewrite Hmsg, Hconv. subst st1. simpl.
          rewrite <- !app_assoc. reflexivity. }
      rewrite requested_calls_cons. simpl fst. rewrite Hc.
      rewrite count_direct_app, count_ptc_app, existsb_app, length_app,
        Nat2Z.inj_add.
      rewrite Hs3, Hs, orb_assoc.
      unfold sum_usage in *. cbn [fold_right].
      subst st1. unfold add_tokens in *.
      cbn [conversation total_usage calls_made ptc_seen input_tokens
           output_tokens total_tokens usage_tool_calls ptc_executions
           fst snd] in *.
      repeat split; try lia; reflexivity.
    + apply Hplain; [| exact H]. unfold calls_of. now rewrite Hcalls.
Qed.


(** A run that returns has built its first conversation and has run the
    loop from it. *)
Lemma run_observed_returns (prompt : string) (msgs : option (list Message))
    (w w' : World E) (r : AgentResult) (trace : list (Message * Usage)) :
  run_observed json_loads py_repr self prompt msgs w = (w', Ok (r, trace)) ->
  exists seed,
    seed_conversation py_repr self prompt msgs = Ok seed
    /\ run_loop json_loads self (Z.to_nat (max_iterations self))
                (mkLoopState seed Usage0 0 false) w
       = (w', Ok (r, trace)).
Proof.
  unfold run_observed, bind, lift.
  destruct (seed_conversation py_repr self prompt msgs) as [seed | e];
    [| discriminate].
  intros H. now exists seed.
Qed.

(** X18.  Whenever Agent.run returns, it has asked the backend at most
    max_iterations times, and it has ended in one of two ways: at the first
    answer that asks for no tool call, with that answer's content (or the
    empty text) as output, or at the bound after answers that all asked for
    calls, with the output "[Max iterations reached]".  The returned messages
    are the seeded conversation followed, answer by answer, by the backend's
    message and one tool-role message per call it asked for, in order, and
    the token counters are the sums of the backend's counters. *)
Theorem returned_run_is_a_bounded_history :
  forall (prompt : string) (msgs : option (list Message)) (w w' : World E)
         (r : AgentResult) (trace : list (Message * Usage)),
    run_observed json_loads py_repr self prompt msgs w
    = (w', Ok (r, trace)) ->
    run json_loads py_repr self prompt msgs w = (w', Ok r)
    /\ Z.of_nat (length trace) <= Z.max 0 (max_iterations self)
    /\ run_ending (Z.to_nat (max_iterations self)) trace r
    /\ (exists seed replies,
          seed_conversation py_repr self prompt msgs = Ok seed
          /\ Forall2 replies_to trace replies
          /\ messages r = (seed ++ history trace replies)%list)
    /\ input_tokens (usage r) = sum_usage input_tokens trace
    /\ output_tokens (usage r) = sum_usage output_tokens trace
    /\ total_tokens (usage r) = sum_usage total_tokens trace.
Proof.
  intros prompt msgs w w' r trace Hrun.
  split. { unfold run, bind. now rewrite Hrun. }
  destruct (run_observed_returns _ _ _ _ _ _ Hrun) as [seed [Hseed Hloop]].
  destruct (run_loop_ok _ _ _ _ _ _ Hloop)
    as [Hlen [Hend [[replies [Hrep Hmsg]] [Hi [Ho [Ht _]]]]]].
  simpl in Hi, Ho, Ht, Hmsg.
  split; [lia |]. split; [exact Hend |].
  split. { exists seed, replies. now repeat split. }
  repeat split; lia.
Qed.

(** X19.  In the result of a run that returns, every call the backend asked
    for is counted exactly once, whether its tool ran, failed or does not
    exist: tool_calls_made is the number of calls asked for, usage.tool_calls
    the number of those not named "execute_code", usage.ptc_executions the
    number of those named "execute_code", so the two add up to
    tool_calls_made; ptc_used is set exactly when a call named
    "execute_code" was asked for. *)
Theorem calls_are_counted_by_kind :
  forall (prompt : string) (msgs : option (list Message)) (w w' : World E)
         (r : AgentResult) (trace : list (Message * Usage)),
    run_observed json_loads py_repr self prompt msgs w
    = (w', Ok (r, trace)) ->
    tool_calls_made r = Z.of_nat (length (requested_calls trace))
    /\ usage_tool_calls (usage r) = count_direct (requested_calls trace)
    /\ ptc_executions (usage r) = count_ptc (requested_calls trace)
    /\ usage_tool_calls (usage r) + ptc_executions (usage r)
       = tool_calls_made r
    /\ ptc_used r = existsb is_ptc (requested_calls trace)
    /\ (ptc_used r = true <-> 0 < ptc_executions (usage r)).
Proof.
  intros prompt msgs w w' r trace Hrun.
  destruct (run_observed_returns _ _ _ _ _ _ Hrun) as [seed [Hseed Hloop]].
  destruct (run_loop_ok _ _ _ _ _ _ Hloop)
    as [_ [_ [_ [_ [_ [_ [Hm [Hu [Hp Hs]]]]]]]]].
  simpl in Hm, Hu, Hp, Hs.
  pose proof (count_kinds_total (requested_calls trace)) as Hk.
  split; [lia |]. split; [lia |]. split; [lia |]. split; [lia |].
  split; [exact Hs |].
  rewrite Hs, Hp. apply existsb_is_ptc_count.
Qed.

(** X20.  When the first conversation has been built, max_iterations is
    positive and the backend's first answer asks for no tool call
    (tool_calls is None or empty), Agent.run returns at once: the output is
    the answer's content, or the empty text when the content is None or
    empty; the messages are the seeded conversation and the answer; the
    usage holds the answer's token counters; no call is counted, and the
    world is the one the backend left. *)
Theorem answer_without_calls_ends_run :
  forall (prompt : string) (msgs : option (list Message)) (w w' : World E)
         (seed : list Message) (response : Message) (u : Usage),
    0 < max_iterations self ->
    seed_conversation py_repr self prompt msgs = Ok seed ->
    generate (provider self) seed (get_all (registry self)) w
    = (w', Ok (response, u)) ->
    calls_of response = [] ->
    run json_loads py_repr self prompt msgs w
    = (w', Ok (mkAgentResult
                 (match content response with
                  | Some text => text
                  | None => EmptyString
                  end)
                 (mkUsage (input_tokens u) (output_tokens u) (total_tokens u)
                          0 0)
                 (seed ++ [response])
                 0 false)).
Proof.
  intros prompt msgs w w' seed response u Hpos Hseed Hgen Hnone.
  unfold run, run_observed. rewrite Hseed.
  destruct (Z.to_nat (max_iterations self)) as [| n] eqn:Hn; [lia |].
  unfold bind at 1. unfold bind at 1. unfold lift.
  simpl run_loop. unfold bind at 1.
  cbn [conversation]. rewrite Hgen.
  assert (Hout : opt_str_or (content response) EmptyString
                 = match content response with
                   | Some text => text
                   | None => EmptyString
                   end).
  { unfold opt_str_or. destruct (content response) as [text |]; [| reflexivity].
    unfold str_truthy. destruct text; reflexivity. }
  unfold calls_of in Hnone.
  destruct (tool_calls response) as [[| c cs] |]; try discriminate;
    unfold ret, result_of, add_tokens; simpl; rewrite Hout; reflexivity.
Qed.


(** X22.  A call of a tool the registry does not hold, with arguments that
    decode to a JSON object that can be passed on, runs nothing: the world
    is unchanged, the call is counted, and the model is answered with the
    tool-role message "Error: Tool '<name>' not found. Available:
    <registered names, separated by ', '>". *)
Theorem unknown_tool_is_reported :
  forall (tool_call : ToolCall) (st : LoopState) (w : World E)
         (items : Kwargs),
    json_loads (tc_arguments tool_call) = Ok (JObj items) ->
    clashing_key items = None ->
    has (registry self) (tc_name tool_call) = false ->
    exists st',
      dispatch_tool_call json_loads self tool_call st w = (w, Ok st')
      /\ conversation st'
         = (conversation st
            ++ [mkMessage "tool"
                  (Some ("Error: Tool '" ++ tc_name tool_call
                         ++ "' not found. Available: "
                         ++ join ", " (get_names (registry self)))%string)
                  None (Some (tc_id tool_call))
                  (Some (tc_name tool_call))])%list
      /\ calls_made st' = calls_made st + 1.
Proof.
  intros tool_call st w items Hj Hk Hhas.
  rewrite (dispatch_tool_call_decoded tool_call st w _ Hj).
  rewrite execute_call_outcome.
  unfold call_registry, bind, lift, unpack_kwargs. rewrite Hk.
  unfold ToolRegistry_execute, get. rewrite Hk.
  unfold has, dict_has in Hhas.
  destruct (dict_get (_tools (registry self)) (tc_name tool_call));
    [discriminate |].
  unfold raise. eexists. split; [reflexivity |]. split; reflexivity.
Qed.

(** X23.  Arguments that cannot be passed as keyword arguments reach no
    tool.  Decoded arguments are passed on exactly when they are a JSON
    object with neither a key "self" nor a key "name"; otherwise (an array,
    a number, a text, null, or an object with such a key) the call raises
    TypeError before any lookup, the world is unchanged, and the model is
    answered "Error: <message of the TypeError>" even when the named tool
    exists. *)
Theorem unbindable_arguments_run_no_tool :
  forall (tool_call : ToolCall) (st : LoopState) (w : World E)
         (func_args : JVal),
    json_loads (tc_arguments tool_call) = Ok func_args ->
    (forall items, func_args = JObj items ->
                   In "self" (dict_keys items) \/ In "name" (dict_keys items)) ->
    exists e st',
      unpack_kwargs func_args = Raise e
      /\ exc_class e = TypeError
      /\ dispatch_tool_call json_loads self tool_call st w = (w, Ok st')
      /\ conversation st'
         = (conversation st
            ++ [mkMessage "tool" (Some ("Error: " ++ exc_msg e)%string) None
                  (Some (tc_id tool_call)) (Some (tc_name tool_call))])%list
      /\ calls_made st' = calls_made st + 1
      /\ ((forall items, func_args <> JObj items) ->
          exc_msg e
          = ("polytool.tools.registry.ToolRegistry.execute() argument "
             ++ "after ** must be a mapping, not "
             ++ json_type_name func_args)%string).
Proof.
  intros tool_call st w func_args Hj Hbad.
  assert (Hu : exists e,
             unpack_kwargs func_args = Raise e
             /\ exc_class e = TypeError
             /\ ((forall items, func_args <> JObj items) ->
                 exc_msg e
                 = ("polytool.tools.registry.ToolRegistry.execute() argument "
                    ++ "after ** must be a mapping, not "
                    ++ json_type_name func_args)%string)).
  { destruct func_args;
      try (eexists; split; [reflexivity |]; split; reflexivity).
    unfold unpack_kwargs.
    destruct (clashing_key items) as [k |] eqn:Hk.
    - eexists. split; [reflexivity |]. split; [reflexivity |].
      intros Hno. now destruct (Hno items).
    - exfalso. apply clashing_key_None in Hk. destruct Hk as [Hs Hn].
      destruct (Hbad items eq_refl); contradiction. }
  destruct Hu as [e [Hu [Hcls Hmsg]]].
  exists e. eexists. split; [exact Hu |]. split; [exact Hcls |].
  rewrite (dispatch_tool_call_decoded tool_call st w _ Hj).
  rewrite execute_call_outcome.
  unfold call_registry, bind, lift. rewrite Hu.
  assert (He : isinstance e Exception = true).
  { unfold isinstance. rewrite Hcls. reflexivity. }
  rewrite He.
  split; [reflexivity |]. split; [reflexivity |]. split; [reflexivity |].
  exact Hmsg.
Qed.


(** X25.  The conversation Agent.run starts from always begins with a
    system message and ends with the user message that carries the prompt.
    Messages handed in are kept, in order, in between: when the first of
    them is a system message nothing is put in front (the agent's own system
    prompt is not used and nothing can fail), otherwise the system message
    built from the registered tools and the agent's system prompt is put
    first, and what build_system_prompt raises is raised. *)
Theorem seeded_conversation_shape :
  forall (prompt : string) (msgs : option (list Message)),
    let given := match msgs with Some l => l | None => [] end in
    let seeded := seed_conversation py_repr self prompt msgs in
    (forall seed,
        seeded = Ok seed ->
        exists first rest,
          seed = (first :: rest ++ [user_message prompt])%list
          /\ role first = "system")
    /\ (forall first rest,
           given = first :: rest -> role first = "system" ->
           seeded = Ok (given ++ [user_message prompt])%list)
    /\ ((forall first rest, given = first :: rest -> role first <> "system") ->
        seeded
        = match build_system_prompt py_repr (get_all (registry self))
                                    (system_prompt self) with
          | Ok text =>
              Ok (system_message text :: given ++ [user_message prompt])%list
          | Raise e => Raise e
          end).
Proof.
  intros prompt msgs given seeded. subst seeded given.
  split; [| split].
  - intros seed Hseed.
    destruct (seed_conversation_cases prompt msgs)
      as [[first [rest [Hg Hr]]] | Hno].
    + rewrite (seed_conversation_given py_repr self prompt msgs first rest
                 Hg Hr) in Hseed.
      inversion Hseed; subst. now exists first, rest.
    + rewrite (seed_conversation_built py_repr self prompt msgs Hno) in Hseed.
      destruct (build_system_prompt py_repr _ _) as [text | e];
        [| discriminate].
      inversion Hseed; subst.
      exists (system_message text),
             (match msgs with Some l => l | None => [] end).
      now split.
  - intros first rest Hg Hr. rewrite Hg.
    exact (seed_conversation_given py_repr self prompt msgs first rest Hg Hr).
  - intros Hno.
    exact (seed_conversation_built py_repr self prompt msgs Hno).
Qed.

End AgentMore.

(* ===================================================================== *)
(** * Further properties: the LiteLLM provider *)
(* ===================================================================== *)

Section LiteLLMFacts.
Context {E : Type}.
Variable acompletion : list (dict JVal) -> option (list JVal)
                       -> M E ModelResponse.

(** X26.  LiteLLMProvider.generate lets no Exception of the backend call
    through as it is: the failure of acompletion, like the IndexError of a
    response without choices, is raised again as ProviderError "LiteLLM
    error: <message>".  What is no Exception (a cancellation, a keyboard
    interrupt) passes unchanged.  Either way the tools go to acompletion as
    None when the list is empty. *)
Theorem provider_failures_are_ProviderErrors :
  forall (msgs : list Message) (tools : list (Tool E)) (w w' : World E)
         (e : Exn),
    LiteLLMProvider_generate acompletion msgs tools w = (w', Raise e) ->
    let call :=
      acompletion (map _message_to_dict msgs)
                  (match tools with
                   | [] => None
                   | _ => Some (map to_openai_schema tools)
                   end) w in
    (exists cause,
        isinstance cause Exception = true
        /\ e = mkExn ProviderError ("LiteLLM error: " ++ exc_msg cause)
        /\ (call = (w', Raise cause)
            \/ (exists response,
                   call = (w', Ok response) /\ choices response = []
                   /\ exc_msg cause = "list index out of range")))
    \/ (isinstance e Exception = false /\ call = (w', Raise e)).
Proof.
  intros msgs tools w w' e H call. subst call.
  unfold LiteLLMProvider_generate, try_except, generate_body, bind in H.
  destruct (acompletion _ _ w) as [w1 [response | e1]] eqn:Hc.
  - destruct (choices response) as [| choice rest] eqn:Hch.
    + unfold raise in H. simpl in H. inversion H; subst; clear H.
      left.
      exists (mkExn (UserException "IndexError") "list index out of range").
      split; [reflexivity |]. split; [reflexivity |].
      right. exists response. repeat split. exact Hch.
    + discriminate.
  - simpl in H. destruct (isinstance e1 Exception) eqn:He1.
    + unfold raise in H. inversion H; subst; clear H.
      left. exists e1. repeat split; auto.
    + unfold raise in H. inversion H; subst; clear H.
      right. split; [exact He1 | reflexivity].
Qed.

(** X27.  What LiteLLMProvider.generate returns is an assistant message
    built from the first choice of the response: its content is the
    choice's content, its tool calls are the choice's calls, with an absent
    or empty list of calls given as None (so the agent loop reads the answer
    as final), and it carries neither a call identifier nor a name.  The
    usage holds the token counts of the response, zero when the response
    reports none, and no tool call is counted in it. *)
Theorem provider_answer_is_first_choice :
  forall (msgs : list Message) (tools : list (Tool E)) (w w' : World E)
         (m : Message) (u : Usage),
    LiteLLMProvider_generate acompletion msgs tools w = (w', Ok (m, u)) ->
    exists response choice rest,
      acompletion (map _message_to_dict msgs)
                  (match tools with
                   | [] => None
                   | _ => Some (map to_openai_schema tools)
                   end) w
      = (w', Ok response)
      /\ choices response = choice :: rest
      /\ role m = "assistant"
      /\ content m = rm_content choice
      /\ calls_of m
         = match rm_tool_calls choice with Some l => l | None => [] end
      /\ tool_calls m <> Some []
      /\ tool_call_id m = None /\ msg_name m = None
      /\ usage_tool_calls u = 0 /\ ptc_executions u = 0
      /\ (forall ru, response_usage response = Some ru ->
                     input_tokens u = prompt_tokens ru
                     /\ output_tokens u = completion_tokens ru
                     /\ total_tokens u = llm_total_tokens ru)
      /\ (response_usage response = None -> u = Usage0).
Proof.
  intros msgs tools w w' m u H.
  unfold LiteLLMProvider_generate, try_except, generate_body, bind in H.
  destruct (acompletion _ _ w) as [w1 [response | e1]] eqn:Hc.
  - destruct (choices response) as [| choice rest] eqn:Hch.
    + unfold raise in H. simpl in H. discriminate.
    + unfold ret in H. inversion H; subst; clear H.
      exists response, choice, rest.
      split; [reflexivity |]. split; [exact Hch |].
      unfold _response_to_message, calls_of. simpl.
      destruct (rm_tool_calls choice) as [[| c cs] |];
        destruct (response_usage response) as [ru |]; simpl;
        (split; [reflexivity |]); (split; [reflexivity |]);
        (split; [reflexivity |]); (split; [discriminate |]);
        (split; [reflexivity |]); (split; [reflexivity |]);
        (split; [reflexivity |]); (split; [reflexivity |]);
        (split;
         [ intros ru' Hru; inversion Hru; subst; repeat split
         | intros Hn; try discriminate; reflexivity ]).
  - simpl in H. destruct (isinstance e1 Exception); discriminate.
Qed.

End LiteLLMFacts.

(** X28.  The dict _response_to_message builds for a tool call is the one
    the agent loop reads: its three subscripts (["function"]["name"],
    ["function"]["arguments"], ["id"]) raise nothing and give back the
    call's name, argument text and identifier; and when the assistant
    message is sent to the backend again, _message_to_dict hands over the
    same dicts, in order, leaving the key out when there is no call. *)
Theorem tool_call_dict_round_trip :
  (forall tc : ToolCall,
      tool_call_fields (tool_call_dict tc)
      = Ok (JStr (tc_name tc), JStr (tc_arguments tc), JStr (tc_id tc)))
  /\ (forall response_message : ResponseMessage,
         let m := _response_to_message response_message in
         dict_get (_message_to_dict m) "tool_calls"
         = match calls_of m with
           | [] => None
           | calls => Some (JArr (map tool_call_dict calls))
           end).
Proof.
  split.
  - intros tc. reflexivity.
  - intros [c calls]. unfold _response_to_message, _message_to_dict, calls_of.
    destruct c as [text |]; destruct calls as [[| x xs] |]; reflexivity.
Qed.

(* ===================================================================== *)
(** * The further properties at concrete inputs *)
(* ===================================================================== *)

Lemma registry_echo_ok : registry_ok registry_echo.
Proof.
  split.
  - repeat constructor; simpl; intuition discriminate.
  - repeat constructor.
Qed.

(** X1 at the registry that holds "echo" and "boom". *)
Lemma registry_invariant_kept_witness :
  registry_ok (fst (register registry_echo (ATool search_tool)))
  /\ registry_ok (remove registry_echo "echo")
  /\ get_names registry_echo = map name (get_all registry_echo)
  /\ (get registry_echo "boom" = Ok failing_tool -> name failing_tool = "boom").
Proof.
  destruct (@registry_invariant_kept nat) as [_ H].
  destruct (H registry_echo registry_echo_ok)
    as [Hreg [_ [Hrem [_ [Hget [Hnames _]]]]]].
  split; [apply Hreg |]. split; [apply Hrem |]. split; [exact Hnames |].
  apply Hget.
Defined.

(** X2: "echo" joins "search"; a second "search" stops the list after it. *)
Lemma register_many_is_sequential_witness :
  (exists self',
      register_many registry_search (map ATool [echo_tool])
      = (self', Ok [echo_tool])
      /\ get_all self' = (get_all registry_search ++ [echo_tool])%list)
  /\ register_many registry_search
       ([ATool echo_tool] ++ ATool search_tool_2 :: [ATool failing_tool])
     = (mkToolRegistry [("search", search_tool); ("echo", echo_tool)],
        Raise (mkExn ToolError "Tool 'search' already registered")).
Proof.
  destruct (register_many_is_sequential registry_search) as [H1 H2].
  split.
  - apply H1.
    + repeat constructor. simpl. tauto.
    + intros t [<- | []]. reflexivity.
  - exact (proj1 (H2 [ATool echo_tool] (ATool search_tool_2)
                     [ATool failing_tool]
                     (mkToolRegistry [("search", search_tool);
                                      ("echo", echo_tool)])
                     [echo_tool]
                     (mkExn ToolError "Tool 'search' already registered")
                     eq_refl eq_refl)).
Defined.

(** X3: removing "echo" leaves "boom". *)
Lemma remove_takes_out_one_name_witness :
  has (remove registry_echo "echo") "echo" = false
  /\ (forall m, m <> "echo" ->
        dict_get (_tools (remove registry_echo "echo")) m
        = dict_get (_tools registry_echo) m)
  /\ get_all (remove registry_echo "echo")
     = filter (fun t => negb (String.eqb (name t) "echo"))
              (get_all registry_echo)
  /\ (has registry_echo "echo" = false ->
      remove registry_echo "echo" = registry_echo).
Proof.
  exact (remove_takes_out_one_name registry_echo "echo" registry_echo_ok).
Defined.

(** X4 at the decorated function add, registered beside echo and boom. *)
Lemma decorated_function_runs_through_registry_witness :
  exists wrapper t self',
    tool fn_add None None = Ok wrapper
    /\ get_tool_from_func wrapper = Some t
    /\ name_or_dunder None fn_add = Ok (name t)
    /\ source t = NATIVE
    /\ _generate_schema fn_add = Ok (parameters t)
    /\ register registry_echo (ACallable wrapper) = (self', Ok t)
    /\ ToolRegistry_execute self' (name t) [("a", JInt 1); ("b", JInt 2)] W0
       = fn_call fn_add [("a", JInt 1); ("b", JInt 2)] W0
    /\ ToolRegistry_execute self' (name t) [("a", JInt 1); ("name", JInt 2)] W0
       = (W0, Raise (mkExn TypeError
            "ToolRegistry.execute() got multiple values for argument 'name'")).
Proof.
  destruct (tool fn_add None None) as [wrapper | e] eqn:Ht;
    [| vm_compute in Ht; discriminate].
  destruct (decorated_function_runs_through_registry
              fn_add wrapper None None registry_echo Ht)
    as [t [Hg [Hn [Hs [Hp Hreg]]]]].
  assert (Hname : name t = "add").
  { vm_compute in Hn. now inversion Hn. }
  destruct Hreg as [self' [Hr [Hcall Hclash]]].
  { rewrite Hname. reflexivity. }
  exists wrapper, t, self'.
  split; [reflexivity |]. split; [exact Hg |]. split; [exact Hn |].
  split; [exact Hs |]. split; [exact Hp |]. split; [exact Hr |].
  split.
  - apply Hcall. reflexivity.
  - apply (Hclash [("a", JInt 1); ("name", JInt 2)] W0 "name"). reflexivity.
Defined.

(** X5 at an object that is no tool. *)
Lemma add_tool_skips_what_is_not_a_tool_witness :
  add_tool agent_echo (AOther "<class 'int'>") = (agent_echo, Ok tt)
  /\ exists e,
       snd (register (registry agent_echo) (AOther "<class 'int'>"))
       = Raise e.
Proof.
  apply (proj1 (add_tool_skips_what_is_not_a_tool
                  agent_echo (AOther "<class 'int'>"))).
  intros t [H | [f [H _]]]; discriminate.
Defined.

(** X6 at list[list[int]]. *)
Lemma type_schema_is_well_typed_witness :
  TypedSchema (_type_to_schema_opt (Some (HListOf [HListOf [HInt]]))).
Proof.
  apply (proj1 (type_schema_is_well_typed (Some (HListOf [HListOf [HInt]]))
                  (fun h H => match H in _ = o
                                    return match o with
                                           | Some h' => model_free h' = true
                                           | None => True
                                           end
                              with eq_refl => eq_refl end))).
Defined.

(** X7 at classify(text, cls). *)
Lemma schema_lists_kept_parameters_in_order_witness :
  exists schema,
    _generate_schema fn_classify = Ok schema
    /\ dict_keys (schema_properties schema) = ["text"]
    /\ schema_required schema = ["text"].
Proof.
  destruct (schema_lists_kept_parameters_in_order fn_classify
              [mkParam "text" POSITIONAL_OR_KEYWORD None;
               mkParam "cls" POSITIONAL_OR_KEYWORD None] eq_refl)
    as [schema [Hs [Hk [Hr _]]]].
  - repeat constructor; simpl; intuition discriminate.
  - intros e H. discriminate.
  - exists schema. split; [exact Hs |]. split; [exact Hk | exact Hr].
Defined.

(** X8 at the built-in max. *)
Lemma normalize_callable_is_total_witness :
  exists t,
    _normalize_callable builtin_max None None = Ok t
    /\ name t = "max"
    /\ source t = NATIVE
    /\ parameters t = empty_object_schema
    /\ Tool_execute t [("default", JInt 0)] W0
       = fn_call builtin_max [("default", JInt 0)] W0.
Proof.
  destruct (normalize_callable_is_total builtin_max None None "max" eq_refl
              eq_refl)
    as [t [Hn [Hname [Hsrc [_ [_ [Hfail Hcall]]]]]]].
  - discriminate.
  - intros e H. inversion H. reflexivity.
  - intros e H. discriminate.
  - exists t. split; [exact Hn |]. split; [exact Hname |].
    split; [exact Hsrc |]. split.
    + apply (Hfail (mkExn ValueError
                      "no signature found for builtin <built-in function max>")).
      reflexivity.
    + apply Hcall. reflexivity.
Defined.

(** X9 at a negative count. *)
Lemma indent_is_linewise_witness :
  _indent code_partial (-4) = code_partial.
Proof.
  apply (proj2 (proj2 (indent_is_linewise code_partial (-4)))). lia.
Defined.

(** X10 at code followed by a line break. *)
Lemma trailing_whitespace_is_dropped_witness :
  wrapped_code (code_hi ++ nl) = wrapped_code code_hi.
Proof.
  exact (proj1 (trailing_whitespace_is_dropped (E := nat) ast_parse_stub
                  run_stub code_hi nl eq_refl)).
Defined.

(** X11 at a vertical tab. *)
Lemma refused_code_has_no_effect_witness :
  RestrictedSandbox_execute ast_parse_stub run_stub sandbox60 vertical_tab
                            None None W0
  = (W0,
     Ok (mkExecutionResult false EmptyString EmptyString VNone
           (Some "Syntax error: invalid non-printable character U+000B (<unknown>, line 1)"))).
Proof.
  exact (refused_code_has_no_effect ast_parse_stub run_stub sandbox60
           vertical_tab None None W0
           (mkExn SyntaxError
              "invalid non-printable character U+000B (<unknown>, line 1)")
           eq_refl).
Defined.

(** X12 at a timeout of -1. *)
Lemma nonpositive_deadline_times_out_witness :
  RestrictedSandbox_execute ast_parse_stub run_stub sandbox60 code_hi
                            None (Some (-1)) W0
  = (mkWorld 0 1 [EmptyString; EmptyString; EmptyString; EmptyString] 0%nat,
     Ok (mkExecutionResult false EmptyString EmptyString VNone
           (Some "Execution timed out after -1s"))).
Proof.
  apply (nonpositive_deadline_times_out ast_parse_stub run_stub sandbox60
           code_hi None (Some (-1)) W0 tt eq_refl).
  simpl. lia.
Defined.

(** X13 at the tools echo and boom. *)
Lemma namespace_binds_tools_by_name_witness :
  dict_get (_build_namespace [echo_tool; failing_tool]) "echo"
  = Some (NsTool echo_tool)
  /\ dict_get (_build_namespace [echo_tool; failing_tool]) "len"
     = dict_get base_namespace "len".
Proof.
  destruct (namespace_binds_tools_by_name [echo_tool; failing_tool])
    as [_ [Htool [Hother _]]].
  split.
  - apply (Htool [] echo_tool [failing_tool] eq_refl).
    intros t' [<- | []]. discriminate.
  - apply Hother. intros t [<- | [<- | []]]; discriminate.
Defined.

(** X15 at a program that prints and then divides by zero. *)
Lemma failed_execution_raises_SandboxError_witness :
  exists e,
    ExecuteCodeTool_execute acquire_stub ect_echo code_partial W0
    = (mkWorld 0 1 [EmptyString; EmptyString; "partial" ++ nl; EmptyString]
               0%nat,
       Raise e)
    /\ exc_class e = SandboxError
    /\ isinstance e Exception = true
    /\ exc_msg e = "Code execution failed: ZeroDivisionError: division by zero".
Proof.
  exact (failed_execution_raises_SandboxError acquire_stub ect_echo
           code_partial W0
           (mkWorld 0 1 [EmptyString; EmptyString; "partial" ++ nl;
                         EmptyString] 0%nat)
           (mkExecutionResult false ("partial" ++ nl) EmptyString VNone
              (Some "ZeroDivisionError: division by zero"))
           eq_refl eq_refl).
Defined.

(** X16 at a vertical tab. *)
Lemma syntax_error_surfaces_as_SandboxError_witness :
  ExecuteCodeTool_execute acquire_stub ect_echo vertical_tab W0
  = (W0,
     Raise (mkExn SandboxError
              "Code execution failed: Syntax error: invalid non-printable character U+000B (<unknown>, line 1)")).
Proof.
  exact (syntax_error_surfaces_as_SandboxError ast_parse_stub run_stub
           e2b_missing settings_restricted ect_echo vertical_tab W0
           (mkExn SyntaxError
              "invalid non-printable character U+000B (<unknown>, line 1)")
           eq_refl eq_refl eq_refl).
Defined.

(** X17 at a sandbox type nobody knows, and at "e2b" without the package. *)
Lemma sandbox_selection_witness :
  get_sandbox ast_parse_stub run_stub e2b_missing settings_restricted
              (Some "lxc")
  = Raise (mkExn ValueError "Unknown sandbox type: lxc")
  /\ get_sandbox (E := nat) ast_parse_stub run_stub
       (E2BSandbox_init false
          (RestrictedSandbox_protocol ast_parse_stub run_stub sandbox60))
       settings_restricted (Some "e2b")
     = Raise (mkExn SandboxError
                "E2B not installed. Install with: pip install polytool[e2b]").
Proof.
  destruct (sandbox_selection ast_parse_stub run_stub e2b_missing
              settings_restricted (Some "lxc")) as [_ [_ [Hunknown _]]].
  destruct (sandbox_selection ast_parse_stub run_stub e2b_missing
              settings_restricted (Some "e2b")) as [_ [_ [_ [_ He2b]]]].
  split.
  - apply Hunknown; discriminate.
  - apply He2b. reflexivity.
Defined.

(** X18 at the backend that asks for two calls and then answers "done". *)
Lemma returned_run_is_a_bounded_history_witness :
  exists w' r trace,
    run_observed json_loads_stub repr_stub agent_scripted "hi" None W0
    = (w', Ok (r, trace))
    /\ run json_loads_stub repr_stub agent_scripted "hi" None W0
       = (w', Ok r)
    /\ Z.of_nat (length trace) <= Z.max 0 (max_iterations agent_scripted)
    /\ run_ending (Z.to_nat (max_iterations agent_scripted)) trace r
    /\ (exists seed replies,
          seed_conversation repr_stub agent_scripted "hi" None = Ok seed
          /\ Forall2 replies_to trace replies
          /\ messages r = (seed ++ history trace replies)%list)
    /\ input_tokens (usage r) = sum_usage input_tokens trace
    /\ output_tokens (usage r) = sum_usage output_tokens trace
    /\ total_tokens (usage r) = sum_usage total_tokens trace.
Proof.
  destruct (run_observed json_loads_stub repr_stub agent_scripted "hi" None
              W0) as [w' [[r trace] | e]] eqn:Hrun;
    [| vm_compute in Hrun; discriminate].
  exists w', r, trace. split; [reflexivity |].
  exact (returned_run_is_a_bounded_history json_loads_stub repr_stub
           agent_scripted "hi" None W0 w' r trace Hrun).
Defined.

(** X19 at the same run: one direct call, one code execution. *)
Lemma calls_are_counted_by_kind_witness :
  exists w' r trace,
    run_observed json_loads_stub repr_stub agent_scripted "hi" None W0
    = (w', Ok (r, trace))
    /\ tool_calls_made r = Z.of_nat (length (requested_calls trace))
    /\ usage_tool_calls (usage r) = count_direct (requested_calls trace)
    /\ ptc_executions (usage r) = count_ptc (requested_calls trace)
    /\ usage_tool_calls (usage r) + ptc_executions (usage r)
       = tool_calls_made r
    /\ ptc_used r = existsb is_ptc (requested_calls trace)
    /\ (ptc_used r = true <-> 0 < ptc_executions (usage r)).
Proof.
  destruct (run_observed json_loads_stub repr_stub agent_scripted "hi" None
              W0) as [w' [[r trace] | e]] eqn:Hrun;
    [| vm_compute in Hrun; discriminate].
  exists w', r, trace. split; [reflexivity |].
  exact (calls_are_counted_by_kind json_loads_stub repr_stub
           agent_scripted "hi" None W0 w' r trace Hrun).
Defined.

(** The same run, evaluated. *)
Example scripted_run_counts :
  match snd (run json_loads_stub repr_stub agent_scripted "hi" None W0) with
  | Ok r =>
      output r = "done"
      /\ usage r = mkUsage 17 8 25 1 1
      /\ tool_calls_made r = 2
      /\ ptc_used r = true
      /\ length (messages r) = 6%nat
  | Raise _ => False
  end.
Proof. vm_compute. repeat split. Qed.

(** X20 at the backend that answers "Hello". *)
Lemma answer_without_calls_ends_run_witness :
  exists seed,
    seed_conversation repr_stub agent_plain "hi" None = Ok seed
    /\ run json_loads_stub repr_stub agent_plain "hi" None W0
       = (mkWorld 0 1 [EmptyString; EmptyString] 1%nat,
          Ok (mkAgentResult "Hello" (mkUsage 7 3 10 0 0)
                (seed ++ [mkMessage "assistant" (Some "Hello") None None None])
                0 false)).
Proof.
  destruct (seed_conversation repr_stub agent_plain "hi" None)
    as [seed | e] eqn:Hseed; [| vm_compute in Hseed; discriminate].
  exists seed. split; [reflexivity |].
  exact (answer_without_calls_ends_run json_loads_stub repr_stub
           agent_plain "hi" None W0
           (mkWorld 0 1 [EmptyString; EmptyString] 1%nat) seed
           (mkMessage "assistant" (Some "Hello") None None None)
           (mkUsage 7 3 10 0 0) eq_refl Hseed eq_refl eq_refl).
Defined.


(** A tool whose signature cannot be rendered stops the run before the
    backend is asked, whatever the bound; a conversation that brings its own
    system message is not affected. *)
Example run_raises_when_a_signature_cannot_be_rendered :
  get_signature repr_stub union_tool
  = Raise (mkExn TypeError "unhashable type: 'list'")
  /\ run json_loads_stub repr_stub agent_union "hi" None W0
     = (W0, Raise (mkExn TypeError "unhashable type: 'list'"))
  /\ match snd (run json_loads_stub repr_stub agent_union "hi"
                    (Some [system_message "Custom rules."]) W0) with
     | Ok r => output r = "[Max iterations reached]"
     | Raise _ => False
     end.
Proof. vm_compute. repeat split. Qed.

(** X22 at a tool name the registry does not hold. *)
Lemma unknown_tool_is_reported_witness :
  let call := mkToolCall "call_7" "missing" "{}" in
  let st := mkLoopState [] Usage0 0 false in
  exists st',
    dispatch_tool_call json_loads_stub agent_echo call st W0 = (W0, Ok st')
    /\ conversation st'
       = [mkMessage "tool"
            (Some "Error: Tool 'missing' not found. Available: echo, boom")
            None (Some "call_7") (Some "missing")]
    /\ calls_made st' = 1.
Proof.
  exact (unknown_tool_is_reported json_loads_stub agent_echo
           (mkToolCall "call_7" "missing" "{}")
           (mkLoopState [] Usage0 0 false) W0 [] eq_refl eq_refl eq_refl).
Defined.

(** X23 at arguments that decode to a list. *)
Lemma unbindable_arguments_run_no_tool_witness :
  let call := mkToolCall "call_9" "echo" "[]" in
  let st := mkLoopState [] Usage0 0 false in
  exists e st',
    unpack_kwargs (JArr []) = Raise e
    /\ exc_class e = TypeError
    /\ dispatch_tool_call json_loads_more agent_echo call st W0 = (W0, Ok st')
    /\ conversation st'
       = ([] ++ [mkMessage "tool" (Some ("Error: " ++ exc_msg e)%string) None
                   (Some "call_9") (Some "echo")])%list
    /\ calls_made st' = 0 + 1
    /\ ((forall items, JArr [] <> JObj items) ->
        exc_msg e
        = ("polytool.tools.registry.ToolRegistry.execute() argument "
           ++ "after ** must be a mapping, not " ++ "list")%string).
Proof.
  apply (unbindable_arguments_run_no_tool json_loads_more agent_echo
           (mkToolCall "call_9" "echo" "[]")
           (mkLoopState [] Usage0 0 false) W0 (JArr []) eq_refl).
  intros items H. discriminate.
Defined.


(** X25 at a conversation that brings its own system message. *)
Lemma seeded_conversation_shape_witness :
  seed_conversation repr_stub agent_plain "hi"
    (Some [mkMessage "system" (Some "Custom rules.") None None None])
  = Ok [mkMessage "system" (Some "Custom rules.") None None None;
        user_message "hi"].
Proof.
  destruct (seeded_conversation_shape repr_stub agent_plain "hi"
              (Some [mkMessage "system" (Some "Custom rules.") None None None]))
    as [_ [Hkept _]].
  apply (Hkept (mkMessage "system" (Some "Custom rules.") None None None) []);
    reflexivity.
Defined.

(** X26 at a backend that is rate limited. *)
Lemma provider_failures_are_ProviderErrors_witness :
  (exists cause,
      isinstance cause Exception = true
      /\ mkExn ProviderError "LiteLLM error: rate limit exceeded"
         = mkExn ProviderError ("LiteLLM error: " ++ exc_msg cause)
      /\ (acompletion_rate_limited (map _message_to_dict [user_message "hi"])
                                   None W0
          = (W0, Raise cause)
          \/ (exists response,
                 acompletion_rate_limited
                   (map _message_to_dict [user_message "hi"]) None W0
                 = (W0, Ok response)
                 /\ choices response = []
                 /\ exc_msg cause = "list index out of range")))
  \/ (isinstance (mkExn ProviderError "LiteLLM error: rate limit exceeded")
                 Exception = false
      /\ acompletion_rate_limited (map _message_to_dict [user_message "hi"])
                                  None W0
         = (W0, Raise (mkExn ProviderError
                         "LiteLLM error: rate limit exceeded"))).
Proof.
  exact (provider_failures_are_ProviderErrors acompletion_rate_limited
           [user_message "hi"] [] W0 W0
           (mkExn ProviderError "LiteLLM error: rate limit exceeded")
           eq_refl).
Defined.

(** A response without choices fails the same way. *)
Example empty_response_is_a_ProviderError :
  LiteLLMProvider_generate acompletion_empty [user_message "hi"] [] W0
  = (W0, Raise (mkExn ProviderError "LiteLLM error: list index out of range")).
Proof. reflexivity. Qed.

(** X27 at a response with one tool call. *)
Lemma provider_answer_is_first_choice_witness :
  exists m u,
    LiteLLMProvider_generate acompletion_call [user_message "hi"] [echo_tool]
                             W0
    = (W0, Ok (m, u))
    /\ role m = "assistant"
    /\ calls_of m = [mkToolCall "call_1" "echo" "{}"]
    /\ u = mkUsage 10 5 15 0 0.
Proof.
  destruct (provider_answer_is_first_choice acompletion_call
              [user_message "hi"] [echo_tool] W0 W0
              (mkMessage "assistant" None
                 (Some [mkToolCall "call_1" "echo" "{}"]) None None)
              (mkUsage 10 5 15 0 0) eq_refl)
    as [response [choice [rest [_ [_ [Hrole [_ [Hcalls _]]]]]]]].
  eexists. eexists. split; [reflexivity |].
  split; [exact Hrole |]. split; [reflexivity | reflexivity].
Defined.
